(** * Twitch2YT: a shallow embedding of [Twitch2YT.py] and its properties

    The relay script resolves the playable variants of a Twitch channel,
    launches one ffmpeg subprocess that pushes the chosen variant to a
    YouTube ingest URL, and supervises it: restart on death, rotation after
    a maximum runtime, upgrade when the [best] variant appears.

    The embedding follows the source function by function.  Pure helpers
    ([pick_best_stream], the string tests) are Rocq functions.  Code with
    effects runs in a state-and-exception monad over a [World] holding the
    process table, the clock, the module globals, the [Relay] object and the
    answers of the environment (resolver, launches, waits, signals).

    Conventions.  The script has one thread, so taking [process_lock] or
    [self.lock] does nothing and is left out.  Time is in whole seconds and
    passes in sleeps and in waits that time out.  [terminate], [kill] and
    [poll] do not raise; [wait] on a subprocess that has exited returns at
    once.  Ctrl-C is followed when it arrives while the script sleeps, which
    is where the script spends its time; what the call of the resolver
    raises, Ctrl-C included, is an answer [None] of the resolver, since the
    bare [except] around that call makes no difference between them; a
    signal at any other instant is not part of the embedding.  A
    [while True] loop is unrolled a given number of times, and its result is
    [OutOfFuel] when it is still going after that. *)

From Stdlib Require Import ZArith Ascii.
From stdpp Require Import gmap strings list fin_maps pretty.

Local Open Scope string_scope.
Local Open Scope Z_scope.
Set Warnings "-clear-no-such-hyp".

(** ** Python exceptions and call results *)

Inductive exn : Type :=
  | TimeoutExpired      (* subprocess.TimeoutExpired, from [wait(timeout=..)] *)
  | OSError             (* a launch that fails in [Popen] *)
  | CalledProcessError  (* [subprocess.run(.., check=True)] *)
  | RuntimeError        (* raised by [get_ffmpeg_path] *)
  | StreamError         (* what the resolver or [to_url] raises *)
  | StopIteration
  | KeyError
  | TypeError
  | KeyboardInterrupt.

Global Instance exn_eq_dec : EqDecision exn.
Proof. solve_decision. Defined.

(** [except Exception] catches every exception of the model but
    [KeyboardInterrupt], which derives from [BaseException] only. *)
Definition is_Exception (e : exn) : bool :=
  match e with KeyboardInterrupt => false | _ => true end.

(** The result of running a piece of code: it returns, it raises, it is
    stuck in a system call that does not return by itself, or the bounded
    unrolling of a [while True] loop is used up while the loop is still
    going. *)
Inductive outcome (A : Type) : Type :=
  | Ret (a : A)
  | Raise (e : exn)
  | Blocked
  | OutOfFuel.
Arguments Ret {A} a.
Arguments Raise {A} e.
Arguments Blocked {A}.
Arguments OutOfFuel {A}.

(** ** Strings

    A Python string is a sequence of code points; the strings of the
    embedding are those whose code points are below 256, one [ascii] per
    code point.  The character tests are [str]'s own on these code points,
    so they are not the ASCII ones: the superscripts U+00B2, U+00B3 and
    U+00B9 are digits for [str.isdigit], U+0085 and U+00A0 are white space
    for [str.strip], and [str.lower] maps the capital letters U+00C0 to U+00DE
    (but the sign U+00D7) as it maps A to Z.  Python compares strings by
    code point, which is [String.compare]. *)

(** [c.isdigit()] *)
Definition isdigit (c : ascii) : bool :=
  let n := N_of_ascii c in
  ((48 <=? n)%N && (n <=? 57)%N) || (n =? 178)%N || (n =? 179)%N || (n =? 185)%N.

(** [c.lower()] *)
Definition lower_char (c : ascii) : ascii :=
  let n := N_of_ascii c in
  if ((65 <=? n)%N && (n <=? 90)%N)
     || ((192 <=? n)%N && (n <=? 222)%N && negb (n =? 215)%N)
  then ascii_of_N (n + 32) else c.

Fixpoint lower (s : string) : string :=
  match s with
  | EmptyString => EmptyString
  | String c r => String (lower_char c) (lower r)
  end.

(** [any(c.isdigit() for c in q)] *)
Fixpoint any_isdigit (q : string) : bool :=
  match q with
  | EmptyString => false
  | String c r => isdigit c || any_isdigit r
  end.

(** [needle in hay] on strings. *)
Fixpoint contains (needle hay : string) : bool :=
  String.prefix needle hay ||
  match hay with
  | EmptyString => false
  | String _ r => contains needle r
  end.

(** [s.endswith(suf)] *)
Definition endswith (s suf : string) : bool :=
  let n := String.length s in
  let m := String.length suf in
  (m <=? n)%nat && String.eqb (String.substring (n - m) m s) suf.

(** ** Dictionaries that are enumerated

    [streams] is a Python dict whose enumeration order is used, so it is an
    association list in insertion order; a dict has each key once. *)

Section Dict.
Context {V : Type}.

Definition dict := list (string * V).

Definition keys (d : dict) : list string := d.*1.

(** [k in d] *)
Definition dict_mem (k : string) (d : dict) : bool :=
  existsb (String.eqb k) (keys d).

(** [d[k]], [None] standing for [KeyError] *)
Fixpoint dict_get (k : string) (d : dict) : option V :=
  match d with
  | [] => None
  | (k', v) :: r => if String.eqb k k' then Some v else dict_get k r
  end.

(** [sorted(qs, reverse=True)]: a stable sort into descending order. *)
Fixpoint insert_desc (x : string) (l : list string) : list string :=
  match l with
  | [] => [x]
  | y :: r => if String.ltb x y then y :: insert_desc x r else x :: y :: r
  end.

Definition sorted_reverse (qs : list string) : list string :=
  foldr insert_desc [] qs.

Definition pick_best_stream (streams : dict) : outcome (string * V) :=
  if dict_mem "best" streams then
    match dict_get "best" streams with
    | Some v => Ret ("best", v)
    | None => Raise KeyError
    end
  else
    let qs := filter (fun q => any_isdigit q = true) (keys streams) in
    match sorted_reverse qs with
    | best_q :: _ =>
        match dict_get best_q streams with
        | Some v => Ret (best_q, v)
        | None => Raise KeyError
        end
    | [] =>
        match streams with
        | item :: _ => Ret item
        | [] => Raise StopIteration
        end
    end.
End Dict.
Arguments dict V : clear implicits.

(** ** The world the script runs in *)

(** A stream variant as the resolver hands it out: an opaque handle whose
    [to_url()] either yields a URL or raises. *)
Record Variant : Type := mkVariant {
  vid : nat;
  to_url : option string
}.

(** What [get_ffmpeg_path] can see of the file system. *)
Record FS : Type := mkFS {
  ffmpeg_exe : option string;   (* [iio_ffmpeg.get_ffmpeg_exe()], [None]: it raises *)
  files : list string;          (* paths for which [os.path.isfile] holds *)
  executables : list string;    (* paths for which [os.access(.., X_OK)] holds *)
  os_name : string              (* [os.name] *)
}.

(** The lines the script logs, one constructor per call site. *)
Inductive LogLine : Type :=
  | LogUrlError                       (* "Cannot get stream URL: .." *)
  | LogStarted (pid : nat) (quality encoder : string) (adjusted : bool)
                                      (* "FFmpeg PID .. started | Quality: .. | Encoder: .." *)
  | LogAttemptFailed (attempt : nat) (e : exn)
                                      (* "FFmpeg attempt .. failed: .." *)
  | LogOnline (quality : string)      (* "Twitch stream online | Quality: .." *)
  | LogWaiting                        (* "Waiting for Twitch stream..." *)
  | LogEnded                          (* "FFmpeg ended unexpectedly, restarting..." *)
  | LogMaxRuntime                     (* "Max runtime reached, restarting FFmpeg..." *)
  | LogUpgrade                        (* "Higher quality available, upgrading..." *)
  | LogOffline                        (* "Stream offline, waiting..." *)
  | LogFailedStart (quality : string) (* "Failed to start FFmpeg for .., retrying in 10s" *)
  | LogStopping (pid : nat)           (* "Stopping previous FFmpeg PID .." *)
  | LogSupport                        (* "Support: www.dytuk.media/pay" *)
  | LogExiting.                       (* "Exiting..." *)

(** Everything the script does to the outside, in the order it happens. *)
Inductive Event : Type :=
  | EvLog (l : LogLine)
  | EvSleep (secs : Z)
  | EvPopen (cmd : list string) (handle : option nat)
  | EvTerminate (p : nat)
  | EvWait (p : nat) (timeout : option Z) (exited : bool)
  | EvKill (p : nat)
  | EvPoll (p : nat) (exited : bool)
  | EvResolve (found : option (list string))
  | EvEncoders (path : string).

(** The fields of a [Relay] object. *)
Record Relay : Type := mkRelay {
  current_ffmpeg : option nat;
  current_quality : option string;
  start_time : option Z;
  stream_obj : option Variant;
  last_stream_status : option string;
  last_upgrade_logged : bool
}.

(** [Relay.__init__] *)
Definition Relay_init : Relay :=
  mkRelay None None None None None false.

(** The answers of the environment, one list per kind of call, consumed
    from the front.  A list that has run out answers as in an undisturbed
    run: launches succeed, a waited-for process exits, a polled process is
    still running, the resolver finds nothing, no signal arrives, and the
    file system is [fs]. *)
Record Env : Type := mkEnv {
  popen_script : list bool;                       (* does [Popen] succeed *)
  wait_script : list bool;                        (* does the process exit during [wait] *)
  poll_script : list bool;                        (* has the process died by this [poll] *)
  resolve_script : list (option (dict Variant));  (* [streamlink.streams], [None]: it raises *)
  sigint_script : list bool;                      (* does Ctrl-C arrive during this sleep *)
  lookup_script : list FS;                        (* the file system at each look-up *)
  fs : FS;
  encoders_out : option string                    (* stdout of [ffmpeg -encoders], [None]: the run fails *)
}.

Record World : Type := mkWorld {
  live : gset nat;                    (* the subprocesses that are running *)
  next_pid : nat;                     (* the next fresh handle *)
  clock : Z;                          (* [time.time()], in seconds *)
  trace : list Event;                 (* the events so far, latest first *)
  env : Env;
  active_processes : gmap string nat; (* the module global of that name *)
  relay : Relay                       (* the one [Relay] object of [__main__] *)
}.

Definition with_live (f : gset nat -> gset nat) (w : World) : World :=
  mkWorld (f (live w)) (next_pid w) (clock w) (trace w) (env w)
          (active_processes w) (relay w).
Definition with_next_pid (n : nat) (w : World) : World :=
  mkWorld (live w) n (clock w) (trace w) (env w) (active_processes w) (relay w).
Definition with_clock (c : Z) (w : World) : World :=
  mkWorld (live w) (next_pid w) c (trace w) (env w) (active_processes w) (relay w).
Definition with_trace (t : list Event) (w : World) : World :=
  mkWorld (live w) (next_pid w) (clock w) t (env w) (active_processes w) (relay w).
Definition with_env (e : Env) (w : World) : World :=
  mkWorld (live w) (next_pid w) (clock w) (trace w) e (active_processes w) (relay w).
Definition with_active (a : gmap string nat) (w : World) : World :=
  mkWorld (live w) (next_pid w) (clock w) (trace w) (env w) a (relay w).
Definition with_relay (r : Relay) (w : World) : World :=
  mkWorld (live w) (next_pid w) (clock w) (trace w) (env w) (active_processes w) r.

Definition with_popen_script (s : list bool) (e : Env) : Env :=
  mkEnv s (wait_script e) (poll_script e) (resolve_script e) (sigint_script e)
        (lookup_script e) (fs e) (encoders_out e).
Definition with_wait_script (s : list bool) (e : Env) : Env :=
  mkEnv (popen_script e) s (poll_script e) (resolve_script e) (sigint_script e)
        (lookup_script e) (fs e) (encoders_out e).
Definition with_poll_script (s : list bool) (e : Env) : Env :=
  mkEnv (popen_script e) (wait_script e) s (resolve_script e) (sigint_script e)
        (lookup_script e) (fs e) (encoders_out e).
Definition with_resolve_script (s : list (option (dict Variant))) (e : Env) : Env :=
  mkEnv (popen_script e) (wait_script e) (poll_script e) s (sigint_script e)
        (lookup_script e) (fs e) (encoders_out e).
Definition with_sigint_script (s : list bool) (e : Env) : Env :=
  mkEnv (popen_script e) (wait_script e) (poll_script e) (resolve_script e) s
        (lookup_script e) (fs e) (encoders_out e).
Definition with_lookup_script (s : list FS) (e : Env) : Env :=
  mkEnv (popen_script e) (wait_script e) (poll_script e) (resolve_script e)
        (sigint_script e) s (fs e) (encoders_out e).

(** The effect of one event on the set of running subprocesses: a launch
    adds its handle; an exit seen by [wait] or [poll], and a kill, remove
    it. *)
Definition apply_event (e : Event) (L : gset nat) : gset nat :=
  match e with
  | EvPopen _ (Some p) => {[p]} ∪ L
  | EvWait p _ true => L ∖ {[p]}
  | EvKill p => L ∖ {[p]}
  | EvPoll p true => L ∖ {[p]}
  | _ => L
  end.

(** The running set after a run of events, earliest first. *)
Definition live_after (evs : list Event) (L : gset nat) : gset nat :=
  foldl (fun L e => apply_event e L) L evs.

(** The running sets at every instant of a run of events. *)
Fixpoint live_history (evs : list Event) (L : gset nat) : list (gset nat) :=
  match evs with
  | [] => [L]
  | e :: r => L :: live_history r (apply_event e L)
  end.

(** Every event goes through [emit], so [live] always is the replay of the
    trace. *)
Definition emit (e : Event) (w : World) : World :=
  with_trace (e :: trace w) (with_live (apply_event e) w).

(** ** The monad of effectful code *)

Definition M (A : Type) : Type := World -> outcome A * World.

Definition ret {A} (a : A) : M A := fun w => (Ret a, w).

Definition raise {A} (e : exn) : M A := fun w => (Raise e, w).

Definition bind {A B} (m : M A) (k : A -> M B) : M B := fun w =>
  match m w with
  | (Ret a, w1) => k a w1
  | (Raise e, w1) => (Raise e, w1)
  | (Blocked, w1) => (Blocked, w1)
  | (OutOfFuel, w1) => (OutOfFuel, w1)
  end.

(** [try: body / except <catches>: handler] *)
Definition try_except {A} (body : M A) (catches : exn -> bool)
    (handler : exn -> M A) : M A := fun w =>
  match body w with
  | (Raise e, w1) => if catches e then handler e w1 else (Raise e, w1)
  | r => r
  end.

(** A bare [except:] *)
Definition anything (e : exn) : bool := true.

Declare Scope py_scope.
Delimit Scope py_scope with py.
Notation "x <- m ;; k" := (bind m (fun x => k))
  (at level 100, m at next level, right associativity) : py_scope.
Notation "m ;; k" := (bind m (fun _ => k))
  (at level 100, right associativity) : py_scope.
Local Open Scope py_scope.

(** A pure call that may raise, run inside effectful code. *)
Definition lift {A} (o : outcome A) : M A := fun w => (o, w).

Definition get {A} (f : World -> A) : M A := fun w => (Ret (f w), w).
Definition modify (f : World -> World) : M unit := fun w => (Ret tt, f w).

Definition logger (l : LogLine) : M unit := modify (emit (EvLog l)).

(** ** The library calls the script makes *)

Definition advance (secs : Z) (w : World) : World := with_clock (clock w + secs) w.

(** [time.sleep(secs)].  This is where Ctrl-C is followed: the answer
    [true] of the signal script is a Ctrl-C during this sleep. *)
Definition time_sleep (secs : Z) : M unit := fun w =>
  match sigint_script (env w) with
  | true :: r =>
      (Raise KeyboardInterrupt, with_env (with_sigint_script r (env w)) w)
  | false :: r =>
      (Ret tt, emit (EvSleep secs) (advance secs (with_env (with_sigint_script r (env w)) w)))
  | [] => (Ret tt, emit (EvSleep secs) (advance secs w))
  end.

(** [time.time()], on the clock of the embedding: whole seconds, which pass
    in sleeps and in waits that time out.  The calls in between take no
    time on it, so it is a lower bound of the wall clock. *)
Definition time_time : M Z := get clock.

(** [subprocess.Popen(cmd, ..)]: a fresh running subprocess, or [OSError]. *)
Definition Popen (cmd : list string) : M nat := fun w =>
  let spawn w :=
    let p := next_pid w in
    (Ret p, emit (EvPopen cmd (Some p)) (with_next_pid (S p) w)) in
  match popen_script (env w) with
  | false :: r =>
      (Raise OSError, emit (EvPopen cmd None) (with_env (with_popen_script r (env w)) w))
  | true :: r => spawn (with_env (with_popen_script r (env w)) w)
  | [] => spawn w
  end.

(** [p.terminate()]: the request to exit; whether the process obeys shows
    at the next [wait] or [poll]. *)
Definition terminate (p : nat) : M unit := modify (emit (EvTerminate p)).

(** [p.kill()] *)
Definition kill (p : nat) : M unit := modify (emit (EvKill p)).

(** [p.wait(timeout=..)]: returns at once for a process that has exited;
    otherwise the process exits in time, or the timeout passes and
    [TimeoutExpired] is raised, or, with no timeout, the call never
    returns. *)
Definition wait (p : nat) (timeout : option Z) : M unit := fun w =>
  if decide (p ∈ live w) then
    let exits w := (Ret tt, emit (EvWait p timeout true) w) in
    match wait_script (env w) with
    | false :: r =>
        let w1 := with_env (with_wait_script r (env w)) w in
        match timeout with
        | Some t => (Raise TimeoutExpired, emit (EvWait p timeout false) (advance t w1))
        | None => (Blocked, emit (EvWait p timeout false) w1)
        end
    | true :: r => exits (with_env (with_wait_script r (env w)) w)
    | [] => exits w
    end
  else (Ret tt, emit (EvWait p timeout true) w).

(** [p.poll() is not None] *)
Definition poll_exited (p : nat) : M bool := fun w =>
  if decide (p ∈ live w) then
    match poll_script (env w) with
    | true :: r =>
        (Ret true, emit (EvPoll p true) (with_env (with_poll_script r (env w)) w))
    | false :: r =>
        (Ret false, emit (EvPoll p false) (with_env (with_poll_script r (env w)) w))
    | [] => (Ret false, emit (EvPoll p false) w)
    end
  else (Ret true, emit (EvPoll p true) w).

(** [streamlink.streams(url).items()] *)
Definition streamlink_streams : M (dict Variant) := fun w =>
  match resolve_script (env w) with
  | Some d :: r =>
      (Ret d, emit (EvResolve (Some (keys d))) (with_env (with_resolve_script r (env w)) w))
  | None :: r =>
      (Raise StreamError, emit (EvResolve None) (with_env (with_resolve_script r (env w)) w))
  | [] => (Ret [], emit (EvResolve (Some [])) w)
  end.

(** The file system as it is at this look-up. *)
Definition look_up : M FS := fun w =>
  match lookup_script (env w) with
  | f :: r => (Ret f, with_env (with_lookup_script r (env w)) w)
  | [] => (Ret (fs (env w)), w)
  end.

(** [subprocess.run([path, "-encoders"], capture_output=True, text=True,
    check=True).stdout] *)
Definition run_encoders (path : string) : M string := fun w =>
  match encoders_out (env w) with
  | Some out => (Ret out, emit (EvEncoders path) w)
  | None => (Raise CalledProcessError, emit (EvEncoders path) w)
  end.

(** ** FFmpeg helpers *)

Definition isfile (f : FS) (path : string) : bool := bool_decide (path ∈ files f).
Definition access_X_OK (f : FS) (path : string) : bool :=
  bool_decide (path ∈ executables f).

(** The checks of [get_ffmpeg_path] on one state of the file system. *)
Definition ffmpeg_path_in (f : FS) : outcome string :=
  match ffmpeg_exe f with
  | None => Raise RuntimeError
  | Some path =>
      if negb (isfile f path) then Raise RuntimeError
      else if negb (access_X_OK f path) then
        if String.eqb (os_name f) "nt" && negb (endswith path ".exe")
           && isfile f (path +:+ ".exe")
        then Ret (path +:+ ".exe")
        else Raise RuntimeError
      else Ret path
  end.

Definition get_ffmpeg_path : M string :=
  f <- look_up ;; lift (ffmpeg_path_in f).

(** The scan of the capability output, after [.lower()]. *)
Definition scan_encoders (out : string) : option string :=
  if contains "h264_nvenc" out then Some "h264_nvenc"
  else if contains "h264_amf" out || contains "h264_qsv" out then
    Some (if contains "h264_amf" out then "h264_amf" else "h264_qsv")
  else None.

Definition detect_gpu_encoder : M (option string) :=
  try_except
    (path <- get_ffmpeg_path ;;
     out <- run_encoders path ;;
     ret (scan_encoders (lower out)))
    anything
    (fun _ => ret None).

(** ** Stream helpers *)

(** The module globals fixed before the relay starts: the configuration,
    the probe of the machine, and [gpu_encoder]. *)
Record Config : Type := mkConfig {
  TWITCH_USER : string;
  YOUTUBE_RTMP : string;
  cpu_cores : nat;
  low_ram : bool;                 (* [total_ram_gb <= 4] *)
  gpu_encoder : option string
}.

Section Script.
Variable cfg : Config.

Definition low_cpu : bool := (cpu_cores cfg <=? 2)%nat.

Definition FFMPEG_MAX_RUNTIME : Z := 37800.   (* 10.5*60*60 *)

(** The body of [get_available_streams] around the call of the resolver,
    [streams]: the comprehension over what the call returns, and the bare
    [except] that answers whatever the call raises with the empty
    mapping. *)
Definition get_available_streams_from (streams : M (dict Variant))
    : M (dict Variant) :=
  try_except
    (items <- streams ;;
     ret (List.filter (fun ns => negb (contains "audio" (lower ns.1))) items))
    anything
    (fun _ => ret []).

Definition get_available_streams : M (dict Variant) :=
  get_available_streams_from streamlink_streams.

(** [l.insert(i, x)] *)
Definition list_insert_at {A} (i : nat) (x : A) (l : list A) : list A :=
  take i l ++ x :: drop i l.

Definition build_cmd (ffmpeg_path url : string) : list string :=
  let cmd := [ffmpeg_path; "-nostats"; "-loglevel"; "warning"; "-re"; "-i"; url;
              "-c:a"; "aac"; "-ar"; "44100"; "-b:a"; "128k"; "-ac"; "2";
              "-f"; "flv"; YOUTUBE_RTMP cfg] in
  let cmd :=
    match gpu_encoder cfg with
    | Some enc => if String.eqb enc "" then cmd
                  else list_insert_at 8 enc (list_insert_at 7 "-c:v" cmd)
    | None => cmd
    end in
  if low_cpu || low_ram cfg then
    cmd ++ ["-threads"; pretty (Nat.max 1 (cpu_cores cfg)); "-bufsize"; "2M";
            "-fflags"; "+genpts"]
  else cmd.

Definition encoder_used : string :=
  match gpu_encoder cfg with
  | Some enc => if String.eqb enc "" then "copy" else enc
  | None => "copy"
  end.

(** The retirement inside [start_ffmpeg]:
    [old_proc.terminate(); old_proc.wait(timeout=10)]. *)
Definition retire_on_launch (old_proc : nat) : M unit :=
  terminate old_proc ;; wait old_proc (Some 10).

(** The body of the [try] of one launch attempt: start the subprocess,
    retire the one recorded in [active_processes], record the new one. *)
Definition launch (cmd : list string) (quality : string) : M nat :=
  proc <- Popen cmd ;;
  old_proc <- get (fun w => active_processes w !! TWITCH_USER cfg) ;;
  match old_proc with
  | Some old =>
      if negb (Nat.eqb old proc) then retire_on_launch old
      else ret tt
  | None => ret tt
  end ;;
  modify (fun w => with_active (<[TWITCH_USER cfg := proc]> (active_processes w)) w) ;;
  logger (LogStarted proc quality encoder_used (low_cpu || low_ram cfg)) ;;
  ret proc.

(** The [for attempt in range(1, retries+1)] loop and the [return None]
    after it. *)
Fixpoint attempts (cmd : list string) (quality : string) (range : list nat)
    : M (option nat) :=
  match range with
  | [] => ret None
  | attempt :: rest =>
      r <- try_except
             (proc <- launch cmd quality ;; ret (Some proc))
             is_Exception
             (fun e => logger (LogAttemptFailed attempt e) ;; time_sleep 3 ;; ret None) ;;
      match r with
      | Some proc => ret (Some proc)
      | None => attempts cmd quality rest
      end
  end.

Definition start_ffmpeg (stream : Variant) (quality : string) (retries : nat)
    : M (option nat) :=
  match to_url stream with
  | None => logger LogUrlError ;; ret None
  | Some url =>
      ffmpeg_path <- get_ffmpeg_path ;;
      attempts (build_cmd ffmpeg_path url) quality (seq 1 retries)
  end.

(** ** Relay *)

Definition set_current_ffmpeg (p : option nat) (r : Relay) : Relay :=
  mkRelay p (current_quality r) (start_time r) (stream_obj r)
          (last_stream_status r) (last_upgrade_logged r).
Definition set_current_quality (q : option string) (r : Relay) : Relay :=
  mkRelay (current_ffmpeg r) q (start_time r) (stream_obj r)
          (last_stream_status r) (last_upgrade_logged r).
Definition set_start_time (t : option Z) (r : Relay) : Relay :=
  mkRelay (current_ffmpeg r) (current_quality r) t (stream_obj r)
          (last_stream_status r) (last_upgrade_logged r).
Definition set_stream_obj (s : option Variant) (r : Relay) : Relay :=
  mkRelay (current_ffmpeg r) (current_quality r) (start_time r) s
          (last_stream_status r) (last_upgrade_logged r).
Definition set_last_stream_status (s : option string) (r : Relay) : Relay :=
  mkRelay (current_ffmpeg r) (current_quality r) (start_time r) (stream_obj r)
          s (last_upgrade_logged r).
Definition set_last_upgrade_logged (b : bool) (r : Relay) : Relay :=
  mkRelay (current_ffmpeg r) (current_quality r) (start_time r) (stream_obj r)
          (last_stream_status r) b.

(** [self.<field> = ..] *)
Definition self_set (f : Relay -> Relay) : M unit :=
  modify (fun w => with_relay (f (relay w)) w).
(** [self.<field>] *)
Definition self_get {A} (f : Relay -> A) : M A := get (fun w => f (relay w)).

(** [x != s] for a field that is [None] or a string *)
Definition differs (x : option string) (s : string) : bool :=
  match x with
  | Some y => negb (String.eqb y s)
  | None => true
  end.

(** The retirement inside [Relay.start_new_ffmpeg], around its wait,
    [waiting]: [terminate()], then [try: <the wait>] / [except: kill()],
    the bare [except] answering whatever the wait raises. *)
Definition retire_on_handoff_from (waiting : M unit) (old_proc : nat) : M unit :=
  terminate old_proc ;;
  try_except waiting anything (fun _ => kill old_proc).

(** The wait is [old_proc.wait(timeout=10)]. *)
Definition retire_on_handoff (old_proc : nat) : M unit :=
  retire_on_handoff_from (wait old_proc (Some 10)) old_proc.

(** [Relay.start_new_ffmpeg]: the handoff. *)
Definition start_new_ffmpeg (stream : Variant) (quality : string) : M unit :=
  new_ffmpeg <- start_ffmpeg stream quality 3 ;;
  match new_ffmpeg with
  | None =>
      logger (LogFailedStart quality) ;;
      time_sleep 10
  | Some new =>
      cur <- self_get current_ffmpeg ;;
      match cur with
      | Some old =>
          if negb (Nat.eqb old new) then
            logger (LogStopping old) ;;
            retire_on_handoff old
          else ret tt
      | None => ret tt
      end ;;
      self_set (set_current_ffmpeg (Some new)) ;;
      self_set (set_current_quality (Some quality)) ;;
      now <- time_time ;;
      self_set (set_start_time (Some now)) ;;
      self_set (set_stream_obj (Some stream))
  end.

(** One pass through the body of the [while True] of
    [Relay.wait_for_stream]: [Some] is its [return], [None] the end of the
    pass after the 15 s sleep.  A stream object is truthy, so [if stream]
    is taken. *)
Definition wait_poll : M (option (string * Variant)) :=
  streams <- get_available_streams ;;
  found <-
    match streams with
    | _ :: _ =>
        qs <- lift (pick_best_stream streams) ;;
        status <- self_get last_stream_status ;;
        (if differs status "online" then
           logger (LogOnline qs.1) ;;
           self_set (set_last_stream_status (Some "online"))
         else ret tt) ;;
        ret (Some qs)
    | [] => ret None
    end ;;
  match found with
  | Some qs => ret (Some qs)
  | None =>
      status <- self_get last_stream_status ;;
      (if differs status "offline" then
         logger LogWaiting ;;
         self_set (set_last_stream_status (Some "offline"))
       else ret tt) ;;
      time_sleep 15 ;;
      ret None
  end.

Fixpoint wait_for_stream (fuel : nat) : M (string * Variant) :=
  match fuel with
  | O => lift OutOfFuel
  | S fuel =>
      r <- wait_poll ;;
      match r with
      | Some qs => ret qs
      | None => wait_for_stream fuel
      end
  end.

(** The checks of one pass through the inner [while True] of
    [Relay.start_relay], after its 30 s sleep: [true] is a [break]. *)
Definition check (stream : Variant) (quality : string) : M bool :=
  cur <- self_get current_ffmpeg ;;
  dead <- match cur with
          | None => ret true
          | Some p => poll_exited p
          end ;;
  if dead then
    logger LogEnded ;; ret true
  else
    now <- time_time ;;
    started <- self_get start_time ;;
    match started with
    | None => raise TypeError
    | Some t0 =>
        let elapsed := now - t0 in
        if elapsed >? FFMPEG_MAX_RUNTIME then
          logger LogMaxRuntime ;;
          start_new_ffmpeg stream quality ;;
          ret true
        else
          streams <- get_available_streams ;;
          q <- self_get current_quality ;;
          if dict_mem "best" streams && differs q "best" then
            logged <- self_get last_upgrade_logged ;;
            (if negb logged then
               logger LogUpgrade ;;
               self_set (set_last_upgrade_logged true)
             else ret tt) ;;
            best <- lift (match dict_get "best" streams with
                          | Some v => Ret v
                          | None => Raise KeyError
                          end) ;;
            start_new_ffmpeg best "best" ;;
            ret true
          else
            self_set (set_last_upgrade_logged false) ;;
            status <- self_get last_stream_status ;;
            match streams with
            | [] =>
                if differs status "offline" then
                  logger LogOffline ;;
                  self_set (set_last_stream_status (Some "offline")) ;;
                  ret true
                else ret false
            | _ :: _ => ret false
            end
    end.

(** The inner [while True]. *)
Fixpoint relaying (fuel : nat) (stream : Variant) (quality : string) : M unit :=
  match fuel with
  | O => lift OutOfFuel
  | S fuel =>
      time_sleep 30 ;;
      stop <- check stream quality ;;
      if stop then ret tt else relaying fuel stream quality
  end.

(** One pass through the outer [while True] of [Relay.start_relay]. *)
Definition relay_pass (fuel : nat) : M unit :=
  qs <- wait_for_stream fuel ;;
  start_new_ffmpeg qs.2 qs.1 ;;
  relaying fuel qs.2 qs.1.

(** [Relay.start_relay]; each loop is unrolled [fuel] times at most. *)
Fixpoint start_relay_loop (passes fuel : nat) : M unit :=
  match passes with
  | O => lift OutOfFuel
  | S passes => relay_pass fuel ;; start_relay_loop passes fuel
  end.

Definition start_relay (fuel : nat) : M unit := start_relay_loop fuel fuel.

(** ** Main *)

Definition is_KeyboardInterrupt (e : exn) : bool :=
  bool_decide (e = KeyboardInterrupt).

(** The clean-up after the [try] of [__main__]. *)
Definition shutdown : M unit :=
  cur <- self_get current_ffmpeg ;;
  match cur with
  | Some p => terminate p ;; wait p None
  | None => ret tt
  end.

Definition main (fuel : nat) : M unit :=
  modify (with_relay Relay_init) ;;
  try_except
    (logger LogSupport ;; start_relay fuel)
    is_KeyboardInterrupt
    (fun _ => logger LogExiting) ;;
  shutdown.
End Script.

(** The script from its first line: [gpu_encoder] is computed once, at
    import, and the relay runs with that value. *)
Definition script (user rtmp : string) (cores : nat) (lowram : bool)
    (fuel : nat) : M unit :=
  (encoder <- detect_gpu_encoder ;;
   main (mkConfig user rtmp cores lowram encoder) fuel)%py.

(** ** Sample worlds *)

Definition fs_ok : FS :=
  mkFS (Some "/usr/bin/ffmpeg") ["/usr/bin/ffmpeg"] ["/usr/bin/ffmpeg"] "posix".

Definition fs_missing : FS := mkFS (Some "/usr/bin/ffmpeg") [] [] "posix".

Definition env_quiet : Env := mkEnv [] [] [] [] [] [] fs_ok (Some "").

(** The world at the first line of the script. *)
Definition world0 (e : Env) : World :=
  mkWorld ∅ 0 0 [] e ∅ Relay_init.

Definition v720 : Variant := mkVariant 1 (Some "https://video/720p.m3u8").
Definition vbest : Variant := mkVariant 2 (Some "https://video/best.m3u8").

Definition cfg0 : Config := mkConfig "channel" "rtmps://a.rtmps.youtube.com/live2/key" 4 false None.


(** Every launch fails. *)
Definition world_no_launch : World :=
  world0 (with_popen_script [false; false; false] env_quiet).

(** A first session at 720p; at the first check the [best] variant has
    appeared. *)
Definition env_upgrade : Env :=
  with_resolve_script
    [Some [("720p", v720)]; Some [("720p", v720); ("best", vbest)]] env_quiet.

(** A relay whose subprocess 0 does not exit within 10 s of [terminate]. *)
Definition world_stubborn : World :=
  mkWorld {[0%nat]} 1 100 [] (with_wait_script [false; false; false] env_quiet)
          {[TWITCH_USER cfg0 := 0%nat]}
          (mkRelay (Some 0%nat) (Some "720p") (Some 0) (Some v720) (Some "online") false).

(** The relay after the first handoff of an undisturbed run: subprocess 0
    pushes the 720p variant. *)
Definition world_first_session : World :=
  (start_new_ffmpeg cfg0 v720 "720p" (world0 env_quiet)).2.





(** The binary is there at the first launch and gone at the second. *)
Definition env_binary_removed : Env :=
  with_lookup_script [fs_ok; fs_missing] env_upgrade.


(** The label [x] followed by the superscript two, U+00B2, which is a digit
    for [str.isdigit]. *)
Definition x_squared : string :=
  String "x" (String (ascii_of_nat 178) EmptyString).

(** A no-break space, U+00A0, which [str.strip] removes. *)
Definition nbsp : string := String (ascii_of_nat 160) EmptyString.

(** A capability output that names one encoder in capitals. *)
Definition env_mixed_case : Env :=
  mkEnv [] [] [] [] [] [] fs_ok
    (Some " V....D H264_NVENC           NVIDIA NVENC H.264 encoder / V....D h264_amf             AMD AMF H.264 Encoder").

(** The first session, the binary gone by the next look-up. *)
Definition world_binary_gone : World :=
  with_env (with_lookup_script [fs_missing] env_quiet) world_first_session.

(** ** Observations of a run *)

(** [m] leaves the observation [f] of the world as it found it, however it
    ends. *)
Definition preserves {A B} (f : World -> B) (m : M A) : Prop :=
  forall w, f (m w).2 = f w.

(** How often the capability query has been run. *)
Definition is_EvEncoders (e : Event) : bool :=
  match e with EvEncoders _ => true | _ => false end.

Definition encoder_queries (w : World) : nat :=
  length (List.filter is_EvEncoders (trace w)).

(** The events of the run from [w] to [w'], latest first like the trace. *)
Definition grows (w w' : World) (new : list Event) : Prop :=
  trace w' = (new ++ trace w)%list.

Definition count_events (f : Event -> bool) (evs : list Event) : nat :=
  length (List.filter f evs).

(** A call of [Popen], whether it succeeds or not. *)
Definition is_launch (e : Event) : bool :=
  match e with EvPopen _ _ => true | _ => false end.

(** The 3 s sleep after a failed attempt. *)
Definition is_backoff (e : Event) : bool :=
  match e with EvSleep secs => secs =? 3 | _ => false end.

Definition is_kill (e : Event) : bool :=
  match e with EvKill _ => true | _ => false end.

Definition is_resolve (e : Event) : bool :=
  match e with EvResolve _ => true | _ => false end.

(** The handles the calls of [Popen] returned, latest first; [None] for a
    call that raised. *)
Definition launched (evs : list Event) : list (option nat) :=
  omap (fun e => match e with EvPopen _ h => Some h | _ => None end) evs.

(** The exceptions of the failure reports, latest first. *)
Definition reported_errors (evs : list Event) : list exn :=
  omap (fun e => match e with
                 | EvLog (LogAttemptFailed _ e) => Some e
                 | _ => None
                 end) evs.

(** The two ways a launch attempt fails, by what its [Popen] returned and
    what its failure report names: [Popen] raised; or [Popen] returned a
    handle and the wait for the subprocess recorded before timed out. *)
Definition failed_attempt (h : option nat) (e : exn) : Prop :=
  match h with
  | None => e = OSError
  | Some _ => e = TimeoutExpired
  end.

(** The 15 s sleep after a poll of the availability wait that found
    nothing. *)
Definition is_poll_sleep (e : Event) : bool :=
  match e with EvSleep secs => secs =? 15 | _ => false end.

(** The attempt numbers of the failure reports, latest first. *)
Definition reported_failures (evs : list Event) : list nat :=
  omap (fun e => match e with
                 | EvLog (LogAttemptFailed attempt _) => Some attempt
                 | _ => None
                 end) evs.

(** The status lines: going offline is reported by one of two lines,
    depending on which loop notices it. *)
Definition is_offline_log (e : Event) : bool :=
  match e with EvLog LogWaiting | EvLog LogOffline => true | _ => false end.

Definition is_online_log (e : Event) : bool :=
  match e with EvLog (LogOnline _) => true | _ => false end.

Definition is_upgrade_log (e : Event) : bool :=
  match e with EvLog LogUpgrade => true | _ => false end.

(** The events between two worlds of one run, earliest first. *)
Definition events_since (w w' : World) : list Event :=
  rev (take (length (trace w') - length (trace w)) (trace w')).

(** The largest number of subprocesses running at one instant of a run of
    events. *)
Definition peak_live (evs : list Event) (L : gset nat) : nat :=
  max_list (size <$> live_history evs L).

(** The handle recorded for the relay target. *)
Definition recorded (cfg : Config) (w : World) : option nat :=
  active_processes w !! TWITCH_USER cfg.

(** Between handoffs: the module global and the [Relay] object record the
    same handle, it is one that has been handed out, and no subprocess but
    the recorded one is running. *)
Definition single_live (cfg : Config) (w : World) : Prop :=
  current_ffmpeg (relay w) = recorded cfg w /\
  (forall p, recorded cfg w = Some p -> (p < next_pid w)%nat) /\
  (forall p, p ∈ live w -> recorded cfg w = Some p).

(** No [wait] of the script of answers runs into its timeout. *)
Definition waits_return (w : World) : Prop := false ∉ wait_script (env w).



(** A recorded subprocess comes with a session start. *)
Definition relay_wf (w : World) : Prop :=
  is_Some (current_ffmpeg (relay w)) -> is_Some (start_time (relay w)).

(** The binary is found at every look-up to come. *)
Definition lookups_ok (w : World) : Prop :=
  forall f, f ∈ fs (env w) :: lookup_script (env w) ->
            exists path, ffmpeg_path_in f = Ret path.

(** What is left of the file system script. *)
Definition lookups (w : World) : FS * list FS :=
  (fs (env w), lookup_script (env w)).

(** The code went on, or Ctrl-C ended it: it raised nothing else and is not
    stuck in a call. *)
Definition only_interrupt {A} (o : outcome A) : Prop :=
  match o with
  | Raise e => e = KeyboardInterrupt
  | Blocked => False
  | _ => True
  end.

(** [m] keeps the relay well formed and the binary in place, and only
    Ctrl-C gets out of it. *)
Definition survives {A} (m : M A) : Prop :=
  forall w, relay_wf w -> lookups_ok w ->
            relay_wf (m w).2 /\ lookups_ok (m w).2 /\ only_interrupt (m w).1.

(** What the sleeps of a run from [w] to [w'] have taken from the front of
    the signal script. *)
Definition signals_used (w w' : World) (used : list bool) : Prop :=
  sigint_script (env w) = (used ++ sigint_script (env w'))%list.

(** [m] is left by [KeyboardInterrupt] exactly when Ctrl-C arrives during
    one of its sleeps: no handler of [m] catches it. *)
Definition follows_signals {A} (m : M A) : Prop :=
  forall w, exists used,
    signals_used w (m w).2 used /\
    ((m w).1 = Raise KeyboardInterrupt <-> true ∈ used).

(** How often a kind of line has been logged. *)
Definition logged (f : Event -> bool) (w : World) : nat :=
  count_events f (trace w).

(** The polls of the resolver and the 15 s sleeps so far. *)
Definition polls_and_sleeps (w : World) : nat * nat :=
  (logged is_resolve w, logged is_poll_sleep w).

(** The gates of the status lines and the number of status lines logged. *)
Definition gates (w : World) : option string * bool * nat * nat * nat :=
  (last_stream_status (relay w), last_upgrade_logged (relay w),
   logged is_offline_log w, logged is_online_log w, logged is_upgrade_log w).

(** What the next poll of the resolver will find. *)
Definition polled (w : World) : dict Variant :=
  match (get_available_streams w).1 with
  | Ret d => d
  | _ => []
  end.

(** The world after [n] runs of [m] in a row. *)
Fixpoint polls {A} (m : M A) (n : nat) (w : World) : World :=
  match n with
  | O => w
  | S n => polls m n (m w).2
  end.

(** Each of [n] runs of [m] in a row starts in a world where [P] holds, and
    returns. *)
Fixpoint each_poll {A} (m : M A) (P : World -> Prop) (n : nat) (w : World) : Prop :=
  match n with
  | O => True
  | S n => P w /\ (exists a, (m w).1 = Ret a) /\ each_poll m P n (m w).2
  end.

(** A poll of [wait_for_stream] that finds nothing, its sleep not cut short
    by Ctrl-C. *)
Definition offline_poll (w : World) : Prop :=
  polled w = [] /\ head (sigint_script (env w)) <> Some true.

(** A poll of [wait_for_stream] that finds a stream. *)
Definition online_poll (w : World) : Prop := polled w <> [].

(** A check of the relaying loop that gets as far as the resolver: the
    subprocess is running and the maximum runtime has not passed. *)
Definition check_polls (w w1 : World) : Prop :=
  exists p t0,
    current_ffmpeg (relay w) = Some p /\
    poll_exited p w = (Ret false, w1) /\
    start_time (relay w) = Some t0 /\
    (clock w - t0 >? FFMPEG_MAX_RUNTIME) = false.

(** A check that finds the upgrade available. *)
Definition upgrade_check (w : World) : Prop :=
  exists w1,
    check_polls w w1 /\
    dict_mem "best" (polled w1) = true /\
    differs (current_quality (relay w)) "best" = true.


(** A check that polls the resolver and finds nothing. *)
Definition offline_check (w : World) : Prop :=
  exists w1, check_polls w w1 /\ polled w1 = [].





(** * The rest of the script *)

(** ** The probe of the machine *)

(** [os.cpu_count() or 1]: the count when it is known and not 0. *)
Definition probe_cpu_cores (os_cpu_count : option nat) : nat :=
  match os_cpu_count with
  | Some (S n) => S n
  | _ => 1%nat
  end.

(** ** The configuration loader

    [load_config] talks to the terminal and to [config.json].  It runs
    before the relay and shares nothing with it, so it has a world of its
    own: the lines still to be typed, what has been written to the
    terminal (latest first), and the configuration file. *)

(** The values of the configuration: [None] and strings. *)
Inductive json : Type :=
  | JNull
  | JStr (s : string).

Inductive config_exn : Type :=
  | EOFError          (* [input()] at the end of the input *)
  | JSONDecodeError.  (* [json.load] on a file that is not JSON *)

(** The result of the loader: it returns, it raises, or the bounded
    unrolling of its [while True] is used up while it still prompts. *)
Inductive answer (A : Type) : Type :=
  | Done (a : A)
  | Fails (e : config_exn)
  | Prompting.
Arguments Done {A} a.
Arguments Fails {A} e.
Arguments Prompting {A}.

Record Console : Type := mkConsole {
  typed : list string;                     (* the lines [input()] will read *)
  shown : list string;                     (* prompts and prints, latest first *)
  config_json : option (option (dict json))
    (* [config.json]: absent, not parsable, or the object it holds *)
}.

(** [input(prompt)] *)
Definition input (prompt : string) (c : Console) : answer string * Console :=
  match typed c with
  | line :: rest => (Done line, mkConsole rest (prompt :: shown c) (config_json c))
  | [] => (Fails EOFError, mkConsole [] (prompt :: shown c) (config_json c))
  end.

(** [print(line)] *)
Definition print (line : string) (c : Console) : Console :=
  mkConsole (typed c) (line :: shown c) (config_json c).

(** [with open(CONFIG_FILE, "w") as f: json.dump(cfg, f)] *)
Definition json_dump (cfg : dict json) (c : Console) : Console :=
  mkConsole (typed c) (shown c) (Some (Some cfg)).

(** [c.isspace()], the white space that [s.strip()] removes *)
Definition isspace (c : ascii) : bool :=
  let n := N_of_ascii c in
  ((9 <=? n)%N && (n <=? 13)%N) || ((28 <=? n)%N && (n <=? 32)%N)
  || (n =? 133)%N || (n =? 160)%N.

Definition is_slash (c : ascii) : bool := Ascii.eqb c "/".

Fixpoint lstrip (f : ascii -> bool) (s : string) : string :=
  match s with
  | EmptyString => EmptyString
  | String c r => if f c then lstrip f r else s
  end.

Fixpoint rstrip (f : ascii -> bool) (s : string) : string :=
  match s with
  | EmptyString => EmptyString
  | String c r =>
      match rstrip f r with
      | EmptyString => if f c then EmptyString else String c EmptyString
      | r' => String c r'
      end
  end.

(** [s.strip()] is [strip isspace s], and [s.strip("/")] is
    [strip is_slash s]. *)
Definition strip (f : ascii -> bool) (s : string) : string :=
  rstrip f (lstrip f s).

(** [s or None] *)
Definition or_None (s : string) : json :=
  match s with
  | EmptyString => JNull
  | _ => JStr s
  end.

Section ConfigLoader.
(** [urlparse] is the library's: what it finds as [netloc] and [path], or
    [None] when it raises. *)
Variable urlparse : string -> option (string * string).

(** The [try] block over an answer that starts with [http]: the username,
    or [None] when the block raises. *)
Definition username_of_url (twitch : string) : option json :=
  match urlparse twitch with
  | Some (netloc, path) =>
      if bool_decide (netloc ∈ ["twitch.tv"; "www.twitch.tv"])
      then Some (or_None (strip is_slash path))
      else None
  | None => None
  end.

(** The username an answer stands for, [None] when the loader prints
    "Invalid Twitch URL" and asks again. *)
Definition username_of (twitch : string) : option json :=
  if String.prefix "http" twitch then username_of_url twitch
  else Some (or_None twitch).

Fixpoint load_config (fuel : nat) (c : Console) : answer (dict json) * Console :=
  match fuel with
  | O => (Prompting, c)
  | S fuel =>
      match config_json c with
      | None =>
          match input "Twitch username or URL: " c with
          | (Done line, c1) =>
              match username_of (strip isspace line) with
              | None => load_config fuel (print "Invalid Twitch URL" c1)
              | Some username =>
                  match input "YouTube stream key: " c1 with
                  | (Done key, c2) =>
                      let cfg := [("username", username);
                                  ("youtube_key", JStr (strip isspace key))] in
                      (Done cfg, print "Config saved to config.json" (json_dump cfg c2))
                  | (Fails e, c2) => (Fails e, c2)
                  | (Prompting, c2) => (Prompting, c2)
                  end
              end
          | (Fails e, c1) => (Fails e, c1)
          | (Prompting, c1) => (Prompting, c1)
          end
      | Some (Some cfg) => (Done cfg, c)
      | Some None => (Fails JSONDecodeError, c)
      end
  end.
End ConfigLoader.

(** [f"{x}"] for a value of the configuration *)
Definition format_json (j : json) : string :=
  match j with
  | JNull => "None"
  | JStr s => s
  end.

(** [TWITCH_USER], [YOUTUBE_KEY] and [YOUTUBE_RTMP] as the script reads them
    from the configuration; [None] stands for the [KeyError] of a key that
    is not there. *)
Definition config_globals (config : dict json) : option (json * json * string) :=
  match dict_get "username" config, dict_get "youtube_key" config with
  | Some user, Some key =>
      Some (user, key, "rtmps://a.rtmps.youtube.com/live2/" +:+ format_json key)
  | _, _ => None
  end.

(** The URL [get_available_streams] hands to the resolver. *)
Definition channel_url (user : json) : string :=
  "https://www.twitch.tv/" +:+ format_json user.

(** A reading of the URLs of the form [scheme://host/path], to run the
    loader on; the properties of the loader hold for any [urlparse]. *)
Fixpoint split_at_slash (s : string) : string * string :=
  match s with
  | EmptyString => (EmptyString, EmptyString)
  | String c r =>
      if is_slash c then (EmptyString, s)
      else let (h, p) := split_at_slash r in (String c h, p)
  end.

Fixpoint after_scheme (s : string) : option string :=
  match s with
  | EmptyString => None
  | String c r =>
      if String.prefix "://" s then Some (String.substring 3 (String.length s - 3) s)
      else after_scheme r
  end.

Definition urlparse_plain (url : string) : option (string * string) :=
  match after_scheme url with
  | Some rest => Some (split_at_slash rest)
  | None => Some (EmptyString, url)
  end.

(** The typed lines from the first answer on that the loader does not
    reject. *)
Fixpoint from_first_answer (urlparse : string -> option (string * string))
    (lines : list string) : list string :=
  match lines with
  | [] => []
  | line :: rest =>
      match username_of urlparse (strip isspace line) with
      | None => from_first_answer urlparse rest
      | Some _ => lines
      end
  end.

(** A machine with no configuration yet, and the lines typed at it. *)
Definition console_fresh (lines : list string) : Console :=
  mkConsole lines [] None.

(** ** Further observations *)

(** The module global and the [Relay] object record the same handle. *)
Definition agree (cfg : Config) (w : World) : Prop :=
  current_ffmpeg (relay w) = recorded cfg w.

(** What [wait_for_stream] has no business with. *)
Definition beside_status (w : World)
    : gset nat * nat * gmap string nat * option nat * option string * option Z
      * option Variant * bool * list bool * list bool * list FS :=
  (live w, next_pid w, active_processes w,
   current_ffmpeg (relay w), current_quality (relay w), start_time (relay w),
   stream_obj (relay w), last_upgrade_logged (relay w),
   popen_script (env w), wait_script (env w), lookup_script (env w)).

(** A request to exit, a wait for the exit, or a kill. *)
Definition is_retire (e : Event) : bool :=
  match e with EvTerminate _ | EvWait _ _ _ | EvKill _ => true | _ => false end.

(** The code went on, or it was ended by Ctrl-C or by the look-up of the
    binary. *)
Definition interrupt_or_lookup {A} (o : outcome A) : Prop :=
  match o with
  | Raise e => e = KeyboardInterrupt \/ e = RuntimeError
  | Blocked => False
  | _ => True
  end.

(** The relay is well formed, its two records of the subprocess agree, and
    [n] subprocesses have been killed so far. *)
Definition orderly (cfg : Config) (n : nat) (w : World) : Prop :=
  relay_wf w /\ agree cfg w /\ logged is_kill w = n.

(** [m] keeps the relay orderly and kills nothing, and nothing but Ctrl-C
    and the look-up's error gets out of it. *)
Definition carries_on {A} (cfg : Config) (m : M A) : Prop :=
  forall n w, orderly cfg n w ->
              orderly cfg n (m w).2 /\ interrupt_or_lookup (m w).1.

(** What the steps that only log, sleep, poll or set a status field leave
    alone. *)
Definition order_frame (w : World)
    : option nat * option Z * gmap string nat * nat :=
  (current_ffmpeg (relay w), start_time (relay w), active_processes w,
   logged is_kill w).

(** * Properties *)

(** ** The quality selector *)

Section DictFacts.
Context {V : Type}.
Implicit Types (d : dict V) (k q : string).

Lemma dict_get_keys d k : k ∈ keys d -> is_Some (dict_get k d).
Proof.
  induction d as [|[k' v] d IH]; simpl; intros Hin.
  - by apply elem_of_nil in Hin.
  - destruct (String.eqb_spec k k') as [->|Hne]; [by eexists|].
    apply IH. apply elem_of_cons in Hin as [?|?]; [congruence|done].
Qed.

Lemma dict_get_Some_keys d k v : dict_get k d = Some v -> k ∈ keys d.
Proof.
  induction d as [|[k' v'] d IH]; simpl; [done|].
  destruct (String.eqb_spec k k') as [->|Hne]; intros H.
  - apply elem_of_cons; by left.
  - apply elem_of_cons; right; by apply IH.
Qed.

Lemma dict_mem_get d k : dict_mem k d = bool_decide (is_Some (dict_get k d)).
Proof.
  unfold dict_mem. induction d as [|[k' v] d IH]; simpl.
  - done.
  - destruct (String.eqb_spec k k') as [->|Hne]; simpl.
    + done.
    + apply IH.
Qed.
End DictFacts.

Lemma ltb_true_leb (x y : string) : String.ltb x y = true -> String.leb x y = true.
Proof. unfold String.ltb, String.leb. by destruct (String.compare x y). Qed.

Lemma ltb_false_leb (x y : string) : String.ltb x y = false -> String.leb y x = true.
Proof.
  unfold String.ltb, String.leb. rewrite (String.compare_antisym x y).
  by destruct (String.compare y x).
Qed.

Lemma leb_trans (x y z : string) :
  String.leb x y = true -> String.leb y z = true -> String.leb x z = true.
Proof.
  intros Hxy Hyz. apply Is_true_true.
  change (String.le x z). transitivity y; apply Is_true_true; assumption.
Qed.

Lemma leb_refl (x : string) : String.leb x x = true.
Proof. apply Is_true_true. change (String.le x x). reflexivity. Qed.

Lemma insert_desc_not_nil (x : string) (l : list string) : insert_desc x l <> [].
Proof. destruct l as [|y r]; simpl; [done|]. by destruct (String.ltb x y). Qed.

Lemma sorted_reverse_nil (qs : list string) : sorted_reverse qs = [] -> qs = [].
Proof.
  destruct qs as [|x qs]; [done|]. simpl. intros H.
  by apply insert_desc_not_nil in H.
Qed.

(** The first element of [sorted(qs, reverse=True)] is a greatest element
    of [qs]. *)
Lemma sorted_reverse_head (qs : list string) (q : string) (rest : list string) :
  sorted_reverse qs = q :: rest ->
  q ∈ qs /\ forall q', q' ∈ qs -> String.leb q' q = true.
Proof.
  revert q rest. induction qs as [|x qs IH]; intros q rest; simpl; [done|].
  destruct (sorted_reverse qs) as [|y r] eqn:Hs.
  - apply sorted_reverse_nil in Hs as ->. simpl. intros [= <- <-].
    split; [apply list_elem_of_singleton; done|].
    intros q' ->%list_elem_of_singleton. apply leb_refl.
  - destruct (IH y r eq_refl) as [Hy Hmax]. simpl.
    destruct (String.ltb x y) eqn:Hlt; intros [= <- <-].
    + split; [apply elem_of_cons; by right|].
      intros q' [->|Hq']%elem_of_cons; [by apply ltb_true_leb|by apply Hmax].
    + split; [apply elem_of_cons; by left|].
      intros q' [->|Hq']%elem_of_cons; [apply leb_refl|].
      eapply leb_trans; [by apply Hmax|by apply ltb_false_leb].
Qed.

(** C2. The selector returns the entry labelled [best] when there is one;
    otherwise the entry whose label is the greatest, in string order, among
    the labels that contain a digit, when there is such a label; otherwise
    the first entry of the mapping in enumeration order.  On the labels
    160p and 1080p the string order picks 160p.  A digit is what
    [str.isdigit] takes for one: next to the label [low], the label [x]
    with a superscript two is the one with a digit. *)
Theorem pick_best_stream_policy (V : Type) (streams : dict V) :
  match dict_get "best" streams with
  | Some v => pick_best_stream streams = Ret ("best", v)
  | None =>
      match filter (fun q => any_isdigit q = true) (keys streams) with
      | (_ :: _) as qs =>
          exists q v,
            pick_best_stream streams = Ret (q, v) /\
            q ∈ qs /\ dict_get q streams = Some v /\
            forall q', q' ∈ qs -> String.leb q' q = true
      | [] =>
          match streams with
          | item :: _ => pick_best_stream streams = Ret item
          | [] => pick_best_stream streams = Raise StopIteration
          end
      end
  end /\
  (forall x y : V,
     pick_best_stream [("160p", x); ("1080p", y)] = Ret ("160p", x)) /\
  (forall x y : V,
     any_isdigit x_squared = true /\
     pick_best_stream [("low", x); (x_squared, y)] = Ret (x_squared, y)).
Proof.
  split; [|by split].
  unfold pick_best_stream. rewrite dict_mem_get.
  destruct (dict_get "best" streams) as [v|] eqn:Hbest.
  - rewrite bool_decide_eq_true_2; [done|by eexists].
  - rewrite bool_decide_eq_false_2; [|by intros [? ?]].
    destruct (filter _ (keys streams)) as [|q0 qs0] eqn:Hqs.
    + simpl. by destruct streams.
    + destruct (sorted_reverse (q0 :: qs0)) as [|q rest] eqn:Hsort.
      { by apply sorted_reverse_nil in Hsort. }
      destruct (sorted_reverse_head _ _ _ Hsort) as [Hin Hmax].
      assert (Hk : q ∈ keys streams).
      { rewrite <- Hqs in Hin. by apply list_elem_of_filter in Hin as [_ ?]. }
      destruct (dict_get_keys _ _ Hk) as [v Hv]. rewrite Hv.
      exists q, v. by split_and!.
Qed.

(** ** Reasoning about effectful code *)


Section Preserves.
Context {B : Type} (f : World -> B).

Lemma preserves_ret {A} (a : A) : preserves f (ret a).
Proof. done. Qed.

Lemma preserves_raise {A} (e : exn) : preserves f (@raise A e).
Proof. done. Qed.

Lemma preserves_lift {A} (o : outcome A) : preserves f (lift o).
Proof. done. Qed.

Lemma preserves_get {A} (g : World -> A) : preserves f (get g).
Proof. done. Qed.

Lemma preserves_modify (g : World -> World) :
  (forall w, f (g w) = f w) -> preserves f (modify g).
Proof. intros H w. apply H. Qed.

Lemma preserves_bind {A C} (m : M A) (k : A -> M C) :
  preserves f m -> (forall a, preserves f (k a)) -> preserves f (bind m k).
Proof.
  intros Hm Hk w. unfold bind. specialize (Hm w).
  destruct (m w) as [[a|e| |] w1]; simpl in *; try done.
  by rewrite Hk.
Qed.

Lemma preserves_try {A} (body : M A) (c : exn -> bool) (h : exn -> M A) :
  preserves f body -> (forall e, preserves f (h e)) ->
  preserves f (try_except body c h).
Proof.
  intros Hm Hk w. unfold try_except. specialize (Hm w).
  destruct (body w) as [[a|e| |] w1]; simpl in *; try done.
  destruct (c e); [by rewrite Hk|done].
Qed.
End Preserves.

(** Solves [preserves f m] for code [m] without recursion, when no step of
    it touches [f]. *)
Create HintDb frames.

Ltac preserves_step :=
  first
    [ apply preserves_bind; [|intros ?]
    | apply preserves_try; [|intros ?]
    | apply preserves_ret
    | apply preserves_raise
    | apply preserves_lift
    | apply preserves_get
    | solve [eauto with frames]
    | progress cbv zeta
    | progress (repeat case_match) ].

Ltac preserves_prim :=
  let w := fresh "w" in
  intros w; cbv beta delta [time_sleep Popen terminate kill wait poll_exited
    streamlink_streams look_up run_encoders modify logger self_set
    retire_on_launch retire_on_handoff retire_on_handoff_from bind try_except];
  cbv zeta; repeat case_match; simplify_eq/=; reflexivity.

Ltac preserves_tac := repeat preserves_step; try preserves_prim.

(** ** The encoder detection *)

Lemma prefix_lower (a b : string) :
  String.prefix a b = true -> String.prefix (lower a) (lower b) = true.
Proof.
  revert b. induction a as [|c a IH]; intros [|d b]; simpl; try done.
  destruct (ascii_dec c d) as [->|]; [|done].
  intros H. destruct (ascii_dec (lower_char d) (lower_char d)); [auto|done].
Qed.

Lemma contains_lower (needle hay : string) :
  contains needle hay = true -> contains (lower needle) (lower hay) = true.
Proof.
  induction hay as [|c hay IH].
  - simpl. rewrite !orb_false_r. apply (prefix_lower needle "").
  - cbn [contains lower]. intros [H|H]%orb_true_iff; apply orb_true_iff.
    + left. apply (prefix_lower needle (String c hay) H).
    + right. by apply IH.
Qed.

Section ScriptFrames.
Variable cfg : Config.

Lemma get_ffmpeg_path_queries : preserves encoder_queries get_ffmpeg_path.
Proof. unfold get_ffmpeg_path. preserves_tac. Qed.
Hint Resolve get_ffmpeg_path_queries : frames.

Lemma get_available_streams_queries :
  preserves encoder_queries get_available_streams.
Proof. unfold get_available_streams, get_available_streams_from. preserves_tac. Qed.
Hint Resolve get_available_streams_queries : frames.

Lemma attempts_queries cmd quality range :
  preserves encoder_queries (attempts cfg cmd quality range).
Proof.
  induction range as [|attempt rest IH]; cbn [attempts]; [apply preserves_ret|].
  unfold launch. preserves_tac.
Qed.
Hint Resolve attempts_queries : frames.

Lemma start_ffmpeg_queries stream quality retries :
  preserves encoder_queries (start_ffmpeg cfg stream quality retries).
Proof. unfold start_ffmpeg. preserves_tac. Qed.
Hint Resolve start_ffmpeg_queries : frames.

Lemma start_new_ffmpeg_queries stream quality :
  preserves encoder_queries (start_new_ffmpeg cfg stream quality).
Proof.
  unfold start_new_ffmpeg, time_time, self_get. preserves_tac.
Qed.
Hint Resolve start_new_ffmpeg_queries : frames.

Lemma wait_poll_queries : preserves encoder_queries wait_poll.
Proof. unfold wait_poll, self_get. preserves_tac. Qed.
Hint Resolve wait_poll_queries : frames.

Lemma wait_for_stream_queries fuel :
  preserves encoder_queries (wait_for_stream fuel).
Proof. induction fuel as [|fuel IH]; cbn [wait_for_stream]; preserves_tac. Qed.
Hint Resolve wait_for_stream_queries : frames.

Lemma check_queries stream quality :
  preserves encoder_queries (check cfg stream quality).
Proof. unfold check, self_get, time_time. preserves_tac. Qed.
Hint Resolve check_queries : frames.

Lemma relaying_queries fuel stream quality :
  preserves encoder_queries (relaying cfg fuel stream quality).
Proof. induction fuel as [|fuel IH]; cbn [relaying]; preserves_tac. Qed.
Hint Resolve relaying_queries : frames.

Lemma start_relay_loop_queries passes fuel :
  preserves encoder_queries (start_relay_loop cfg passes fuel).
Proof.
  induction passes as [|passes IH]; cbn [start_relay_loop]; [apply preserves_lift|].
  unfold relay_pass. preserves_tac.
Qed.
Hint Resolve start_relay_loop_queries : frames.

Lemma main_queries fuel : preserves encoder_queries (main cfg fuel).
Proof. unfold main, start_relay, shutdown, self_get. preserves_tac. Qed.
End ScriptFrames.

Lemma get_ffmpeg_path_outcome (w : World) :
  (exists path, (get_ffmpeg_path w).1 = Ret path) \/
  (get_ffmpeg_path w).1 = Raise RuntimeError.
Proof.
  unfold get_ffmpeg_path, bind, look_up, lift, ffmpeg_path_in.
  destruct (lookup_script (env w)) as [|f r]; simpl; repeat case_match; eauto.
Qed.

Lemma get_ffmpeg_path_encoders_out :
  preserves (fun w => encoders_out (env w)) get_ffmpeg_path.
Proof. unfold get_ffmpeg_path. preserves_tac. Qed.

(** The detection always returns, and what it returns. *)
Lemma detect_gpu_encoder_run (w : World) :
  exists w',
    detect_gpu_encoder w =
      (Ret match (get_ffmpeg_path w).1, encoders_out (env w) with
           | Ret _, Some out => scan_encoders (lower out)
           | _, _ => None
           end, w') /\
    (encoder_queries w' <= S (encoder_queries w))%nat.
Proof.
  unfold detect_gpu_encoder, try_except, bind.
  pose proof (get_ffmpeg_path_queries w) as Hq.
  pose proof (get_ffmpeg_path_encoders_out w) as Henv.
  destruct (get_ffmpeg_path_outcome w) as [[path Hp]|Hp];
    destruct (get_ffmpeg_path w) as [o w1]; simpl in *; subst o.
  - unfold run_encoders. rewrite Henv.
    destruct (encoders_out (env w)) as [out|]; simpl; eexists; split; try done;
      unfold encoder_queries in *; simpl; lia.
  - eexists; split; [done|lia].
Qed.

(** C10. The detection returns h264_nvenc when the capability output lists
    it, otherwise h264_amf when listed, otherwise h264_qsv when listed, and
    otherwise no hardware encoder; when the binary cannot be located or the
    query fails it returns no hardware encoder as well, and it never raises.
    The scan is of the lowercased output, in which an identifier written
    in the output is still found.  The relay never runs the query again:
    the whole script runs it once at most. *)
Theorem detect_gpu_encoder_spec (w : World) :
  (exists w',
     detect_gpu_encoder w =
       (Ret match (get_ffmpeg_path w).1, encoders_out (env w) with
            | Ret _, Some out =>
                let listed name := contains name (lower out) in
                if listed "h264_nvenc" then Some "h264_nvenc"
                else if listed "h264_amf" then Some "h264_amf"
                else if listed "h264_qsv" then Some "h264_qsv"
                else None
            | _, _ => None
            end, w')) /\
  (forall name out,
     name ∈ ["h264_nvenc"; "h264_amf"; "h264_qsv"] ->
     contains name out = true -> contains name (lower out) = true) /\
  (forall cfg fuel, encoder_queries (main cfg fuel w).2 = encoder_queries w) /\
  (forall user rtmp cores lowram fuel,
     (encoder_queries (script user rtmp cores lowram fuel w).2
      <= S (encoder_queries w))%nat).
Proof.
  split_and!.
  - destruct (detect_gpu_encoder_run w) as (w' & -> & _). exists w'.
    do 2 f_equal. destruct (get_ffmpeg_path w).1; try done.
    destruct (encoders_out (env w)) as [out|]; [|done].
    unfold scan_encoders. cbv zeta.
    destruct (contains "h264_nvenc" (lower out)); [done|].
    destruct (contains "h264_amf" (lower out)); [done|].
    by destruct (contains "h264_qsv" (lower out)).
  - intros name out Hname Hc. apply contains_lower in Hc.
    repeat (apply elem_of_cons in Hname as [->|Hname]; [exact Hc|]).
    by apply elem_of_nil in Hname.
  - intros cfg fuel. apply main_queries.
  - intros user rtmp cores lowram fuel. unfold script, bind.
    destruct (detect_gpu_encoder_run w) as (w' & -> & Hle).
    rewrite main_queries. exact Hle.
Qed.

(** A capability output that names the NVENC encoder in capitals and the
    AMF encoder in small letters: the output itself does not contain
    [h264_nvenc] and does contain [h264_amf], so the priority read on the
    output gives [h264_amf]; the detection, which scans the lowercased
    output, returns [h264_nvenc]. *)
Lemma detect_gpu_encoder_ignores_case :
  let w := world0 env_mixed_case in
  (exists out,
     encoders_out (env w) = Some out /\
     contains "h264_nvenc" out = false /\
     contains "h264_amf" out = true /\
     scan_encoders out = Some "h264_amf") /\
  (detect_gpu_encoder w).1 = Ret (Some "h264_nvenc").
Proof. split; [eexists; split_and!; [reflexivity|..]|]; by vm_compute. Qed.

(** ** Launching *)

Lemma grows_nil_list (t : list Event) : t = ([] ++ t)%list.
Proof. done. Qed.

Lemma grows_cons_list (e : Event) (l new t : list Event) :
  l = (new ++ t)%list -> e :: l = ((e :: new) ++ t)%list.
Proof. by intros ->. Qed.

Ltac grows_tac :=
  unfold grows; repeat (apply grows_cons_list); apply grows_nil_list.

Ltac run_prims :=
  cbv beta delta [launch retire_on_launch retire_on_handoff
    retire_on_handoff_from bind ret raise get
    modify logger terminate kill wait Popen time_sleep time_time self_get
    self_set lift try_except look_up poll_exited streamlink_streams];
  cbv beta iota zeta.

Section LaunchFacts.
Variable cfg : Config.

(** One launch attempt calls [Popen] once, reports and sleeps nothing, and
    either returns the fresh handle, recorded and running, with the handle
    recorded before it no longer running, or raises an [Exception] and
    leaves the record alone. *)
Lemma launch_spec cmd quality w :
  let o := (launch cfg cmd quality w).1 in
  let w' := (launch cfg cmd quality w).2 in
  exists new,
    grows w w' new /\
    count_events is_launch new = 1%nat /\
    count_events is_backoff new = 0%nat /\
    count_events is_kill new = 0%nat /\
    reported_failures new = [] /\
    relay w' = relay w /\
    sigint_script (env w') = sigint_script (env w) /\
    (next_pid w <= next_pid w')%nat /\
    match o with
    | Ret p =>
        p = next_pid w /\ next_pid w' = S p /\
        active_processes w' = <[TWITCH_USER cfg := p]> (active_processes w) /\
        p ∈ live w' /\
        (forall old, active_processes w !! TWITCH_USER cfg = Some old ->
                     old <> p -> old ∉ live w')
    | Raise e => is_Exception e = true /\ active_processes w' = active_processes w
    | _ => False
    end.
Proof.
  run_prims.
  destruct (popen_script (env w)) as [|[] r] eqn:Hp; simpl;
    destruct (active_processes w !! TWITCH_USER cfg) as [old|] eqn:Hold; simpl;
    try destruct (Nat.eqb_spec old (next_pid w)) as [->|Hne]; simpl;
    try case_decide; simpl;
    try destruct (wait_script (env w)) as [|[] r'] eqn:Hw; simpl;
    eexists; (split; [grows_tac|]);
    split_and!; try done; try lia; try set_solver.
Qed.

Lemma count_events_app f (l1 l2 : list Event) :
  count_events f (l1 ++ l2) = (count_events f l1 + count_events f l2)%nat.
Proof. unfold count_events. by rewrite List.filter_app, length_app. Qed.

Lemma reported_failures_app (l1 l2 : list Event) :
  reported_failures (l1 ++ l2) = (reported_failures l1 ++ reported_failures l2)%list.
Proof. apply omap_app. Qed.

Lemma count_events_cons f (e : Event) (l : list Event) :
  count_events f (e :: l) = ((if f e then 1 else 0) + count_events f l)%nat.
Proof. unfold count_events. simpl. by destruct (f e). Qed.

Lemma reported_failures_cons (e : Event) (l : list Event) :
  reported_failures (e :: l) =
    match e with
    | EvLog (LogAttemptFailed attempt _) => attempt :: reported_failures l
    | _ => reported_failures l
    end.
Proof. by destruct e as [[]| | | | | | | |]. Qed.

Lemma grows_trans w w1 w2 new1 new2 :
  grows w w1 new1 -> grows w1 w2 new2 -> grows w w2 (new2 ++ new1).
Proof. unfold grows. intros H1 H2. by rewrite H2, H1, app_assoc. Qed.

(** The retry loop: it returns the handle of the first attempt that
    succeeds, having made the attempts up to that one; or [None] after
    every attempt of the range has failed; or Ctrl-C ends it during a
    back-off sleep.  Every failed attempt is reported under its number and
    followed by a 3 s sleep. *)
Lemma attempts_spec cmd quality range w o w' :
  attempts cfg cmd quality range w = (o, w') ->
  exists new (k : nat),
    grows w w' new /\
    relay w' = relay w /\
    count_events is_kill new = 0%nat /\
    count_events is_backoff new = k /\
    (next_pid w <= next_pid w')%nat /\
    match o with
    | Ret (Some p) =>
        (k < length range)%nat /\
        count_events is_launch new = S k /\
        reported_failures new = rev (take k range) /\
        sigint_script (env w') = drop k (sigint_script (env w)) /\
        (next_pid w <= p < next_pid w')%nat /\
        active_processes w' = <[TWITCH_USER cfg := p]> (active_processes w) /\
        p ∈ live w' /\
        (forall old, active_processes w !! TWITCH_USER cfg = Some old ->
                     old <> p -> old ∉ live w')
    | Ret None =>
        k = length range /\
        count_events is_launch new = k /\
        reported_failures new = rev range /\
        sigint_script (env w') = drop k (sigint_script (env w)) /\
        active_processes w' = active_processes w
    | Raise e =>
        e = KeyboardInterrupt /\
        (k < length range)%nat /\
        count_events is_launch new = S k /\
        reported_failures new = rev (take (S k) range) /\
        sigint_script (env w) !! k = Some true /\
        active_processes w' = active_processes w
    | _ => False
    end.
Proof.
  revert w. induction range as [|attempt rest IH]; intros w Hrun.
  { injection Hrun as <- <-. exists [], 0%nat. simpl. split_and!; done. }
  cbn [attempts] in Hrun. unfold bind at 1 in Hrun.
  unfold try_except at 1 in Hrun. unfold bind at 1 in Hrun.
  destruct (launch_spec cmd quality w)
    as (new1 & Hg1 & Hl1 & Hb1 & Hk1 & Hr1 & Hrel1 & Hsig1 & Hpid1 & Ho1).
  destruct (launch cfg cmd quality w) as [[p|e| |] w1]; simpl in *; try done.
  - destruct Ho1 as (-> & Hn & Hact & Hlive & Hold).
    injection Hrun as <- <-.
    exists new1, 0%nat. split_and!; simpl; try done; try lia.
  - destruct Ho1 as [He Hact]. rewrite He in Hrun. revert Hrun. run_prims. simpl.
    destruct (sigint_script (env w1)) as [|[] sig] eqn:Hsig; simpl; intros Hrun.
    + (* no signal is scripted any more: sleep, then go on *)
      assert (Hs : sigint_script (env w) = []) by congruence.
      apply IH in Hrun as (new2 & k2 & Hg2 & Hrel2 & Hk2 & Hb2 & Hpid2 & Ho2).
      simpl in Hg2, Hrel2, Hpid2, Ho2. rewrite ?Hsig, ?Hact in Ho2.
      exists (new2 ++ EvSleep 3 :: EvLog (LogAttemptFailed attempt e) :: new1)%list,
             (S k2).
      rewrite !count_events_app, !reported_failures_app.
      rewrite !count_events_cons, !reported_failures_cons.
      rewrite Hl1, Hb1, Hk1, Hr1, Hk2, Hb2, Hs. simpl.
      split_and!; try done; try lia.
      { eapply grows_trans; [|exact Hg2]. unfold grows in *. simpl.
        by rewrite Hg1. }
      { congruence. }
      destruct o as [[p|]|e'| |]; try done.
      * destruct Ho2 as (? & Hl2 & Hr2 & Hs2 & ? & ? & ? & ?).
        rewrite Hl2, Hr2, Hs2, drop_nil.
        split_and!; try done; try lia.
      * destruct Ho2 as (? & Hl2 & Hr2 & Hs2 & ?).
        rewrite Hl2, Hr2, Hs2, drop_nil. split_and!; try done; lia.
      * destruct Ho2 as (_ & _ & _ & _ & Hnil & _). done.
    + (* Ctrl-C during the back-off sleep *)
      assert (Hs : sigint_script (env w) = true :: sig) by congruence.
      injection Hrun as <- <-.
      exists (EvLog (LogAttemptFailed attempt e) :: new1), 0%nat.
      rewrite !count_events_cons, !reported_failures_cons.
      rewrite Hl1, Hb1, Hk1, Hr1, Hs. simpl.
      split_and!; try done; try lia.
      unfold grows in *. simpl. by rewrite Hg1.
    + (* the sleep passes: go on *)
      assert (Hs : sigint_script (env w) = false :: sig) by congruence.
      apply IH in Hrun as (new2 & k2 & Hg2 & Hrel2 & Hk2 & Hb2 & Hpid2 & Ho2).
      simpl in Hg2, Hrel2, Hpid2, Ho2. rewrite ?Hact in Ho2.
      exists (new2 ++ EvSleep 3 :: EvLog (LogAttemptFailed attempt e) :: new1)%list,
             (S k2).
      rewrite !count_events_app, !reported_failures_app.
      rewrite !count_events_cons, !reported_failures_cons.
      rewrite Hl1, Hb1, Hk1, Hr1, Hk2, Hb2, Hs. simpl.
      split_and!; try done; try lia.
      { eapply grows_trans; [|exact Hg2]. unfold grows in *. simpl.
        by rewrite Hg1. }
      { congruence. }
      destruct o as [[p|]|e'| |]; try done.
      * destruct Ho2 as (? & Hl2 & Hr2 & Hs2 & ? & ? & ? & ?).
        rewrite Hl2, Hr2, Hs2. split_and!; try done; try lia.
      * destruct Ho2 as (? & Hl2 & Hr2 & Hs2 & ?).
        rewrite Hl2, Hr2, Hs2. split_and!; try done; lia.
      * destruct Ho2 as (? & ? & Hl2 & Hr2 & ? & ?).
        rewrite Hl2, Hr2. split_and!; try done; lia.
Qed.

(** One launch attempt, by what its [Popen] returned: a failed attempt is
    one whose [Popen] raised, or one whose subprocess was started and is
    left running, unrecorded, because the wait for the recorded one timed
    out. *)
Lemma launch_outcome cmd quality w :
  let o := (launch cfg cmd quality w).1 in
  let w' := (launch cfg cmd quality w).2 in
  exists new,
    grows w w' new /\
    reported_errors new = [] /\
    match o with
    | Ret p =>
        launched new = [Some p] /\
        (forall q, q ∈ live w -> recorded cfg w <> Some q -> q ∈ live w')
    | Raise e =>
        exists h,
          launched new = [h] /\ failed_attempt h e /\
          live w ⊆ live w' /\
          forall q, h = Some q ->
            q ∈ live w' /\ recorded cfg w <> Some q /\ (q < next_pid w')%nat /\
            exists old, recorded cfg w = Some old /\ old ∈ live w'
    | _ => False
    end.
Proof.
  unfold recorded. run_prims.
  destruct (popen_script (env w)) as [|[] r] eqn:Hp; simpl;
    destruct (active_processes w !! TWITCH_USER cfg) as [old|] eqn:Hold; simpl;
    try destruct (Nat.eqb_spec old (next_pid w)) as [->|Hne]; simpl;
    try case_decide; simpl;
    try destruct (wait_script (env w)) as [|[] r'] eqn:Hw; simpl;
    eexists; (split; [grows_tac|]); simpl;
    (split; [done|]);
    try (split; [done|intros q Hq Hne'; set_solver]);
    try (eexists; split_and!; [reflexivity|reflexivity|set_solver|];
         intros q Hq; simplify_eq;
         try (split_and!; [set_solver|congruence|simpl; lia|eexists; split; [done|set_solver]])).
Qed.

Lemma launched_app (l1 l2 : list Event) :
  launched (l1 ++ l2) = (launched l1 ++ launched l2)%list.
Proof. apply omap_app. Qed.

Lemma reported_errors_app (l1 l2 : list Event) :
  reported_errors (l1 ++ l2) = (reported_errors l1 ++ reported_errors l2)%list.
Proof. apply omap_app. Qed.

(** The retry loop, attempt by attempt: the handle returned is the one of
    the last [Popen], every attempt before it failed, and the subprocesses
    that failed attempts started are still running. *)
Lemma attempts_outcomes cmd quality range w o w' :
  attempts cfg cmd quality range w = (o, w') ->
  exists new,
    grows w w' new /\
    match o with
    | Ret (Some p) =>
        exists hs w0,
          launched new = Some p :: hs /\
          Forall2 failed_attempt hs (reported_errors new) /\
          Forall (fun h => forall q, h = Some q -> q ∈ live w' /\ (q < p)%nat) hs /\
          launch cfg cmd quality w0 = (Ret p, w') /\
          live w ⊆ live w0 /\ active_processes w0 = active_processes w /\
          (next_pid w <= next_pid w0)%nat
    | Ret None | Raise _ =>
        Forall2 failed_attempt (launched new) (reported_errors new) /\
        live w ⊆ live w' /\
        Forall (fun h => forall q, h = Some q ->
                  q ∈ live w' /\ recorded cfg w' <> Some q /\ (q < next_pid w')%nat)
               (launched new)
    | _ => False
    end.
Proof.
  revert w o w'. induction range as [|attempt rest IH]; intros w o w' Hrun.
  { injection Hrun as <- <-. exists []. split; [done|]. by split_and!. }
  cbn [attempts] in Hrun. unfold bind at 1 in Hrun.
  unfold try_except at 1 in Hrun. unfold bind at 1 in Hrun.
  destruct (launch_outcome cmd quality w) as (new1 & Hg1 & Hr1 & Ho1).
  destruct (launch_spec cmd quality w)
    as (new1' & _ & _ & _ & _ & _ & _ & _ & Hpid1 & Hs1).
  destruct (launch cfg cmd quality w) as [[p|e| |] w1] eqn:Hlaunch;
    simpl in *; try done.
  - injection Hrun as <- <-. destruct Ho1 as [Hl1 Hkeep].
    exists new1. split; [done|]. exists [], w. rewrite Hr1.
    split_and!; try done; constructor.
  - destruct Hs1 as [He Hact1]. destruct Ho1 as (h & Hl1 & Hfail & Hsub1 & Horph).
    rewrite He in Hrun. revert Hrun. run_prims. simpl.
    set (ev := EvLog (LogAttemptFailed attempt e)).
    assert (Hstep : forall w2 new2,
      live w2 = live w1 -> active_processes w2 = active_processes w1 ->
      next_pid w2 = next_pid w1 ->
      grows w w2 new2 -> launched new2 = [h] -> reported_errors new2 = [e] ->
      attempts cfg cmd quality rest w2 = (o, w') ->
      exists new,
        grows w w' new /\
        match o with
        | Ret (Some p) =>
            exists hs w0,
              launched new = Some p :: hs /\
              Forall2 failed_attempt hs (reported_errors new) /\
              Forall (fun h => forall q, h = Some q -> q ∈ live w' /\ (q < p)%nat) hs /\
              launch cfg cmd quality w0 = (Ret p, w') /\
              live w ⊆ live w0 /\ active_processes w0 = active_processes w /\
              (next_pid w <= next_pid w0)%nat
        | Ret None | Raise _ =>
            Forall2 failed_attempt (launched new) (reported_errors new) /\
            live w ⊆ live w' /\
            Forall (fun h => forall q, h = Some q ->
                      q ∈ live w' /\ recorded cfg w' <> Some q /\ (q < next_pid w')%nat)
                   (launched new)
        | _ => False
        end).
    { intros w2 new2 Hl2 Ha2 Hn2 Hg2 Hla2 Hre2 Hrest.
      destruct (attempts_spec _ _ _ _ _ _ Hrest)
        as (new3' & k & _ & _ & _ & _ & Hpid3 & Hs3).
      apply IH in Hrest as (new3 & Hg3 & Ho3).
      exists (new3 ++ new2)%list. split; [by eapply grows_trans|].
      rewrite launched_app, reported_errors_app, Hla2, Hre2.
      destruct o as [[p|]|e'| |]; try done.
      - destruct Ho3 as (hs & w0 & Hl3 & Hf3 & Hor3 & Hlaunch0 & Hsub0 & Hact0 & Hpid0).
        exists (hs ++ [h])%list, w0. rewrite Hl3.
        pose proof (launch_outcome cmd quality w0) as (new0 & _ & _ & Ho0).
        pose proof (launch_spec cmd quality w0)
          as (_ & _ & _ & _ & _ & _ & _ & _ & _ & Hs0).
        rewrite Hlaunch0 in Ho0, Hs0. simpl in Ho0, Hs0.
        destruct Ho0 as [_ Hkeep]. destruct Hs0 as (Hp0 & _).
        split_and!; try done.
        + apply Forall2_app; [done|]. by repeat constructor.
        + apply Forall_app. split; [done|]. constructor; [|constructor].
          intros q Hq. destruct (Horph q Hq) as (Hq1 & Hq2 & Hq3 & _). split.
          * apply Hkeep; [set_solver|]. unfold recorded in *. congruence.
          * lia.
        + set_solver.
        + congruence.
        + lia.
      - destruct Ho3 as (Hf3 & Hsub3 & Hor3).
        destruct Hs3 as (_ & _ & _ & _ & Hact3).
        split_and!.
        + apply Forall2_app; [done|]. by repeat constructor.
        + set_solver.
        + apply Forall_app. split; [done|]. constructor; [|constructor].
          intros q Hq. destruct (Horph q Hq) as (Hq1 & Hq2 & Hq3 & _).
          split_and!; [set_solver| |lia].
          unfold recorded in *. congruence.
      - destruct Ho3 as (Hf3 & Hsub3 & Hor3).
        destruct Hs3 as (_ & _ & _ & _ & _ & Hact3).
        split_and!.
        + apply Forall2_app; [done|]. by repeat constructor.
        + set_solver.
        + apply Forall_app. split; [done|]. constructor; [|constructor].
          intros q Hq. destruct (Horph q Hq) as (Hq1 & Hq2 & Hq3 & _).
          split_and!; [set_solver| |lia].
          unfold recorded in *. congruence. }
    assert (Hla : launched (EvSleep 3 :: ev :: new1) = [h]) by exact Hl1.
    assert (Hre : reported_errors (EvSleep 3 :: ev :: new1) = [e]).
    { change (reported_errors (EvSleep 3 :: ev :: new1))
        with (e :: reported_errors new1). by rewrite Hr1. }
    destruct (sigint_script (env w1)) as [|[] sig] eqn:Hsig; simpl; intros Hrun.
    + refine (Hstep _ (EvSleep 3 :: ev :: new1) _ _ _ _ Hla Hre Hrun); try done.
      unfold grows in *. simpl. by rewrite Hg1.
    + injection Hrun as <- <-. exists (ev :: new1). split.
      { unfold grows in *. simpl. by rewrite Hg1. }
      change (launched (ev :: new1)) with (launched new1).
      change (reported_errors (ev :: new1)) with (e :: reported_errors new1).
      rewrite Hl1, Hr1. split_and!.
      * by repeat constructor.
      * done.
      * constructor; [|constructor]. intros q Hq.
        destruct (Horph q Hq) as (Hq1 & Hq2 & Hq3 & _).
        split_and!; [done| |done]. unfold recorded in *. simpl. congruence.
    + refine (Hstep _ (EvSleep 3 :: ev :: new1) _ _ _ _ Hla Hre Hrun); try done.
      unfold grows in *. simpl. by rewrite Hg1.
Qed.

(** The look-up reads the file system and touches nothing else. *)
Lemma get_ffmpeg_path_frame :
  preserves (fun w => (trace w, relay w, active_processes w, live w,
                       next_pid w, clock w, sigint_script (env w)))
    get_ffmpeg_path.
Proof. unfold get_ffmpeg_path. preserves_tac. Qed.

Lemma start_ffmpeg_spec stream quality retries w o w' :
  start_ffmpeg cfg stream quality retries w = (o, w') ->
  relay w' = relay w /\
  (next_pid w <= next_pid w')%nat /\
  exists new,
    grows w w' new /\
    count_events is_kill new = 0%nat /\
    match o with
    | Ret (Some p) =>
        (next_pid w <= p < next_pid w')%nat /\
        active_processes w' = <[TWITCH_USER cfg := p]> (active_processes w) /\
        p ∈ live w' /\
        (forall old, active_processes w !! TWITCH_USER cfg = Some old ->
                     old <> p -> old ∉ live w')
    | Ret None => active_processes w' = active_processes w
    | Raise e =>
        (e = KeyboardInterrupt \/ e = RuntimeError) /\
        active_processes w' = active_processes w
    | _ => False
    end.
Proof.
  unfold start_ffmpeg. destruct (to_url stream) as [url|].
  - unfold bind. pose proof (get_ffmpeg_path_frame w) as Hf.
    destruct (get_ffmpeg_path_outcome w) as [[path Hp]|Hp];
      destruct (get_ffmpeg_path w) as [o1 w1]; simpl in *; subst o1;
      injection Hf as Ht Hrel Hact Hlive Hpid Hclock Hsig.
    + intros (new & k & Hg & Hrel2 & Hk & Hb & Hpid2 & Ho)%attempts_spec.
      split_and!; [congruence|lia|].
      exists new. split_and!; try done.
      { unfold grows in *. congruence. }
      rewrite Hact, Hpid in Ho.
      destruct o as [[p|]|e| |]; try done.
      * destruct Ho as (_ & _ & _ & _ & ? & ? & ? & ?). done.
      * by destruct Ho as (_ & _ & _ & _ & ?).
      * destruct Ho as (-> & _ & _ & _ & _ & ?). split; [by left|done].
    + intros [= <- <-]. split_and!; [done|lia|].
      exists []. split_and!; try done. by right.
  - run_prims. intros [= <- <-]. split_and!; [done|done|].
    by exists [EvLog LogUrlError].
Qed.
End LaunchFacts.

Lemma grows_unique (w w' : World) (new new' : list Event) :
  grows w w' new -> grows w w' new' -> new = new'.
Proof. unfold grows. intros -> H. by apply app_inv_tail in H. Qed.

Lemma length_launched (evs : list Event) :
  length (launched evs) = count_events is_launch evs.
Proof.
  unfold count_events. induction evs as [|[] evs IH]; simpl; try done.
  by rewrite <- IH.
Qed.

(** What [start_ffmpeg] does once the URL and the binary are resolved, for
    any number of attempts. *)
Lemma start_ffmpeg_outcomes (cfg : Config) (stream : Variant) (quality : string)
    (retries : nat) (w w' : World) (o : outcome (option nat)) :
  is_Some (to_url stream) ->
  (exists path, (get_ffmpeg_path w).1 = Ret path) ->
  start_ffmpeg cfg stream quality retries w = (o, w') ->
  exists (new : list Event) (k : nat),
    grows w w' new /\
    count_events is_backoff new = k /\
    match o with
    | Ret (Some p) =>
        (k < retries)%nat /\
        reported_failures new = rev (seq 1 k) /\
        (exists hs,
           launched new = Some p :: hs /\ length hs = k /\
           Forall2 failed_attempt hs (reported_errors new) /\
           Forall (fun h => forall q, h = Some q -> q ∈ live w' /\ q <> p) hs) /\
        p ∈ live w' /\ recorded cfg w' = Some p
    | Ret None =>
        k = retries /\
        reported_failures new = rev (seq 1 retries) /\
        length (launched new) = retries /\
        Forall2 failed_attempt (launched new) (reported_errors new) /\
        Forall (fun h => forall q, h = Some q ->
                  q ∈ live w' /\ recorded cfg w' <> Some q) (launched new) /\
        recorded cfg w' = recorded cfg w
    | Raise e =>
        e = KeyboardInterrupt /\
        (k < retries)%nat /\
        reported_failures new = rev (seq 1 (S k)) /\
        length (launched new) = S k /\
        Forall2 failed_attempt (launched new) (reported_errors new) /\
        sigint_script (env w) !! k = Some true /\
        recorded cfg w' = recorded cfg w
    | _ => False
    end.
Proof.
  intros [url Hurl] [path Hpath]. unfold start_ffmpeg. rewrite Hurl.
  unfold bind. pose proof (get_ffmpeg_path_frame w) as Hf.
  destruct (get_ffmpeg_path w) as [o1 w1]; cbn [fst snd] in *; subst o1.
  injection Hf as Ht Hrel Hact Hlive Hpid Hclock Hsig.
  intros Hrun.
  destruct (attempts_spec _ _ _ _ _ _ _ Hrun)
    as (new & k & Hg & _ & _ & Hb & _ & Ho).
  destruct (attempts_outcomes _ _ _ _ _ _ _ Hrun) as (new' & Hg' & Ho').
  rewrite <- (grows_unique _ _ _ _ Hg Hg') in Ho'. clear Hg' new'.
  assert (Htake : forall j, (j <= retries)%nat -> take j (seq 1 retries) = seq 1 j).
  { intros j Hj. replace retries with (j + (retries - j))%nat by lia.
    rewrite seq_app, take_app_length'; [done|by rewrite length_seq]. }
  rewrite length_seq in Ho. unfold recorded in *.
  exists new, k. split_and!; try done.
  { unfold grows in *. congruence. }
  rewrite Hsig, Hact in Ho.
  destruct o as [[p|]|e| |]; try done.
  - destruct Ho as (? & Hl & Hr & _ & _ & Ha & ? & _).
    destruct Ho' as (hs & w0 & Hla & Hf2 & Hor & _).
    rewrite Htake in Hr by lia. split_and!; try done.
    + exists hs. split_and!; try done.
      * rewrite <- length_launched, Hla in Hl. simpl in Hl. lia.
      * eapply Forall_impl; [exact Hor|]. intros h Hh q Hq.
        destruct (Hh q Hq). split; [done|lia].
    + by rewrite Ha, lookup_insert_eq.
  - destruct Ho as (-> & Hl & ? & _ & Ha).
    destruct Ho' as (Hf2 & _ & Hor).
    split_and!; try done.
    + by rewrite length_launched.
    + eapply Forall_impl; [exact Hor|]. intros h Hh q Hq.
      destruct (Hh q Hq) as (? & ? & _). done.
    + by rewrite Ha.
  - destruct Ho as (? & ? & Hl & Hr & ? & Ha).
    destruct Ho' as (Hf2 & _ & Hor).
    rewrite Htake in Hr by lia.
    split_and!; try done.
    + by rewrite length_launched.
    + by rewrite Ha.
Qed.




(** ** The handoff *)

(** How the start step raises: Ctrl-C during a back-off sleep, or the error
    of the binary look-up, before anything is logged or launched. *)
Lemma start_ffmpeg_raises (cfg : Config) (stream : Variant) (quality : string)
    (retries : nat) (w w1 : World) (e : exn) :
  start_ffmpeg cfg stream quality retries w = (Raise e, w1) ->
  e = KeyboardInterrupt \/
  (e = RuntimeError /\ (get_ffmpeg_path w).1 = Raise RuntimeError /\
   trace w1 = trace w /\ clock w1 = clock w).
Proof.
  unfold start_ffmpeg. destruct (to_url stream) as [url|].
  - unfold bind. pose proof (get_ffmpeg_path_frame w) as Hf.
    destruct (get_ffmpeg_path_outcome w) as [[path Hp]|Hp];
      destruct (get_ffmpeg_path w) as [o1 w2]; simpl in *; subst o1;
      injection Hf as Ht Hrel Hact Hlive Hpid Hclock Hsig.
    + intros (new & k & _ & _ & _ & _ & _ & Ho)%attempts_spec.
      left. by destruct Ho as [-> _].
    + intros [= <- <-]. right. by split_and!.
  - run_prims. done.
Qed.

(** C9, as the code has it.  The start step of the handoff fails by
    returning [None] or by raising.  When it returns [None], the failure is
    logged and the 10 s sleep follows; Ctrl-C during that sleep is the one
    way the sleep does not complete.  When it raises, the handoff ends at
    once with that exception: it logs nothing and sleeps nothing of its
    own; and when what is raised is the error of the binary look-up,
    nothing has been logged and no time has passed since the handoff was
    called.  In every case each field of the relay keeps its value, and so
    does the recorded handle. *)
Theorem start_new_ffmpeg_failure (cfg : Config) (stream : Variant)
    (quality : string) (w w1 : World) (o1 : outcome (option nat)) :
  start_ffmpeg cfg stream quality 3 w = (o1, w1) ->
  (forall p, o1 <> Ret (Some p)) ->
  let o := (start_new_ffmpeg cfg stream quality w).1 in
  let w' := (start_new_ffmpeg cfg stream quality w).2 in
  relay w' = relay w /\
  active_processes w' = active_processes w /\
  match o1 with
  | Ret None =>
      (head (sigint_script (env w1)) <> Some true /\
       o = Ret tt /\
       trace w' = EvSleep 10 :: EvLog (LogFailedStart quality) :: trace w1) \/
      (head (sigint_script (env w1)) = Some true /\
       o = Raise KeyboardInterrupt /\
       trace w' = EvLog (LogFailedStart quality) :: trace w1)
  | Raise e =>
      o = Raise e /\ w' = w1 /\
      (e = KeyboardInterrupt \/
       (e = RuntimeError /\ (get_ffmpeg_path w).1 = Raise RuntimeError /\
        trace w1 = trace w /\ clock w1 = clock w))
  | _ => False
  end.
Proof.
  intros Hstart Hfail.
  destruct (start_ffmpeg_spec _ _ _ _ _ _ _ Hstart) as (Hrel & _ & _ & _ & _ & Ho).
  cbv zeta. destruct o1 as [[p|]|e| |]; try done.
  - by destruct (Hfail p eq_refl).
  - assert (E : start_new_ffmpeg cfg stream quality w
                = (logger (LogFailedStart quality) ;; time_sleep 10) w1).
    { unfold start_new_ffmpeg, bind at 1. by rewrite Hstart. }
    rewrite E. run_prims. simpl.
    destruct (sigint_script (env w1)) as [|[] sig]; simpl;
      (split_and!; [exact Hrel|exact Ho|]); [left|right|left]; by split_and!.
  - assert (E : start_new_ffmpeg cfg stream quality w = (Raise e, w1)).
    { unfold start_new_ffmpeg, bind at 1. by rewrite Hstart. }
    rewrite E. destruct Ho as [_ Hact]. simpl. split_and!; try done.
    by eapply start_ffmpeg_raises.
Qed.

Lemma start_new_ffmpeg_failure_witness :
  let w := world_no_launch in
  let w1 := (start_ffmpeg cfg0 v720 "720p" 3 w).2 in
  let o := (start_new_ffmpeg cfg0 v720 "720p" w).1 in
  let w' := (start_new_ffmpeg cfg0 v720 "720p" w).2 in
  start_ffmpeg cfg0 v720 "720p" 3 w = (Ret None, w1) /\
  relay w' = relay w /\
  active_processes w' = active_processes w /\
  ((head (sigint_script (env w1)) <> Some true /\
    o = Ret tt /\
    trace w' = EvSleep 10 :: EvLog (LogFailedStart "720p") :: trace w1) \/
   (head (sigint_script (env w1)) = Some true /\
    o = Raise KeyboardInterrupt /\
    trace w' = EvLog (LogFailedStart "720p") :: trace w1)).
Proof.
  assert (H : start_ffmpeg cfg0 v720 "720p" 3 world_no_launch
              = (Ret None, (start_ffmpeg cfg0 v720 "720p" 3 world_no_launch).2)).
  { vm_compute. reflexivity. }
  split; [exact H|].
  apply (start_new_ffmpeg_failure cfg0 v720 "720p" world_no_launch _ _ H).
  intros p. discriminate.
Defined.

(** The handoff to [best] with the binary gone: the start step raises
    [RuntimeError] and so does the handoff; nothing is logged and no time
    passes. *)
Lemma failed_start_unlogged :
  let w := world_binary_gone in
  let run := start_new_ffmpeg cfg0 vbest "best" w in
  (start_ffmpeg cfg0 vbest "best" 3 w).1 = Raise RuntimeError /\
  run.1 = Raise RuntimeError /\
  trace run.2 = trace w /\
  clock run.2 = clock w /\
  relay run.2 = relay w.
Proof. split_and!; by vm_compute. Qed.

Lemma waits_return_tail (w w' : World) :
  (wait_script (env w') = wait_script (env w) \/
   exists b, wait_script (env w) = b :: wait_script (env w')) ->
  waits_return w -> waits_return w'.
Proof.
  unfold waits_return. intros [->|[b ->]] H; [done|].
  intros Hin. apply H. apply elem_of_cons. by right.
Qed.

(** The retirement of the handoff never raises: it asks the subprocess to
    exit, waits 10 s at most, kills it when that wait times out, and leaves
    it not running. *)
Lemma retire_on_handoff_spec (old : nat) (w : World) :
  let o := (retire_on_handoff old w).1 in
  let w' := (retire_on_handoff old w).2 in
  o = Ret tt /\
  live w' = live w ∖ {[old]} /\
  relay w' = relay w /\
  active_processes w' = active_processes w /\
  next_pid w' = next_pid w /\
  clock w <= clock w' <= clock w + 10 /\
  (old ∉ live w -> wait_script (env w') = wait_script (env w)) /\
  (wait_script (env w') = wait_script (env w) \/
   exists b, wait_script (env w) = b :: wait_script (env w')) /\
  (events_since w w' = [EvTerminate old; EvWait old (Some 10) true] \/
   events_since w w'
     = [EvTerminate old; EvWait old (Some 10) false; EvKill old]).
Proof.
  run_prims. simpl.
  assert (Hlen : forall n : nat, (S (S n) - n = 2)%nat /\ (S (S (S n)) - n = 3)%nat)
    by (intros; lia).
  destruct (decide (old ∈ live w)) as [Hin|Hin]; simpl;
    [destruct (wait_script (env w)) as [|[] r] eqn:Hw; simpl|];
    unfold events_since; simpl;
    rewrite ?(proj1 (Hlen _)), ?(proj2 (Hlen _)); simpl;
    split_and!; try done; try lia; try set_solver; eauto.
Qed.

Section HandoffFacts.
Variable cfg : Config.

Lemma launch_live cmd quality w :
  waits_return w ->
  let o := (launch cfg cmd quality w).1 in
  let w' := (launch cfg cmd quality w).2 in
  waits_return w' /\
  match o with
  | Ret p => live w' ⊆ {[p]} ∪ live w
  | _ => live w' = live w
  end.
Proof.
  unfold waits_return. run_prims.
  destruct (popen_script (env w)) as [|[] r] eqn:Hp; simpl;
    destruct (active_processes w !! TWITCH_USER cfg) as [old|] eqn:Hold; simpl;
    try destruct (Nat.eqb_spec old (next_pid w)) as [->|Hne]; simpl;
    try case_decide; simpl;
    try destruct (wait_script (env w)) as [|[] r'] eqn:Hw; simpl;
    intros Hret;
    try (exfalso; apply Hret; apply elem_of_cons; by left);
    (split; [try done; intros Hin; rewrite ?Hw in Hin;
             first [by apply Hret | apply Hret; apply elem_of_cons; by right]|]);
    try done; try set_solver.
Qed.

Lemma attempts_live cmd quality range w o w' :
  attempts cfg cmd quality range w = (o, w') ->
  waits_return w ->
  waits_return w' /\
  match o with
  | Ret (Some p) => live w' ⊆ {[p]} ∪ live w
  | _ => live w' = live w
  end.
Proof.
  revert w. induction range as [|attempt rest IH]; intros w Hrun Hret.
  { by injection Hrun as <- <-. }
  cbn [attempts] in Hrun. unfold bind at 1 in Hrun.
  unfold try_except at 1 in Hrun. unfold bind at 1 in Hrun.
  destruct (launch_live cmd quality w Hret) as [Hret1 Hl1].
  destruct (launch_spec cfg cmd quality w) as (_ & _ & _ & _ & _ & _ & _ & _ & _ & Ho1).
  destruct (launch cfg cmd quality w) as [[p|e| |] w1]; simpl in *; try done.
  - by injection Hrun as <- <-.
  - destruct Ho1 as [He _]. rewrite He in Hrun. revert Hrun. run_prims. simpl.
    destruct (sigint_script (env w1)) as [|[] sig] eqn:Hsig; simpl; intros Hrun.
    + apply IH in Hrun as [? Ho]; [|done]. split; [done|].
      simpl in Ho. rewrite Hl1 in Ho. done.
    + by injection Hrun as <- <-.
    + apply IH in Hrun as [? Ho]; [|done]. split; [done|].
      simpl in Ho. rewrite Hl1 in Ho. done.
Qed.

Lemma start_ffmpeg_live stream quality retries w o w' :
  start_ffmpeg cfg stream quality retries w = (o, w') ->
  waits_return w ->
  waits_return w' /\
  match o with
  | Ret (Some p) => live w' ⊆ {[p]} ∪ live w
  | _ => live w' = live w
  end.
Proof.
  unfold start_ffmpeg. destruct (to_url stream) as [url|].
  - unfold bind.
    assert (Hf : preserves (fun w => (live w, wait_script (env w))) get_ffmpeg_path).
    { unfold get_ffmpeg_path. preserves_tac. }
    specialize (Hf w).
    destruct (get_ffmpeg_path_outcome w) as [[path Hp]|Hp];
      destruct (get_ffmpeg_path w) as [o1 w1]; cbn [fst snd] in *; subst o1;
      injection Hf as Hlive Hwait.
    + intros Hrun Hret. apply attempts_live in Hrun as [? Ho].
      * split; [done|]. by rewrite Hlive in Ho.
      * unfold waits_return in *. by rewrite Hwait.
    + intros [= <- <-] Hret. split; [|done].
      unfold waits_return in *. by rewrite Hwait.
  - run_prims. by intros [= <- <-] Hret.
Qed.
End HandoffFacts.

Ltac relay_simpl :=
  unfold set_stream_obj, set_start_time, set_current_quality,
    set_current_ffmpeg, set_last_stream_status, set_last_upgrade_logged in *;
  simpl in *.

(** What a handoff does, by the result of its start step. *)
Lemma start_new_ffmpeg_cases (cfg : Config) (stream : Variant) (quality : string)
    (w : World) (o : outcome unit) (w' : World) :
  start_new_ffmpeg cfg stream quality w = (o, w') ->
  exists o1 w1,
    start_ffmpeg cfg stream quality 3 w = (o1, w1) /\
    match o1 with
    | Ret (Some p) =>
        exists w2,
          o = Ret tt /\
          relay w' = mkRelay (Some p) (Some quality) (Some (clock w2)) (Some stream)
                      (last_stream_status (relay w)) (last_upgrade_logged (relay w)) /\
          active_processes w' = active_processes w1 /\
          next_pid w' = next_pid w1 /\
          env w' = env w2 /\
          match current_ffmpeg (relay w) with
          | Some old =>
              if Nat.eqb old p then w2 = w1
              else w2 = (retire_on_handoff old (emit (EvLog (LogStopping old)) w1)).2
          | None => w2 = w1
          end /\
          live w' = live w2 /\ trace w' = trace w2 /\ clock w' = clock w2
    | Ret None =>
        (o, w') = time_sleep 10 (emit (EvLog (LogFailedStart quality)) w1)
    | _ => o = match o1 with Ret _ => Ret tt | Raise e => Raise e
                           | Blocked => Blocked | OutOfFuel => OutOfFuel end
           /\ w' = w1
    end.
Proof.
  unfold start_new_ffmpeg, bind at 1.
  destruct (start_ffmpeg cfg stream quality 3 w) as [o1 w1] eqn:Hstart.
  destruct (start_ffmpeg_spec _ _ _ _ _ _ _ Hstart) as (Hrel & _).
  intros Hrun. exists o1, w1. split; [done|].
  destruct o1 as [[p|]|e| |]; try (by injection Hrun as <- <-);
    [|by rewrite <- Hrun].
  revert Hrun. unfold bind at 1, self_get, get. rewrite Hrel.
  destruct (current_ffmpeg (relay w)) as [old|]; [destruct (Nat.eqb old p)|]; simpl.
  - run_prims. simpl. intros [= <- <-]. exists w1. simpl.
    rewrite Hrel. relay_simpl. by split_and!.
  - unfold bind at 1. unfold bind at 1. unfold logger, modify.
    pose proof (retire_on_handoff_spec old (emit (EvLog (LogStopping old)) w1))
      as (Ho & _ & Hrel2 & Hact2 & Hpid2 & _).
    destruct (retire_on_handoff old (emit (EvLog (LogStopping old)) w1))
      as [o2 w2]; simpl in Ho, Hrel2, Hact2, Hpid2; subst o2.
    run_prims. simpl. intros [= <- <-]. exists w2. simpl.
    rewrite Hrel2, Hrel. relay_simpl. by split_and!.
  - run_prims. simpl. intros [= <- <-]. exists w1. simpl.
    rewrite Hrel. relay_simpl. by split_and!.
Qed.

Lemma time_sleep_frame (secs : Z) :
  preserves (fun w => (live w, relay w, active_processes w, next_pid w,
                       wait_script (env w)))
    (time_sleep secs).
Proof. preserves_prim. Qed.

Section Overlap.
Variable cfg : Config.

(** A launch attempt that succeeds over a recorded subprocess: the new
    subprocess is started first, and only then is the recorded one asked to
    exit and waited for. *)
Lemma launch_overlap cmd quality w p w' old :
  launch cfg cmd quality w = (Ret p, w') ->
  recorded cfg w = Some old -> old <> p ->
  take 3 (events_since w w')
    = [EvPopen cmd (Some p); EvTerminate old; EvWait old (Some 10) true] /\
  (old ∈ live w -> {[old; p]} ⊆ live_after [EvPopen cmd (Some p)] (live w)).
Proof.
  unfold recorded. intros Hrun Hold Hne. revert Hrun. run_prims.
  assert (Hlen : forall n : nat, (S (S (S (S n))) - n = 4)%nat) by (intros; lia).
  destruct (popen_script (env w)) as [|[] r] eqn:Hp; simpl; rewrite ?Hold; simpl;
    try done;
    (destruct (Nat.eqb_spec old (next_pid w)) as [Heq|Hne']; simpl;
     [intros [= <-]; congruence|]);
    try case_decide; simpl;
    try destruct (wait_script (env w)) as [|[] r'] eqn:Hw; simpl;
    try done; intros [= <- <-];
    unfold events_since; simpl; rewrite ?Hlen; simpl;
    (split; [done|set_solver]).
Qed.

Lemma start_ffmpeg_last_launch stream quality retries w p w1 :
  start_ffmpeg cfg stream quality retries w = (Ret (Some p), w1) ->
  exists cmd w0,
    launch cfg cmd quality w0 = (Ret p, w1) /\
    live w ⊆ live w0 /\ recorded cfg w0 = recorded cfg w.
Proof.
  unfold start_ffmpeg. destruct (to_url stream) as [url|].
  - unfold bind. pose proof (get_ffmpeg_path_frame w) as Hf.
    destruct (get_ffmpeg_path w) as [[path|e| |] w2]; cbn [fst snd] in *; try done.
    injection Hf as Ht Hrel Hact Hlive Hpid Hclock Hsig.
    intros (new & Hg & hs & w0 & _ & _ & _ & Hl & Hsub & Ha & _)%attempts_outcomes.
    exists (build_cmd cfg path url), w0. unfold recorded.
    split_and!; [done|set_solver|congruence].
  - run_prims. done.
Qed.
End Overlap.

(** C1, as the code has it.  The handoff starts the new subprocess before it
    retires the previous one, so the two run side by side in between.  What
    holds is this.  When the start step returns a handle, the handoff
    returns with that subprocess running and recorded in both places, and
    with the subprocess recorded before, when it is another one, no longer
    running; the attempt that succeeded called [Popen] first and asked the
    recorded subprocess to exit after it, so right after that [Popen] the
    recorded subprocess, if it was running, and the new one are both
    running.  When the start step returns no handle, the relay and the
    recorded handle are as they were.  And when no wait for a retired
    subprocess times out, a handoff that starts with no subprocess running
    but the recorded one ends that way. *)
Theorem handoff_retires_previous (cfg : Config) (stream : Variant)
    (quality : string) (w : World) :
  let s := start_ffmpeg cfg stream quality 3 w in
  let o := (start_new_ffmpeg cfg stream quality w).1 in
  let w' := (start_new_ffmpeg cfg stream quality w).2 in
  match s.1 with
  | Ret (Some p) =>
      o = Ret tt /\ (next_pid w <= p)%nat /\ p ∈ live w' /\
      current_ffmpeg (relay w') = Some p /\ recorded cfg w' = Some p /\
      (forall old,
         current_ffmpeg (relay w) = Some old \/ recorded cfg w = Some old ->
         old <> p -> old ∉ live w') /\
      exists cmd w0,
        launch cfg cmd quality w0 = (Ret p, s.2) /\
        live w ⊆ live w0 /\ recorded cfg w0 = recorded cfg w /\
        forall old,
          recorded cfg w = Some old -> old <> p ->
          take 3 (events_since w0 s.2)
            = [EvPopen cmd (Some p); EvTerminate old; EvWait old (Some 10) true] /\
          (old ∈ live w ->
           {[old; p]} ⊆ live_after [EvPopen cmd (Some p)] (live w0))
  | _ => relay w' = relay w /\ active_processes w' = active_processes w
  end /\
  (single_live cfg w -> waits_return w -> single_live cfg w' /\ waits_return w').
Proof.
  cbv zeta.
  destruct (start_new_ffmpeg cfg stream quality w) as [o w'] eqn:Hrun.
  cbn [fst snd].
  destruct (start_new_ffmpeg_cases _ _ _ _ _ _ Hrun) as (o1 & w1 & Hstart & Hcase).
  destruct (start_ffmpeg_spec _ _ _ _ _ _ _ Hstart)
    as (Hrel1 & Hpid1 & new1 & _ & _ & Ho1).
  pose proof (start_ffmpeg_live _ _ _ _ _ _ _ Hstart) as Hlive1.
  rewrite Hstart. cbn [fst snd].
  unfold single_live, recorded.
  destruct o1 as [[p|]|e| |]; try done.
  - (* the start step returned a handle *)
    destruct Hcase as (w2 & -> & Hrel & Hact & Hpid & Henv & Hw2 & Hlv & _).
    destruct Ho1 as (Hp & Hact1 & Hpl & Hold).
    assert (Hretire :
      live w2 ⊆ live w1 /\ p ∈ live w2 /\
      (forall old, current_ffmpeg (relay w) = Some old -> old <> p -> old ∉ live w2) /\
      (waits_return w1 ->
       (forall old, current_ffmpeg (relay w) = Some old -> old <> p -> old ∉ live w1) ->
       waits_return w2)).
    { revert Hw2. destruct (current_ffmpeg (relay w)) as [old|];
        [destruct (Nat.eqb_spec old p) as [Heq|Hne]|]; intros ->.
      - split_and!; try done. intros ? [= <-]. done.
      - pose proof (retire_on_handoff_spec old (emit (EvLog (LogStopping old)) w1))
          as (_ & Hl & _ & _ & _ & _ & Hsame & _). simpl in Hl, Hsame.
        rewrite Hl. split_and!; [set_solver|set_solver| |].
        + intros ? [= <-] _. set_solver.
        + intros Hret Hgone. unfold waits_return in *. rewrite Hsame; [done|].
          by apply Hgone.
      - split_and!; try done. }
    destruct Hretire as (Hsub & Hp2 & Hgone & Hret2).
    split.
    + rewrite Hrel, Hact, Hact1, Hlv. simpl.
      split_and!; try done; try lia.
      { apply lookup_insert_eq. }
      { intros old [Hc|Ha] Hne; [by apply Hgone|].
        intros Hin. apply (Hold old Ha Hne). by apply Hsub. }
      destruct (start_ffmpeg_last_launch _ _ _ _ _ _ _ Hstart)
        as (cmd & w0 & Hl0 & Hsub0 & Hrec0).
      exists cmd, w0. split_and!; try done.
      intros old Ho Hne.
      assert (Ho0 : recorded cfg w0 = Some old) by (rewrite Hrec0; exact Ho).
      destruct (launch_overlap _ _ _ _ _ _ _ Hl0 Ho0 Hne) as [Hev Hov].
      split; [done|]. intros Hin. apply Hov. by apply Hsub0.
    + intros (Hsame & Hfresh & Honly) Hret.
      destruct (Hlive1 Hret) as [Hret1 Hl1].
      assert (Hgone1 : forall old, current_ffmpeg (relay w) = Some old ->
                                   old <> p -> old ∉ live w1).
      { intros old Hc Hne. apply Hold; [|done]. by rewrite <- Hsame. }
      rewrite Hrel, Hact, Hact1, Hpid, Hlv, lookup_insert_eq. simpl.
      split_and!; try done.
      * intros ? [= <-]. lia.
      * intros q Hq. f_equal. symmetry.
        destruct (decide (q = p)) as [|Hne]; [done|exfalso].
        assert (Hq1 : q ∈ live w1) by by apply Hsub.
        assert (Hq0 : q ∈ live w) by set_solver.
        apply Honly in Hq0. by apply (Hold q).
      * unfold waits_return in *. rewrite Henv. by apply Hret2.
  - (* the start step returned the failure signal *)
    pose proof (time_sleep_frame 10 (emit (EvLog (LogFailedStart quality)) w1)) as Hf.
    rewrite <- Hcase in Hf. simpl in Hf.
    injection Hf as Hl Hr Ha Hn Hw.
    rewrite Hr, Ha, Hn, Hl, Hrel1, Ho1.
    split; [done|].
    intros (Hsame & Hfresh & Honly) Hret. destruct (Hlive1 Hret) as [Hret1 Hl1].
    rewrite Hl1. split_and!; try done.
    + intros q Hq. apply Hfresh in Hq. lia.
    + unfold waits_return in *. by rewrite Hw.
  - (* the start step raised *)
    destruct Hcase as [-> ->]. destruct Ho1 as [_ Hact1].
    rewrite Hrel1, Hact1. split; [done|].
    intros (Hsame & Hfresh & Honly) Hret. destruct (Hlive1 Hret) as [Hret1 Hl1].
    rewrite Hl1. split_and!; try done.
    intros q Hq. apply Hfresh in Hq. lia.
Qed.

Lemma handoff_retires_previous_witness :
  let w := world_first_session in
  let s := start_ffmpeg cfg0 vbest "best" 3 w in
  let w' := (start_new_ffmpeg cfg0 vbest "best" w).2 in
  (s.1 = Ret (Some 1%nat) /\ recorded cfg0 w = Some 0%nat /\ 0%nat ∈ live w /\
   single_live cfg0 w /\ waits_return w) /\
  (1%nat ∈ live w' /\ recorded cfg0 w' = Some 1%nat /\ (0%nat ∉ live w') /\
   (exists cmd w0,
      take 3 (events_since w0 s.2)
        = [EvPopen cmd (Some 1%nat); EvTerminate 0%nat; EvWait 0%nat (Some 10) true] /\
      {[0%nat; 1%nat]} ⊆ live_after [EvPopen cmd (Some 1%nat)] (live w0)) /\
   single_live cfg0 w' /\ waits_return w').
Proof.
  assert (Hs : (start_ffmpeg cfg0 vbest "best" 3 world_first_session).1
               = Ret (Some 1%nat)) by (vm_compute; reflexivity).
  assert (Hrec : recorded cfg0 world_first_session = Some 0%nat)
    by (vm_compute; reflexivity).
  assert (Hlive : live world_first_session = {[0%nat]}) by (vm_compute; reflexivity).
  assert (Hin : 0%nat ∈ live world_first_session) by (rewrite Hlive; set_solver).
  assert (Hsingle : single_live cfg0 world_first_session).
  { split_and!; [vm_compute; reflexivity| |].
    - intros p. rewrite Hrec. intros [= <-]. vm_compute. lia.
    - intros p. rewrite Hlive, Hrec. intros ->%elem_of_singleton. done. }
  assert (Hwaits : waits_return world_first_session) by apply not_elem_of_nil.
  split; [by split_and!|].
  pose proof (handoff_retires_previous cfg0 vbest "best" world_first_session) as H.
  cbv zeta in H. rewrite Hs in H.
  destruct H as [(_ & _ & Hp & _ & Hr & Hgone & cmd & w0 & _ & _ & _ & Hov) Hkeep].
  assert (Hne : 0%nat <> 1%nat) by lia.
  destruct (Hov 0%nat Hrec Hne) as [Hev Hboth].
  destruct (Hkeep Hsingle Hwaits) as [Hs' Hw'].
  split_and!; [exact Hp|exact Hr| | |exact Hs'|exact Hw'].
  - apply (Hgone 0%nat); [by right|done].
  - exists cmd, w0. split; [done|by apply Hboth].
Defined.

(** The handoff from 720p to [best], from the state the first handoff of an
    undisturbed run leaves: subprocess 1 is started while subprocess 0 is
    running, and the two run together until the wait for 0 returns. *)
Lemma handoff_overlap :
  let w := world_first_session in
  let w' := (start_new_ffmpeg cfg0 vbest "best" w).2 in
  elements (live w) = [0%nat] /\
  elements (live_after (events_since w w') (live w)) = elements (live w') /\
  (exists cmd rest,
     events_since w w'
       = EvPopen cmd (Some 1%nat) :: EvTerminate 0 :: EvWait 0 (Some 10) true :: rest) /\
  size <$> live_history (events_since w w') (live w)
    = [1; 2; 2; 1; 1; 1; 1; 1]%nat /\
  peak_live (events_since w w') (live w) = 2%nat.
Proof.
  split_and!; [by vm_compute|by vm_compute| |by vm_compute|by vm_compute].
  eexists _, _. vm_compute. reflexivity.
Qed.

(** C4, at the retirement inside [start_ffmpeg].  With subprocess 0 recorded
    and not exiting within 10 s of [terminate], the retirement raises
    [TimeoutExpired] and sends no kill; [start_ffmpeg] takes that for a
    failed launch, three times over, and returns [None] with subprocess 0
    and the three subprocesses it started all running. *)
Theorem retire_on_launch_no_kill :
  let r := start_ffmpeg cfg0 vbest "best" 3 world_stubborn in
  (retire_on_launch 0 world_stubborn).1 = Raise TimeoutExpired /\
  count_events is_kill (trace (retire_on_launch 0 world_stubborn).2) = 0%nat /\
  r.1 = Ret None /\
  count_events is_kill (trace r.2) = 0%nat /\
  count_events is_launch (trace r.2) = 3%nat /\
  reported_failures (trace r.2) = [3; 2; 1]%nat /\
  recorded cfg0 r.2 = Some 0%nat /\
  size (live r.2) = 4%nat.
Proof. split_and!; by vm_compute. Qed.

(** ** The checks of the relaying loop *)




(** ** Failures inside the loop *)

Lemma survives_ret {A} (a : A) : survives (ret a).
Proof. by intros w ? ?. Qed.

Lemma survives_bind {A B} (m : M A) (k : A -> M B) :
  survives m -> (forall a, survives (k a)) -> survives (bind m k).
Proof.
  intros Hm Hk w Hwf Hok. unfold bind.
  destruct (Hm w Hwf Hok) as (Hwf1 & Hok1 & Ho).
  destruct (m w) as [[a|e| |] w1]; simpl in *; try done.
  by apply Hk.
Qed.

(** A step that leaves the relay and the file system script alone and
    raises nothing but Ctrl-C. *)
Lemma survives_frame {A} (m : M A) :
  preserves (fun w => (relay w, lookups w)) m ->
  (forall w, only_interrupt (m w).1) ->
  survives m.
Proof.
  intros Hf Ho w Hwf Hok. specialize (Hf w). injection Hf as Hr Hfs Hl.
  unfold relay_wf, lookups_ok in *. rewrite Hr, Hfs, Hl. split_and!; try done.
Qed.

Lemma time_sleep_survives (secs : Z) : survives (time_sleep secs).
Proof.
  apply survives_frame; [preserves_prim|].
  intros w. unfold time_sleep. by repeat case_match.
Qed.

Lemma logger_survives (l : LogLine) : survives (logger l).
Proof. apply survives_frame; [preserves_prim|done]. Qed.

Lemma get_survives {A} (f : World -> A) : survives (get f).
Proof. by intros w ? ?. Qed.

Lemma get_available_streams_survives : survives get_available_streams.
Proof.
  apply survives_frame; [unfold get_available_streams, get_available_streams_from; preserves_tac|].
  intros w. unfold get_available_streams, get_available_streams_from, try_except, bind, streamlink_streams.
  by repeat case_match.
Qed.

Lemma pick_best_stream_returns {V} (streams : dict V) :
  streams <> [] -> exists qs, pick_best_stream streams = Ret qs.
Proof.
  intros Hne. unfold pick_best_stream. rewrite dict_mem_get.
  destruct (dict_get "best" streams) as [v|] eqn:Hbest.
  { rewrite bool_decide_eq_true_2; by eexists. }
  rewrite bool_decide_eq_false_2; [|by intros [? ?]].
  destruct (sorted_reverse _) as [|q rest] eqn:Hsort.
  { destruct streams; [done|by eexists]. }
  destruct (sorted_reverse_head _ _ _ Hsort) as [Hin _].
  apply list_elem_of_filter in Hin as [_ Hk].
  destruct (dict_get_keys _ _ Hk) as [v ->]. by eexists.
Qed.

Lemma self_set_survives (f : Relay -> Relay) :
  (forall r, current_ffmpeg (f r) = current_ffmpeg r /\
             start_time (f r) = start_time r) ->
  survives (self_set f).
Proof.
  intros Hf w Hwf Hok. unfold self_set, modify, relay_wf, lookups_ok in *. simpl.
  destruct (Hf (relay w)) as [-> ->]. by split_and!.
Qed.

Lemma lift_survives {A} (o : outcome A) : only_interrupt o -> survives (lift o).
Proof. by intros Ho w ? ?. Qed.

Lemma attempts_lookups (cfg : Config) cmd quality range :
  preserves lookups (attempts cfg cmd quality range).
Proof.
  induction range as [|attempt rest IH]; cbn [attempts]; [apply preserves_ret|].
  unfold launch. preserves_tac.
Qed.

Lemma start_ffmpeg_lookups (cfg : Config) stream quality retries w o w' :
  start_ffmpeg cfg stream quality retries w = (o, w') ->
  lookups_ok w -> lookups_ok w' /\ only_interrupt o.
Proof.
  unfold start_ffmpeg. destruct (to_url stream) as [url|].
  - unfold get_ffmpeg_path, bind at 1, bind at 1, look_up, lift. intros Hrun Hok.
    assert (Hnext : exists f w1,
      (match lookup_script (env w) with
       | [] => (Ret (fs (env w)), w)
       | f :: r => (Ret f, with_env (with_lookup_script r (env w)) w)
       end) = (Ret f, w1) /\
      lookups_ok w1 /\ exists path, ffmpeg_path_in f = Ret path).
    { unfold lookups_ok in *.
      destruct (lookup_script (env w)) as [|f r] eqn:Hl; eexists _, _;
        (split; [reflexivity|]); simpl; rewrite ?Hl; split.
      - done.
      - apply Hok. apply elem_of_cons. by left.
      - intros f' Hf'. apply Hok. set_solver.
      - apply Hok. set_solver. }
    destruct Hnext as (f & w1 & Hlook & Hok1 & path & Hpath).
    rewrite Hlook, Hpath in Hrun.
    pose proof (attempts_lookups cfg (build_cmd cfg path url) quality (seq 1 retries) w1)
      as Hf.
    destruct (attempts_spec _ _ _ _ _ _ _ Hrun) as (new & k & _ & _ & _ & _ & _ & Ho).
    rewrite Hrun in Hf. simpl in Hf. injection Hf as Hfs Hl.
    split.
    + unfold lookups_ok in *. by rewrite Hfs, Hl.
    + destruct o as [[?|]|e| |]; try done. by destruct Ho.
  - run_prims. by intros [= <- <-].
Qed.

Lemma retire_on_handoff_lookups (old : nat) :
  preserves lookups (retire_on_handoff old).
Proof. preserves_prim. Qed.

Lemma start_new_ffmpeg_survives (cfg : Config) stream quality :
  survives (start_new_ffmpeg cfg stream quality).
Proof.
  intros w Hwf Hok.
  destruct (start_new_ffmpeg cfg stream quality w) as [o w'] eqn:Hrun.
  cbn [fst snd].
  destruct (start_new_ffmpeg_cases _ _ _ _ _ _ Hrun) as (o1 & w1 & Hstart & Hcase).
  destruct (start_ffmpeg_spec _ _ _ _ _ _ _ Hstart) as (Hrel1 & _).
  destruct (start_ffmpeg_lookups _ _ _ _ _ _ _ Hstart Hok) as [Hok1 Ho1].
  destruct o1 as [[p|]|e| |]; try done.
  - destruct Hcase as (w2 & -> & Hrel & _ & _ & Henv & Hw2 & _).
    split_and!; try done.
    + unfold relay_wf. rewrite Hrel. by eexists.
    + assert (Hl : lookups w2 = lookups w1).
      { destruct (current_ffmpeg (relay w)) as [old|];
          [destruct (Nat.eqb old p)|]; subst w2; try done.
        by rewrite retire_on_handoff_lookups. }
      unfold lookups_ok, lookups in *. rewrite Henv. injection Hl as -> ->. done.
  - pose proof (time_sleep_survives 10 (emit (EvLog (LogFailedStart quality)) w1)) as H.
    rewrite <- Hcase in H. apply H.
    + unfold relay_wf in *. simpl. by rewrite Hrel1.
    + done.
  - destruct Hcase as [Ho Hw]. subst o w'. split_and!; try done.
    unfold relay_wf in *. by rewrite Hrel1.
  - destruct Hcase as [Ho Hw]. subst o w'. split_and!; try done.
    unfold relay_wf in *. by rewrite Hrel1.
Qed.

Create HintDb survive.
#[local] Hint Resolve survives_ret time_sleep_survives logger_survives
  get_survives get_available_streams_survives start_new_ffmpeg_survives
  : survive.

Ltac survive_step :=
  first
    [ solve [eauto with survive]
    | apply survives_bind; [|intros ?]
    | apply self_set_survives; intros ?; by split
    | apply lift_survives; done
    | progress cbv zeta
    | progress (repeat case_match) ].

Ltac survive := unfold self_get, time_time; repeat survive_step.

Lemma wait_poll_survives : survives wait_poll.
Proof.
  unfold wait_poll. survive.
  match goal with
  | |- survives (lift (pick_best_stream ?s)) =>
      destruct (pick_best_stream_returns s) as [qs ->]; [done|]
  end.
  by apply lift_survives.
Qed.

Lemma wait_for_stream_survives (fuel : nat) : survives (wait_for_stream fuel).
Proof.
  induction fuel as [|fuel IH]; cbn [wait_for_stream].
  - by apply lift_survives.
  - pose proof wait_poll_survives. survive.
Qed.

Lemma poll_exited_frame (p : nat) :
  preserves (fun w => (relay w, lookups w, clock w)) (poll_exited p).
Proof. preserves_prim. Qed.

Lemma poll_exited_returns (p : nat) (w : World) :
  exists b, (poll_exited p w).1 = Ret b.
Proof. unfold poll_exited. repeat case_match; by eexists. Qed.

Lemma survives_at {A} (m : M A) (w w' : World) (o : outcome A) :
  survives m -> m w = (o, w') -> relay_wf w -> lookups_ok w ->
  relay_wf w' /\ lookups_ok w' /\ only_interrupt o.
Proof. intros Hm Hrun Hwf Hok. specialize (Hm w Hwf Hok). by rewrite Hrun in Hm. Qed.

Ltac survives_here :=
  match goal with
  | |- ?m ?w = (_, _) -> _ =>
      let H := fresh "H" in
      let Hrun := fresh "Hrun" in
      assert (H : survives m); [|intros Hrun; by apply (survives_at m w _ _ H Hrun)]
  end.

Lemma check_survives (cfg : Config) stream quality :
  survives (check cfg stream quality).
Proof.
  intros w Hwf Hok.
  destruct (check cfg stream quality w) as [o w'] eqn:Hrun. cbn [fst snd].
  revert Hrun. unfold check. unfold bind at 1, self_get at 1, get.
  destruct (current_ffmpeg (relay w)) as [p|] eqn:Hcur.
  - unfold bind at 1.
    pose proof (poll_exited_frame p w) as Hf.
    destruct (poll_exited_returns p w) as [dead Hdead].
    destruct (poll_exited p w) as [o1 w1]; cbn [fst snd] in *; subst o1.
    injection Hf as Hrel Hfs Hl Hclock.
    assert (Hwf1 : relay_wf w1) by (unfold relay_wf in *; by rewrite Hrel).
    assert (Hok1 : lookups_ok w1) by (unfold lookups_ok in *; by rewrite Hfs, Hl).
    destruct dead.
    + survives_here. survive.
    + unfold bind at 1, time_time, get. unfold bind at 1, self_get at 1, get.
      destruct (start_time (relay w1)) as [t0|] eqn:Ht0.
      2:{ exfalso. unfold relay_wf in Hwf1. rewrite Hrel, Hcur in Hwf1.
          rewrite Hrel in Ht0. destruct Hwf1 as [? ?]; [by eexists|congruence]. }
      cbv zeta.
      destruct (clock w1 - t0 >? FFMPEG_MAX_RUNTIME); survives_here; survive.
      (* [streams["best"]] is reached only when ["best" in streams] *)
      match goal with
      | H : dict_mem "best" ?a && _ = true, H0 : dict_get "best" ?a = None |- _ =>
          apply andb_true_iff in H as [H _]; rewrite dict_mem_get, H0 in H;
          by apply bool_decide_eq_true in H as [v ?]
      end.
  - unfold bind at 1, ret. survives_here. survive.
Qed.

Lemma relaying_survives (cfg : Config) fuel stream quality :
  survives (relaying cfg fuel stream quality).
Proof.
  induction fuel as [|fuel IH]; cbn [relaying].
  - by apply lift_survives.
  - pose proof (check_survives cfg). survive.
Qed.

Lemma start_relay_loop_survives (cfg : Config) passes fuel :
  survives (start_relay_loop cfg passes fuel).
Proof.
  induction passes as [|passes IH]; cbn [start_relay_loop].
  - by apply lift_survives.
  - pose proof wait_for_stream_survives. pose proof (relaying_survives cfg).
    unfold relay_pass. survive.
Qed.

Lemma start_relay_loop_goes_on (cfg : Config) passes fuel w :
  forall a, (start_relay_loop cfg passes fuel w).1 <> Ret a.
Proof.
  revert w. induction passes as [|passes IH]; intros w a; cbn [start_relay_loop].
  - done.
  - unfold bind at 1. by destruct (relay_pass cfg fuel w) as [[?|?| |] w1].
Qed.

(** C6, as the code has it.  As long as the binary is found at every
    look-up, nothing but Ctrl-C gets out of the relay loop: a resolver that
    raises, a variant without URL, a launch that fails, a retirement that
    times out all leave the loop running, and the script itself ends with
    no exception at all.  (A look-up that fails is not caught.) *)
Theorem relay_survives_failures (cfg : Config) (fuel : nat) (w : World) :
  relay_wf w -> lookups_ok w ->
  ((start_relay cfg fuel w).1 = OutOfFuel \/
   (start_relay cfg fuel w).1 = Raise KeyboardInterrupt) /\
  (forall e, (main cfg fuel w).1 <> Raise e).
Proof.
  intros Hwf Hok. split.
  - unfold start_relay.
    destruct (start_relay_loop_survives cfg fuel fuel w Hwf Hok) as (_ & _ & Ho).
    pose proof (start_relay_loop_goes_on cfg fuel fuel w) as Hgo.
    destruct (start_relay_loop cfg fuel fuel w).1 as [a|e| |]; simpl in *.
    + by destruct (Hgo a).
    + right. by rewrite Ho.
    + done.
    + by left.
  - intros e. unfold main. unfold bind at 1, modify. unfold bind at 1, try_except.
    assert (Hs : survives (logger LogSupport ;; start_relay cfg fuel)).
    { unfold start_relay. pose proof (start_relay_loop_survives cfg). survive. }
    destruct (Hs (with_relay Relay_init w)) as (_ & _ & Ho).
    { unfold relay_wf. simpl. by intros [? ?]. }
    { done. }
    destruct ((logger LogSupport ;; start_relay cfg fuel) (with_relay Relay_init w))
      as [[[]|e'| |] w1]; simpl in *; try done.
    + unfold shutdown. run_prims. by repeat case_match.
    + subst e'. simpl. unfold shutdown. run_prims. simpl. by repeat case_match.
Qed.

Lemma relay_survives_failures_witness :
  let w := world0 env_upgrade in
  (relay_wf w /\ lookups_ok w) /\
  ((start_relay cfg0 2 w).1 = OutOfFuel \/
   (start_relay cfg0 2 w).1 = Raise KeyboardInterrupt) /\
  (forall e, (main cfg0 2 w).1 <> Raise e).
Proof.
  assert (Hwf : relay_wf (world0 env_upgrade)) by (intros [? [=]]).
  assert (Hok : lookups_ok (world0 env_upgrade)).
  { intros f Hf. apply list_elem_of_singleton in Hf. subst f.
    exists "/usr/bin/ffmpeg". vm_compute. reflexivity. }
  split; [by split|].
  exact (relay_survives_failures cfg0 2 (world0 env_upgrade) Hwf Hok).
Defined.

(** The binary is removed after the first launch: the look-up of the
    relaunch for the upgrade raises, and the exception ends the script. *)
Lemma binary_removed_ends_script :
  let run := main cfg0 2 (world0 env_binary_removed) in
  run.1 = Raise RuntimeError /\
  count_events is_upgrade_log (trace run.2) = 1%nat /\
  count_events is_launch (trace run.2) = 1%nat /\
  elements (live run.2) = [0%nat].
Proof. split_and!; by vm_compute. Qed.

(** ** Shutdown *)

Lemma follows_signals_bind {A B} (m : M A) (k : A -> M B) :
  follows_signals m -> (forall a, follows_signals (k a)) ->
  follows_signals (bind m k).
Proof.
  intros Hm Hk w. unfold bind. destruct (Hm w) as (used1 & Hu1 & Ho1).
  destruct (m w) as [[a|e| |] w1]; simpl in *;
    try (exists used1; split; [exact Hu1|];
         split; [intros Heq; apply Ho1; congruence
                |intros Hin; apply Ho1 in Hin; congruence]).
  destruct (Hk a w1) as (used2 & Hu2 & Ho2).
  exists (used1 ++ used2)%list. unfold signals_used in *. split.
  - by rewrite Hu1, Hu2, app_assoc.
  - rewrite Ho2, elem_of_app. split; [by right|].
    intros [Hin|Hin]; [|done]. by apply Ho1 in Hin.
Qed.


(** A step that does not sleep and does not raise [KeyboardInterrupt]. *)
Lemma follows_signals_frame {A} (m : M A) :
  preserves (fun w => sigint_script (env w)) m ->
  (forall w, (m w).1 <> Raise KeyboardInterrupt) ->
  follows_signals m.
Proof.
  intros Hf Ho w. exists []. unfold signals_used. split; [by rewrite Hf|].
  split; [intros H; by apply Ho in H|intros H; by apply elem_of_nil in H].
Qed.

Lemma time_sleep_follows_signals (secs : Z) : follows_signals (time_sleep secs).
Proof.
  intros w. unfold time_sleep, signals_used.
  destruct (sigint_script (env w)) as [|[] r] eqn:Hs; simpl.
  - exists []. rewrite Hs. split; [done|]. split; [done|]. intros H. by apply elem_of_nil in H.
  - exists [true]. split; [done|]. split; [|done]. intros _. apply elem_of_cons; by left.
  - exists [false]. split; [done|]. split; [done|].
    intros Hin. apply elem_of_cons in Hin as [[=]|Hin]. by apply elem_of_nil in Hin.
Qed.

Lemma ret_follows_signals {A} (a : A) : follows_signals (ret a).
Proof. by apply follows_signals_frame. Qed.

Lemma get_follows_signals {A} (f : World -> A) : follows_signals (get f).
Proof. by apply follows_signals_frame. Qed.

Lemma logger_follows_signals (l : LogLine) : follows_signals (logger l).
Proof. by apply follows_signals_frame. Qed.

Lemma self_set_follows_signals (f : Relay -> Relay) : follows_signals (self_set f).
Proof. by apply follows_signals_frame. Qed.

Lemma lift_follows_signals {A} (o : outcome A) :
  o <> Raise KeyboardInterrupt -> follows_signals (lift o).
Proof. intros Ho. by apply follows_signals_frame. Qed.

Lemma get_available_streams_follows_signals : follows_signals get_available_streams.
Proof.
  apply follows_signals_frame.
  - unfold get_available_streams, get_available_streams_from. preserves_tac.
  - intros w. unfold get_available_streams, get_available_streams_from,
      try_except, bind, streamlink_streams.
    by repeat case_match.
Qed.

Lemma get_ffmpeg_path_follows_signals : follows_signals get_ffmpeg_path.
Proof.
  apply follows_signals_frame.
  - unfold get_ffmpeg_path. preserves_tac.
  - intros w. by destruct (get_ffmpeg_path_outcome w) as [[path ->]| ->].
Qed.

Lemma poll_exited_follows_signals (p : nat) : follows_signals (poll_exited p).
Proof.
  apply follows_signals_frame; [preserves_prim|].
  intros w. by destruct (poll_exited_returns p w) as [b ->].
Qed.

Lemma retire_on_handoff_follows_signals (old : nat) :
  follows_signals (retire_on_handoff old).
Proof.
  apply follows_signals_frame; [preserves_prim|].
  intros w. by destruct (retire_on_handoff_spec old w) as (-> & _).
Qed.

Lemma launch_follows_signals (cfg : Config) cmd quality :
  follows_signals (launch cfg cmd quality).
Proof.
  apply follows_signals_frame.
  - intros w. by destruct (launch_spec cfg cmd quality w) as (? & _ & _ & _ & _ & _ & _ & ? & _).
  - intros w. destruct (launch_spec cfg cmd quality w) as (? & _ & _ & _ & _ & _ & _ & _ & _ & Ho).
    destruct (launch cfg cmd quality w).1 as [p|e| |]; try done.
    destruct Ho as [He _]. intros [= ->]. done.
Qed.

Create HintDb follow.
#[local] Hint Resolve ret_follows_signals time_sleep_follows_signals
  logger_follows_signals get_follows_signals self_set_follows_signals
  get_available_streams_follows_signals get_ffmpeg_path_follows_signals
  poll_exited_follows_signals retire_on_handoff_follows_signals
  launch_follows_signals : follow.

Ltac follow_step :=
  first
    [ solve [eauto with follow]
    | apply follows_signals_bind; [|intros ?]
    | apply lift_follows_signals; done
    | progress cbv zeta
    | progress (repeat case_match) ].

Ltac follow := unfold self_get, time_time; repeat follow_step.











(** ** The status lines *)

Lemma get_available_streams_run (w : World) :
  exists w1,
    get_available_streams w = (Ret (polled w), w1) /\
    gates w1 = gates w /\
    relay w1 = relay w /\
    sigint_script (env w1) = sigint_script (env w).
Proof.
  unfold polled, get_available_streams, get_available_streams_from, try_except, bind, streamlink_streams, ret.
  destruct (resolve_script (env w)) as [|[d|] r]; simpl; by eexists.
Qed.

Lemma get_available_streams_trace (w : World) :
  exists found,
    trace (get_available_streams w).2 = EvResolve found :: trace w /\
    (live (get_available_streams w).2, relay (get_available_streams w).2,
     active_processes (get_available_streams w).2,
     next_pid (get_available_streams w).2, clock (get_available_streams w).2)
      = (live w, relay w, active_processes w, next_pid w, clock w).
Proof.
  unfold get_available_streams, get_available_streams_from, try_except, bind, streamlink_streams, ret.
  destruct (resolve_script (env w)) as [|[d|] r]; simpl; by eexists.
Qed.

Section GateFrames.
Variable cfg : Config.

Lemma get_ffmpeg_path_gates : preserves gates get_ffmpeg_path.
Proof. unfold get_ffmpeg_path. preserves_tac. Qed.
Hint Resolve get_ffmpeg_path_gates : frames.

Lemma attempts_gates cmd quality range :
  preserves gates (attempts cfg cmd quality range).
Proof.
  induction range as [|attempt rest IH]; cbn [attempts]; [apply preserves_ret|].
  unfold launch. preserves_tac.
Qed.
Hint Resolve attempts_gates : frames.

Lemma start_ffmpeg_gates stream quality retries :
  preserves gates (start_ffmpeg cfg stream quality retries).
Proof. unfold start_ffmpeg. preserves_tac. Qed.
Hint Resolve start_ffmpeg_gates : frames.

End GateFrames.


(** A poll of [wait_for_stream] that finds a stream logs the online line
    when the status is not online yet, leaves the status online, and
    returns. *)
Lemma wait_poll_online_step (w : World) :
  online_poll w ->
  let w' := (wait_poll w).2 in
  (exists qs, (wait_poll w).1 = Ret (Some qs)) /\
  gates w'
    = (Some "online", last_upgrade_logged (relay w),
       logged is_offline_log w,
       (logged is_online_log w
        + if differs (last_stream_status (relay w)) "online" then 1 else 0)%nat,
       logged is_upgrade_log w).
Proof.
  intros Hsome. cbv zeta.
  destruct (wait_poll w) as [o w'] eqn:Hrun. cbn [fst snd]. revert Hrun.
  unfold wait_poll. unfold bind at 1.
  destruct (get_available_streams_run w) as (w1 & -> & Hg & Hrel & Hs).
  unfold online_poll in Hsome.
  destruct (pick_best_stream_returns (polled w) Hsome) as [qs Hqs].
  destruct (polled w) as [|item rest]; [done|].
  injection Hg as Hst Hup Hoff Hon Hupg.
  unfold gates, logged in *. rewrite <- Hoff, <- Hon, <- Hupg, <- Hup, <- Hst.
  unfold bind at 1. unfold bind at 1, lift. rewrite Hqs. run_prims. simpl.
  destruct (differs (last_stream_status (relay w1)) "online") eqn:Hd; simpl;
    intros [= <- <-]; simpl; rewrite ?count_events_cons; simpl;
    (split; [by eexists|]); repeat f_equal; try lia.
  destruct (last_stream_status (relay w1)) as [y|]; [|done].
  simpl in Hd. apply negb_false_iff, String.eqb_eq in Hd. by subst.
Qed.












(** * Further properties *)

(** ** The binary look-up *)

(** X1. [get_ffmpeg_path] returns the path the library reports when that file
    exists and is executable.  On Windows it returns that path with [.exe]
    appended when the reported file exists, is not executable and has no
    such suffix, and the [.exe] file exists; that file is not checked for
    being executable.  It raises [RuntimeError] in every other case, and in
    no other: when it raises and the reported file exists, that file is not
    executable and the Windows fallback does not apply.  What it returns is
    always an existing file. *)
Theorem get_ffmpeg_path_sound (w : World) :
  let f := default (fs (env w)) (head (lookup_script (env w))) in
  match (get_ffmpeg_path w).1 with
  | Ret path =>
      path ∈ files f /\
      exists exe, ffmpeg_exe f = Some exe /\ exe ∈ files f /\
        ((path = exe /\ exe ∈ executables f) \/
         (path = (exe +:+ ".exe") /\ (exe ∉ executables f) /\
          os_name f = "nt" /\ endswith exe ".exe" = false))
  | Raise e =>
      e = RuntimeError /\
      forall exe, ffmpeg_exe f = Some exe -> exe ∈ files f ->
        (exe ∉ executables f) /\
        ~ (os_name f = "nt" /\ endswith exe ".exe" = false /\
           (exe +:+ ".exe") ∈ files f)
  | _ => False
  end.
Proof.
  cbv zeta. unfold get_ffmpeg_path, bind, look_up, lift.
  set (f := default (fs (env w)) (head (lookup_script (env w)))).
  assert (E : (match lookup_script (env w) with
               | [] => (Ret (fs (env w)), w)
               | f :: r => (Ret f, with_env (with_lookup_script r (env w)) w)
               end).1 = Ret f).
  { subst f. by destruct (lookup_script (env w)). }
  destruct (match lookup_script (env w) with
            | [] => (Ret (fs (env w)), w)
            | f :: r => (Ret f, with_env (with_lookup_script r (env w)) w)
            end) as [o w1]; simpl in E; subst o. simpl.
  unfold ffmpeg_path_in, isfile, access_X_OK.
  destruct (ffmpeg_exe f) as [exe|] eqn:Hexe; simpl.
  2:{ split; [done|]. by intros ? [=]. }
  destruct (decide (exe ∈ files f)) as [Hf|Hf].
  2:{ rewrite bool_decide_eq_false_2 by done. simpl. split; [done|].
      by intros ? [= <-] ?. }
  rewrite bool_decide_eq_true_2 by done. simpl.
  destruct (decide (exe ∈ executables f)) as [Hx|Hx].
  { rewrite bool_decide_eq_true_2 by done. simpl. split; [done|].
    exists exe. split_and!; try done. by left. }
  rewrite bool_decide_eq_false_2 by done. simpl.
  destruct (String.eqb_spec (os_name f) "nt") as [Hnt|Hnt]; simpl.
  2:{ split; [done|]. intros ? [= <-] _. split; [done|]. by intros (? & _). }
  destruct (endswith exe ".exe") eqn:Hend; simpl.
  { split; [done|]. intros ? [= <-] _. split; [done|]. intros (_ & ? & _). congruence. }
  destruct (decide (exe +:+ ".exe" ∈ files f)) as [Hf2|Hf2].
  - rewrite bool_decide_eq_true_2 by done. split; [done|].
    exists exe. split_and!; try done. right. by split_and!.
  - rewrite bool_decide_eq_false_2 by done. split; [done|].
    intros ? [= <-] _. split; [done|]. by intros (_ & _ & ?).
Qed.

(** ** The resolver and the selector *)

Lemma filter_sublist_of {A} (f : A -> bool) (l : list A) :
  List.filter f l `sublist_of` l.
Proof.
  induction l as [|x l IH]; simpl; [constructor|].
  destruct (f x); by constructor.
Qed.

Lemma elem_of_List_filter {A} (f : A -> bool) (l : list A) (x : A) :
  x ∈ List.filter f l <-> f x = true /\ x ∈ l.
Proof.
  rewrite !list_elem_of_In, List.filter_In. tauto.
Qed.

(** X2. [get_available_streams] never raises.  It returns the variants the
    resolver offers, in the resolver's order, without those whose label
    holds [audio] in any letter case, and nothing when the resolver
    raises. *)
Theorem get_available_streams_filters (w : World) :
  exists d,
    (get_available_streams w).1 = Ret d /\
    (forall n v, (n, v) ∈ d -> contains "audio" (lower n) = false) /\
    match resolve_script (env w) with
    | Some items :: _ =>
        d `sublist_of` items /\
        (NoDup (keys items) -> NoDup (keys d)) /\
        (forall n v, (n, v) ∈ items -> contains "audio" (lower n) = false ->
                     (n, v) ∈ d)
    | _ => d = []
    end.
Proof.
  unfold get_available_streams, get_available_streams_from, try_except, bind, streamlink_streams, ret.
  destruct (resolve_script (env w)) as [|[items|] r]; simpl.
  - exists []. split_and!; try done. intros n v Hin. by apply elem_of_nil in Hin.
  - eexists. split; [reflexivity|]. split_and!.
    + intros n v [Hf _]%elem_of_List_filter. by apply negb_true_iff in Hf.
    + apply filter_sublist_of.
    + intros Hnd. eapply sublist_NoDup; [exact Hnd|].
      unfold keys. apply fmap_sublist, filter_sublist_of.
    + intros n v Hin Hno. apply elem_of_List_filter. split; [|done].
      simpl. by rewrite Hno.
  - exists []. split_and!; try done. intros n v Hin. by apply elem_of_nil in Hin.
Qed.

Lemma dict_get_elem_of {V} (d : dict V) (q : string) (v : V) :
  dict_get q d = Some v -> (q, v) ∈ d.
Proof.
  induction d as [|[k x] d IH]; simpl; [done|].
  destruct (String.eqb_spec q k) as [->|Hne].
  - intros [= ->]. apply elem_of_cons. by left.
  - intros H. apply elem_of_cons. right. by apply IH.
Qed.

Lemma pick_best_stream_get {V} (streams : dict V) (q : string) (v : V) :
  pick_best_stream streams = Ret (q, v) -> dict_get q streams = Some v.
Proof.
  unfold pick_best_stream. destruct (dict_mem "best" streams).
  { destruct (dict_get "best" streams) eqn:Hb; [|done]. by intros [= <- <-]. }
  destruct (sorted_reverse _) as [|best_q rest].
  - destruct streams as [|[k x] d]; [done|]. intros [= <- <-]. simpl.
    by rewrite String.eqb_refl.
  - destruct (dict_get best_q streams) eqn:Hb; [|done]. by intros [= <- <-].
Qed.

(** X3. What [pick_best_stream] returns is an entry of the mapping, the label
    with the value stored under it; it raises on the empty mapping only,
    and then [StopIteration]. *)
Theorem pick_best_stream_entry (V : Type) (streams : dict V) :
  match pick_best_stream streams with
  | Ret (q, v) => dict_get q streams = Some v /\ (q, v) ∈ streams
  | Raise e => e = StopIteration /\ streams = []
  | _ => False
  end.
Proof.
  destruct streams as [|[k x] d] eqn:Hs; [done|]. rewrite <- Hs.
  destruct (pick_best_stream_returns streams) as [[q v] Hret]; [by rewrite Hs|].
  rewrite Hret. apply pick_best_stream_get in Hret.
  split; [done|]. by apply dict_get_elem_of.
Qed.

(** ** The ffmpeg command *)

(** X4. The command of a launch: the binary, the input options and the source
    URL; the video codec option, only when a hardware encoder was detected
    (without one the command names no video codec, while the start line
    reports the encoder as [copy]); the audio options; the output format
    and the destination.  On a machine with at most 2 cores or little
    memory the thread and buffer options follow, after the destination. *)
Theorem build_cmd_shape (cfg : Config) (ffmpeg_path url : string) :
  build_cmd cfg ffmpeg_path url
    = ([ffmpeg_path; "-nostats"; "-loglevel"; "warning"; "-re"; "-i"; url]
       ++ match gpu_encoder cfg with
          | Some enc => if String.eqb enc "" then [] else ["-c:v"; enc]
          | None => []
          end
       ++ ["-c:a"; "aac"; "-ar"; "44100"; "-b:a"; "128k"; "-ac"; "2";
           "-f"; "flv"; YOUTUBE_RTMP cfg]
       ++ if (cpu_cores cfg <=? 2)%nat || low_ram cfg
          then ["-threads"; pretty (Nat.max 1 (cpu_cores cfg)); "-bufsize"; "2M";
                "-fflags"; "+genpts"]
          else [])%list /\
  encoder_used cfg
    = match gpu_encoder cfg with
      | Some enc => if String.eqb enc "" then "copy" else enc
      | None => "copy"
      end.
Proof.
  unfold build_cmd, encoder_used, low_cpu. split; [|done].
  destruct (gpu_encoder cfg) as [enc|]; [destruct (String.eqb enc "")|];
    by destruct ((cpu_cores cfg <=? 2)%nat || low_ram cfg).
Qed.

(** X5. The core count of the probe is 1 when the system does not tell it, and
    never 0, so the thread option of a launch carries the count itself: the
    [max(1, ..)] around it changes nothing. *)
Theorem threads_option_is_core_count (os_cpu_count : option nat) (cfg : Config) :
  cpu_cores cfg = probe_cpu_cores os_cpu_count ->
  (1 <= cpu_cores cfg)%nat /\
  (os_cpu_count = None -> cpu_cores cfg = 1%nat) /\
  (forall ffmpeg_path url,
     low_cpu cfg || low_ram cfg = true ->
     drop (length (build_cmd cfg ffmpeg_path url) - 6) (build_cmd cfg ffmpeg_path url)
       = ["-threads"; pretty (cpu_cores cfg); "-bufsize"; "2M"; "-fflags"; "+genpts"]).
Proof.
  intros Hc. assert (H1 : (1 <= cpu_cores cfg)%nat).
  { rewrite Hc. destruct os_cpu_count as [[|n]|]; simpl; lia. }
  split_and!; [done|by intros ->|].
  intros ffmpeg_path url Hlow. unfold build_cmd. rewrite Hlow.
  rewrite Nat.max_r by done.
  destruct (gpu_encoder cfg) as [enc|]; [destruct (String.eqb enc "")|]; done.
Qed.

Lemma threads_option_is_core_count_witness :
  let cfg := mkConfig "channel" "rtmps://a.rtmps.youtube.com/live2/key" 1 false None in
  cpu_cores cfg = probe_cpu_cores (Some 0%nat) /\
  (1 <= cpu_cores cfg)%nat /\
  (forall ffmpeg_path url,
     low_cpu cfg || low_ram cfg = true ->
     drop (length (build_cmd cfg ffmpeg_path url) - 6) (build_cmd cfg ffmpeg_path url)
       = ["-threads"; pretty (cpu_cores cfg); "-bufsize"; "2M"; "-fflags"; "+genpts"]).
Proof.
  split; [reflexivity|].
  pose proof (threads_option_is_core_count (Some 0%nat)
                (mkConfig "channel" "rtmps://a.rtmps.youtube.com/live2/key" 1 false None)
                eq_refl) as (H1 & _ & H3).
  by split.
Defined.

(** ** Waiting for the stream *)

Lemma dict_get_filter {V} (g : string -> bool) (d : dict V) (q : string) :
  dict_get q (List.filter (fun ns => g ns.1) d)
    = if g q then dict_get q d else None.
Proof.
  induction d as [|[k x] d IH]; simpl; [by destruct (g q)|].
  destruct (g k) eqn:Hk; simpl; destruct (String.eqb_spec q k) as [->|Hne];
    rewrite ?Hk; try done.
  rewrite IH. by rewrite Hk.
Qed.

Lemma wait_poll_beside_status : preserves beside_status wait_poll.
Proof. unfold wait_poll, get_available_streams, get_available_streams_from, self_get. preserves_tac. Qed.

(** One pass of the availability wait: it consumes one answer of the
    resolver; it returns a variant the resolver offered, under its label,
    which does not hold [audio], and leaves the status online; or it finds
    nothing, leaves the status offline and sleeps 15 s. *)
Lemma wait_poll_spec (w : World) (o : outcome (option (string * Variant)))
    (w' : World) :
  wait_poll w = (o, w') ->
  resolve_script (env w') = tail (resolve_script (env w)) /\
  match o with
  | Ret (Some (q, s)) =>
      last_stream_status (relay w') = Some "online" /\
      contains "audio" (lower q) = false /\
      clock w' = clock w /\
      exists items,
        head (resolve_script (env w)) = Some (Some items) /\
        dict_get q items = Some s
  | Ret None =>
      polled w = [] /\
      last_stream_status (relay w') = Some "offline" /\
      clock w' = clock w + 15
  | Raise e => e = KeyboardInterrupt /\ polled w = []
  | _ => False
  end.
Proof.
  set (g := fun n : string => negb (contains "audio" (lower n))).
  assert (Hp : polled w = match resolve_script (env w) with
                          | Some items :: _ =>
                              List.filter (fun ns : string * Variant => g ns.1) items
                          | _ => []
                          end).
  { unfold polled, get_available_streams, get_available_streams_from, try_except, bind, streamlink_streams, ret.
    by destruct (resolve_script (env w)) as [|[|] ?]. }
  rewrite Hp. clear Hp.
  unfold wait_poll, get_available_streams, get_available_streams_from, try_except.
  unfold bind at 1. unfold bind at 1. unfold streamlink_streams.
  assert (Hoff : forall w1 o w',
    clock w1 = clock w ->
    (status <- self_get last_stream_status ;;
     (if differs status "offline" then
        logger LogWaiting ;; self_set (set_last_stream_status (Some "offline"))
      else ret tt) ;;
     time_sleep 15 ;; ret None) w1 = (o, w') ->
    resolve_script (env w') = resolve_script (env w1) /\
    match o : outcome (option (string * Variant)) with
    | Ret None => last_stream_status (relay w') = Some "offline" /\
                  clock w' = clock w + 15
    | Raise e => e = KeyboardInterrupt
    | _ => False
    end).
  { intros w1 o1 w1' Hc. run_prims. simpl.
    destruct (differs (last_stream_status (relay w1)) "offline") eqn:Hd; simpl;
      destruct (sigint_script (env w1)) as [|[] r]; simpl;
      intros [= <- <-]; simpl; rewrite ?Hc; split_and!; try done.
    all: destruct (last_stream_status (relay w1)) as [y|]; [|done];
      simpl in Hd; apply negb_false_iff, String.eqb_eq in Hd; by subst. }
  destruct (resolve_script (env w)) as [|[items|] r] eqn:Hres; simpl.
  - intros Hrun. apply Hoff in Hrun as [Hr Ho]; [|done]. simpl in Hr.
    split; [by rewrite Hr, Hres|].
    destruct o as [[?|]|?| |]; try done.
  - unfold ret at 1.
    change (List.filter _ items) with (List.filter (fun ns : string * Variant => g ns.1) items).
    destruct (List.filter (fun ns : string * Variant => g ns.1) items)
      as [|item rest] eqn:Hflt.
    + unfold ret at 1. intros Hrun. apply Hoff in Hrun as [Hr Ho]; [|done].
      simpl in Hr. split; [done|].
      destruct o as [[?|]|?| |]; try done.
    + rewrite <- Hflt.
      destruct (pick_best_stream_returns
                  (List.filter (fun ns : string * Variant => g ns.1) items))
        as [[q s] Hpick]; [by rewrite Hflt|].
      unfold bind at 1. unfold bind at 1, lift. rewrite Hpick.
      apply pick_best_stream_get in Hpick. rewrite dict_get_filter in Hpick.
      destruct (g q) eqn:Hg; [|done]. apply negb_true_iff in Hg.
      run_prims. simpl.
      destruct (differs (last_stream_status (relay w)) "online") eqn:Hd; simpl;
        intros [= <- <-]; simpl; split_and!; try done; eauto.
      destruct (last_stream_status (relay w)) as [y|]; [|done].
      simpl in Hd. apply negb_false_iff, String.eqb_eq in Hd. by subst.
  - unfold ret at 1. intros Hrun. apply Hoff in Hrun as [Hr Ho]; [|done].
    simpl in Hr. split; [done|].
    destruct o as [[?|]|?| |]; try done.
Qed.

(** X6. When [wait_for_stream] returns, the status is online, and what it
    returns is a variant one of the resolver's answers offered, under the
    label it has there; that label does not hold [audio] in any letter
    case. *)
Theorem wait_for_stream_result (fuel : nat) (w w' : World) (q : string)
    (s : Variant) :
  wait_for_stream fuel w = (Ret (q, s), w') ->
  last_stream_status (relay w') = Some "online" /\
  contains "audio" (lower q) = false /\
  exists items,
    Some items ∈ resolve_script (env w) /\ dict_get q items = Some s.
Proof.
  revert w. induction fuel as [|fuel IH]; intros w; cbn [wait_for_stream]; [done|].
  unfold bind at 1. destruct (wait_poll w) as [o1 w1] eqn:Hpoll.
  apply wait_poll_spec in Hpoll as [Hres Ho].
  destruct o1 as [[[q1 s1]|]|e| |]; try done.
  - intros [= <- <- <-]. destruct Ho as (? & ? & _ & items & Hhd & ?).
    split_and!; try done. exists items. split; [|done].
    destruct (resolve_script (env w)) as [|x r]; [done|].
    injection Hhd as ->. apply elem_of_cons. by left.
  - intros (? & ? & items & Hin & ?)%IH. split_and!; try done.
    exists items. split; [|done]. rewrite Hres in Hin.
    destruct (resolve_script (env w)) as [|x r]; [done|].
    apply elem_of_cons. by right.
Qed.

Lemma wait_for_stream_result_witness :
  let run := wait_for_stream 1 (world0 env_upgrade) in
  run.1 = Ret ("720p", v720) /\
  last_stream_status (relay run.2) = Some "online" /\
  contains "audio" (lower "720p") = false /\
  exists items,
    Some items ∈ resolve_script (env (world0 env_upgrade)) /\
    dict_get "720p" items = Some v720.
Proof.
  split; [vm_compute; reflexivity|].
  apply (wait_for_stream_result 1 (world0 env_upgrade)).
  vm_compute. reflexivity.
Defined.

(** X7. [wait_for_stream] polls, logs, sleeps and sets the recorded status.  It
    starts and stops nothing and leaves every other field of the relay, the
    recorded handle and the running subprocesses as they are, however it
    ends. *)
Theorem wait_for_stream_beside_status (fuel : nat) :
  preserves beside_status (wait_for_stream fuel).
Proof.
  induction fuel as [|fuel IH]; cbn [wait_for_stream]; [apply preserves_lift|].
  pose proof wait_poll_beside_status. preserves_tac.
Qed.

Lemma wait_poll_offline_sleeps (w : World) :
  offline_poll w ->
  (wait_poll w).1 = Ret None /\
  polls_and_sleeps (wait_poll w).2
    = (S (logged is_resolve w), S (logged is_poll_sleep w)).
Proof.
  intros [Hnone Hsig].
  destruct (wait_poll w) as [o w'] eqn:Hrun. cbn [fst snd]. revert Hrun.
  unfold wait_poll. unfold bind at 1.
  destruct (get_available_streams_run w) as (w1 & Hget & _ & _ & Hs).
  destruct (get_available_streams_trace w) as (found & Htr & _).
  rewrite Hget in *. cbn [fst snd] in *. clear Hget.
  rewrite Hnone. unfold polls_and_sleeps, logged.
  rewrite <- Hs in Hsig. revert Hsig. run_prims. simpl.
  destruct (differs (last_stream_status (relay w1)) "offline") eqn:Hd; simpl;
    destruct (sigint_script (env w1)) as [|[] r]; simpl; intros Hsig; try done;
    intros [= <- <-]; simpl; rewrite ?count_events_cons, Htr, ?count_events_cons;
    simpl; done.
Qed.

Lemma wait_poll_online_sleeps (w : World) :
  online_poll w ->
  polls_and_sleeps (wait_poll w).2
    = (S (logged is_resolve w), logged is_poll_sleep w).
Proof.
  intros Hsome.
  destruct (wait_poll w) as [o w'] eqn:Hrun. cbn [fst snd]. revert Hrun.
  unfold wait_poll. unfold bind at 1.
  destruct (get_available_streams_run w) as (w1 & Hget & _ & _ & Hs).
  destruct (get_available_streams_trace w) as (found & Htr & _).
  rewrite Hget in *. cbn [fst snd] in *. clear Hget.
  unfold online_poll in Hsome.
  destruct (pick_best_stream_returns (polled w) Hsome) as [qs Hqs].
  destruct (polled w) as [|item rest]; [done|].
  unfold polls_and_sleeps, logged.
  unfold bind at 1. unfold bind at 1, lift. rewrite Hqs. run_prims. simpl.
  destruct (differs (last_stream_status (relay w1)) "online") eqn:Hd; simpl;
    intros [= <- <-]; simpl; rewrite ?count_events_cons, Htr, ?count_events_cons;
    simpl; done.
Qed.

Lemma wait_for_stream_after_offline (k fuel : nat) (w : World) :
  each_poll wait_poll offline_poll k w ->
  wait_for_stream (k + fuel) w = wait_for_stream fuel (polls wait_poll k w) /\
  polls_and_sleeps (polls wait_poll k w)
    = ((logged is_resolve w + k)%nat, (logged is_poll_sleep w + k)%nat).
Proof.
  revert w. induction k as [|k IH]; intros w Hk.
  - simpl. split; [done|]. unfold polls_and_sleeps. f_equal; lia.
  - destruct Hk as (Hoff & _ & Hrest).
    destruct (wait_poll_offline_sleeps w Hoff) as [Hret Hcount].
    destruct (IH _ Hrest) as [Hrun Hc]. cbn [polls]. split.
    + change (S k + fuel)%nat with (S (k + fuel)). cbn [wait_for_stream].
      unfold bind at 1. destruct (wait_poll w) as [o w1]; simpl in *. by subst o.
    + rewrite Hc. injection Hcount as -> ->. f_equal; lia.
Qed.

(** X8. After [k] polls that find nothing, each followed by its sleep of 15 s,
    and one poll that finds a stream, [wait_for_stream] returns what that
    poll picked, having polled the resolver [k + 1] times and slept [k]
    times 15 s; [k + 1] rounds of its loop are enough. *)
Theorem wait_for_stream_finds (k fuel : nat) (w : World) :
  each_poll wait_poll offline_poll k w ->
  online_poll (polls wait_poll k w) ->
  (k < fuel)%nat ->
  exists qs,
    wait_for_stream fuel w = (Ret qs, (wait_poll (polls wait_poll k w)).2) /\
    (wait_poll (polls wait_poll k w)).1 = Ret (Some qs) /\
    logged is_resolve (wait_for_stream fuel w).2 = (logged is_resolve w + S k)%nat /\
    logged is_poll_sleep (wait_for_stream fuel w).2 = (logged is_poll_sleep w + k)%nat.
Proof.
  intros Hk Hon Hfuel.
  destruct (wait_for_stream_after_offline k (fuel - k) w Hk) as [Hrun Hcount].
  replace (k + (fuel - k))%nat with fuel in Hrun by lia.
  destruct (wait_poll_online_step _ Hon) as [[qs Hqs] _].
  pose proof (wait_poll_online_sleeps _ Hon) as Hlast.
  exists qs. rewrite Hrun.
  destruct (fuel - k)%nat as [|n] eqn:Hn; [lia|]. cbn [wait_for_stream].
  unfold bind at 1 2 3.
  destruct (wait_poll (polls wait_poll k w)) as [o w1] eqn:Hpoll.
  simpl in Hqs. subst o. simpl in *.
  injection Hcount as Hc1 Hc2. injection Hlast as -> ->.
  split_and!; try done; lia.
Qed.

Lemma wait_for_stream_finds_witness :
  let w := world0 (with_resolve_script [Some []; None; Some [("720p", v720)]] env_quiet) in
  (each_poll wait_poll offline_poll 2 w /\ online_poll (polls wait_poll 2 w)) /\
  exists qs,
    wait_for_stream 3 w = (Ret qs, (wait_poll (polls wait_poll 2 w)).2) /\
    (wait_poll (polls wait_poll 2 w)).1 = Ret (Some qs) /\
    logged is_resolve (wait_for_stream 3 w).2 = (logged is_resolve w + 3)%nat /\
    logged is_poll_sleep (wait_for_stream 3 w).2 = (logged is_poll_sleep w + 2)%nat.
Proof.
  set (w := world0 (with_resolve_script [Some []; None; Some [("720p", v720)]] env_quiet)).
  assert (H1 : each_poll wait_poll offline_poll 2 w).
  { repeat split; try (by vm_compute); by eexists. }
  assert (H2 : online_poll (polls wait_poll 2 w)) by (by vm_compute).
  split; [by split|].
  apply (wait_for_stream_finds 2 3 w H1 H2). lia.
Defined.

(** ** Launching, for any number of attempts *)

(** X9. [start_ffmpeg] for any [retries], once the URL and the binary are
    resolved.  It makes [retries] attempts at most, numbered from 1.  It
    returns the handle that the last [Popen] returned, running and
    recorded, after [k < retries] failed attempts; or [None] after
    [retries] failed attempts, so at once when [retries] is 0, the recorded
    handle unchanged; or Ctrl-C ends it during a back-off sleep.  A failed
    attempt is one whose [Popen] raised, or one whose [Popen] returned a
    handle and whose wait for the subprocess recorded before timed out;
    the subprocess such an attempt started is left running, unrecorded. *)
Theorem start_ffmpeg_attempts (cfg : Config) (stream : Variant) (quality : string)
    (retries : nat) (w w' : World) (o : outcome (option nat)) :
  is_Some (to_url stream) ->
  (exists path, (get_ffmpeg_path w).1 = Ret path) ->
  start_ffmpeg cfg stream quality retries w = (o, w') ->
  exists (new : list Event) (k : nat),
    grows w w' new /\
    count_events is_backoff new = k /\
    match o with
    | Ret (Some p) =>
        (k < retries)%nat /\
        reported_failures new = rev (seq 1 k) /\
        (exists hs,
           launched new = Some p :: hs /\ length hs = k /\
           Forall2 failed_attempt hs (reported_errors new) /\
           Forall (fun h => forall q, h = Some q -> q ∈ live w' /\ q <> p) hs) /\
        p ∈ live w' /\ recorded cfg w' = Some p
    | Ret None =>
        k = retries /\
        reported_failures new = rev (seq 1 retries) /\
        length (launched new) = retries /\
        Forall2 failed_attempt (launched new) (reported_errors new) /\
        Forall (fun h => forall q, h = Some q ->
                  q ∈ live w' /\ recorded cfg w' <> Some q) (launched new) /\
        recorded cfg w' = recorded cfg w
    | Raise e =>
        e = KeyboardInterrupt /\
        (k < retries)%nat /\
        reported_failures new = rev (seq 1 (S k)) /\
        length (launched new) = S k /\
        Forall2 failed_attempt (launched new) (reported_errors new) /\
        sigint_script (env w) !! k = Some true /\
        recorded cfg w' = recorded cfg w
    | _ => False
    end.
Proof. apply start_ffmpeg_outcomes. Qed.

Lemma start_ffmpeg_attempts_witness :
  let w := with_env (with_popen_script [false] (env world_stubborn)) world_stubborn in
  let run := start_ffmpeg cfg0 vbest "best" 2 w in
  run.1 = Ret None /\
  launched (trace run.2) = [Some 1%nat; None] /\
  exists (new : list Event) (k : nat),
    grows w run.2 new /\
    count_events is_backoff new = k /\
    match run.1 with
    | Ret (Some p) =>
        (k < 2)%nat /\
        reported_failures new = rev (seq 1 k) /\
        (exists hs,
           launched new = Some p :: hs /\ length hs = k /\
           Forall2 failed_attempt hs (reported_errors new) /\
           Forall (fun h => forall q, h = Some q -> q ∈ live run.2 /\ q <> p) hs) /\
        p ∈ live run.2 /\ recorded cfg0 run.2 = Some p
    | Ret None =>
        k = 2%nat /\
        reported_failures new = rev (seq 1 2) /\
        length (launched new) = 2%nat /\
        Forall2 failed_attempt (launched new) (reported_errors new) /\
        Forall (fun h => forall q, h = Some q ->
                  q ∈ live run.2 /\ recorded cfg0 run.2 <> Some q) (launched new) /\
        recorded cfg0 run.2 = recorded cfg0 w
    | Raise e =>
        e = KeyboardInterrupt /\
        (k < 2)%nat /\
        reported_failures new = rev (seq 1 (S k)) /\
        length (launched new) = S k /\
        Forall2 failed_attempt (launched new) (reported_errors new) /\
        sigint_script (env w) !! k = Some true /\
        recorded cfg0 run.2 = recorded cfg0 w
    | _ => False
    end.
Proof.
  split; [vm_compute; reflexivity|]. split; [vm_compute; reflexivity|].
  apply (start_ffmpeg_attempts cfg0 vbest "best" 2).
  - by eexists.
  - eexists. vm_compute. reflexivity.
  - apply surjective_pairing.
Defined.

(** X10. A launch attempt made while the recorded subprocess is not running any
    more: asking it to exit and waiting for it return at once, so the
    attempt fails only when [Popen] does; no answer of a wait is used
    up. *)
Theorem launch_after_exit (cfg : Config) (cmd : list string) (quality : string)
    (old : nat) (w : World) :
  recorded cfg w = Some old -> old ∉ live w -> (old < next_pid w)%nat ->
  let o := (launch cfg cmd quality w).1 in
  let w' := (launch cfg cmd quality w).2 in
  wait_script (env w') = wait_script (env w) /\
  clock w' = clock w /\
  match o with
  | Ret p =>
      head (popen_script (env w)) <> Some false /\
      recorded cfg w' = Some p /\ live w' = {[p]} ∪ live w /\
      events_since w w'
        = [EvPopen cmd (Some p); EvTerminate old; EvWait old (Some 10) true;
           EvLog (LogStarted p quality (encoder_used cfg) (low_cpu cfg || low_ram cfg))]
  | Raise e =>
      e = OSError /\ head (popen_script (env w)) = Some false /\
      recorded cfg w' = Some old /\ live w' = live w /\
      events_since w w' = [EvPopen cmd None]
  | _ => False
  end.
Proof.
  unfold recorded. intros Hold Hdead Hlt. run_prims.
  assert (Hlen : forall n : nat, (S n - n = 1)%nat /\ (S (S (S (S n))) - n = 4)%nat)
    by (intros; lia).
  destruct (popen_script (env w)) as [|[] r] eqn:Hp; simpl; rewrite ?Hold; simpl;
    try (destruct (Nat.eqb_spec old (next_pid w)) as [Heq|Hne]; [lia|]; simpl);
    try (rewrite decide_False by set_solver); simpl;
    unfold events_since; simpl;
    rewrite ?(proj1 (Hlen _)), ?(proj2 (Hlen _)); simpl;
    rewrite ?lookup_insert_eq;
    split_and!; try done; try set_solver.
Qed.

Lemma launch_after_exit_witness :
  let w := with_live (fun _ => ∅) world_first_session in
  let o := (launch cfg0 ["ffmpeg"] "720p" w).1 in
  let w' := (launch cfg0 ["ffmpeg"] "720p" w).2 in
  (recorded cfg0 w = Some 0%nat /\ 0%nat ∉ live w) /\
  wait_script (env w') = wait_script (env w) /\
  clock w' = clock w /\
  match o with
  | Ret p =>
      head (popen_script (env w)) <> Some false /\
      recorded cfg0 w' = Some p /\ live w' = {[p]} ∪ live w /\
      events_since w w'
        = [EvPopen ["ffmpeg"] (Some p); EvTerminate 0%nat;
           EvWait 0%nat (Some 10) true;
           EvLog (LogStarted p "720p" (encoder_used cfg0) (low_cpu cfg0 || low_ram cfg0))]
  | Raise e =>
      e = OSError /\ head (popen_script (env w)) = Some false /\
      recorded cfg0 w' = Some 0%nat /\ live w' = live w /\
      events_since w w' = [EvPopen ["ffmpeg"] None]
  | _ => False
  end.
Proof.
  assert (H1 : recorded cfg0 (with_live (fun _ => ∅) world_first_session) = Some 0%nat)
    by (vm_compute; reflexivity).
  assert (H2 : 0%nat ∉ live (with_live (fun _ => ∅) world_first_session))
    by (simpl; set_solver).
  split; [by split|].
  apply (launch_after_exit cfg0 ["ffmpeg"] "720p" 0 _ H1 H2).
  vm_compute. lia.
Defined.

(** ** The two records of the subprocess, and the kill *)

Lemma carries_on_ret {A} (cfg : Config) (a : A) : carries_on cfg (ret a).
Proof. by intros n w ?. Qed.

Lemma carries_on_bind {A B} (cfg : Config) (m : M A) (k : A -> M B) :
  carries_on cfg m -> (forall a, carries_on cfg (k a)) -> carries_on cfg (bind m k).
Proof.
  intros Hm Hk n w Hw. unfold bind.
  destruct (Hm n w Hw) as (Hw1 & Ho).
  destruct (m w) as [[a|e| |] w1]; simpl in *; try done.
  by apply Hk.
Qed.

Lemma orderly_frame (cfg : Config) (n : nat) (w w' : World) :
  order_frame w' = order_frame w -> orderly cfg n w -> orderly cfg n w'.
Proof.
  intros [= Hc Hs Ha Hk]. unfold orderly, relay_wf, agree, recorded.
  by rewrite Hc, Hs, Ha, Hk.
Qed.

Lemma carries_on_frame {A} (cfg : Config) (m : M A) :
  preserves order_frame m ->
  (forall w, interrupt_or_lookup (m w).1) ->
  carries_on cfg m.
Proof.
  intros Hf Ho n w Hw. split; [|done]. by apply (orderly_frame cfg n w).
Qed.

Lemma time_sleep_carries_on (cfg : Config) (secs : Z) :
  carries_on cfg (time_sleep secs).
Proof.
  apply carries_on_frame; [preserves_prim|].
  intros w. unfold time_sleep. repeat case_match; simpl; auto.
Qed.

Lemma logger_carries_on (cfg : Config) (l : LogLine) : carries_on cfg (logger l).
Proof. apply carries_on_frame; [preserves_prim|done]. Qed.

Lemma get_carries_on {A} (cfg : Config) (f : World -> A) : carries_on cfg (get f).
Proof. by intros n w ?. Qed.

Lemma lift_carries_on {A} (cfg : Config) (o : outcome A) :
  interrupt_or_lookup o -> carries_on cfg (lift o).
Proof. by intros Ho n w ?. Qed.

Lemma self_set_carries_on (cfg : Config) (f : Relay -> Relay) :
  (forall r, current_ffmpeg (f r) = current_ffmpeg r /\
             start_time (f r) = start_time r) ->
  carries_on cfg (self_set f).
Proof.
  intros Hf. apply carries_on_frame; [|done].
  intros w. unfold self_set, modify, order_frame. simpl.
  by destruct (Hf (relay w)) as [-> ->].
Qed.

Lemma get_available_streams_order : preserves order_frame get_available_streams.
Proof. unfold get_available_streams, get_available_streams_from. preserves_tac. Qed.

Lemma get_available_streams_carries_on (cfg : Config) :
  carries_on cfg get_available_streams.
Proof.
  apply carries_on_frame; [apply get_available_streams_order|].
  intros w. unfold get_available_streams, get_available_streams_from, try_except, bind, streamlink_streams.
  by repeat case_match.
Qed.

(** Asked to exit when it has exited already, a subprocess is waited for
    and not killed. *)
Lemma retire_on_handoff_exited (old : nat) (w : World) :
  old ∉ live w ->
  retire_on_handoff old w
    = (Ret tt, emit (EvWait old (Some 10) true) (emit (EvTerminate old) w)).
Proof.
  intros Hdead. run_prims. simpl. by rewrite decide_False.
Qed.

Lemma start_new_ffmpeg_order (cfg : Config) (stream : Variant) (quality : string)
    (w : World) :
  agree cfg w ->
  let o := (start_new_ffmpeg cfg stream quality w).1 in
  let w' := (start_new_ffmpeg cfg stream quality w).2 in
  agree cfg w' /\
  logged is_kill w' = logged is_kill w /\
  (relay_wf w -> relay_wf w') /\
  interrupt_or_lookup o.
Proof.
  intros Hag. cbv zeta.
  destruct (start_new_ffmpeg cfg stream quality w) as [o w'] eqn:Hrun.
  cbn [fst snd].
  destruct (start_new_ffmpeg_cases _ _ _ _ _ _ Hrun) as (o1 & w1 & Hstart & Hcase).
  destruct (start_ffmpeg_spec _ _ _ _ _ _ _ Hstart)
    as (Hrel1 & _ & new & Hg & Hk0 & Ho1).
  assert (Hk1 : logged is_kill w1 = logged is_kill w).
  { unfold logged. rewrite Hg, count_events_app, Hk0. done. }
  unfold agree, recorded in *.
  destruct o1 as [[p|]|e| |]; try done.
  - destruct Ho1 as (_ & Hact & _ & Hold).
    destruct Hcase as (w2 & -> & Hrel & Hact' & _ & _ & Hw2 & _ & Htrace & _).
    split_and!; try done.
    + by rewrite Hrel, Hact', Hact, lookup_insert_eq.
    + unfold logged in *. rewrite Htrace, <- Hk1.
      destruct (current_ffmpeg (relay w)) as [old|];
        [destruct (Nat.eqb_spec old p) as [->|Hne]|]; subst w2; try done.
      rewrite retire_on_handoff_exited; [done|].
      simpl. apply Hold; [by symmetry|done].
    + intros _. unfold relay_wf. rewrite Hrel. by eexists.
  - pose proof (time_sleep_frame 10 (emit (EvLog (LogFailedStart quality)) w1)) as Hf.
    assert (Hf2 : preserves (fun w => logged is_kill w) (time_sleep 10))
      by preserves_prim.
    specialize (Hf2 (emit (EvLog (LogFailedStart quality)) w1)).
    assert (Ho : interrupt_or_lookup (time_sleep 10 (emit (EvLog (LogFailedStart quality)) w1)).1).
    { unfold time_sleep. repeat case_match; simpl; auto. }
    rewrite <- Hcase in Hf, Hf2, Ho. simpl in Hf, Hf2, Ho.
    injection Hf as _ Hrel Hact _ _.
    split_and!; try done.
    + rewrite Hrel, Hact, Hrel1. by rewrite Ho1.
    + by rewrite Hf2.
    + unfold relay_wf. by rewrite Hrel, Hrel1.
  - destruct Hcase as [-> ->]. destruct Ho1 as [He Hact].
    split_and!; try done.
    + by rewrite Hrel1, Hact.
    + unfold relay_wf. by rewrite Hrel1.
Qed.

Lemma start_new_ffmpeg_carries_on (cfg : Config) stream quality :
  carries_on cfg (start_new_ffmpeg cfg stream quality).
Proof.
  intros n w (Hwf & Hag & Hk).
  destruct (start_new_ffmpeg_order cfg stream quality w Hag) as (? & ? & ? & ?).
  unfold orderly. split_and!; auto. congruence.
Qed.

Create HintDb carry.
#[local] Hint Resolve carries_on_ret time_sleep_carries_on logger_carries_on
  get_carries_on get_available_streams_carries_on start_new_ffmpeg_carries_on
  : carry.

Ltac carry_step :=
  first
    [ solve [eauto with carry]
    | apply carries_on_bind; [|intros ?]
    | apply self_set_carries_on; intros ?; by split
    | apply lift_carries_on; done
    | progress cbv zeta
    | progress (repeat case_match) ].

Ltac carry := unfold self_get, time_time; repeat carry_step.

Lemma carries_on_at {A} (cfg : Config) (m : M A) (n : nat) (w w' : World)
    (o : outcome A) :
  carries_on cfg m -> m w = (o, w') -> orderly cfg n w ->
  orderly cfg n w' /\ interrupt_or_lookup o.
Proof. intros Hm Hrun Hw. specialize (Hm n w Hw). by rewrite Hrun in Hm. Qed.

Ltac carries_on_here cfg :=
  match goal with
  | |- ?m ?w = (_, _) -> _ =>
      let H := fresh "H" in
      let Hrun := fresh "Hrun" in
      assert (H : carries_on cfg m);
      [|intros Hrun; by apply (carries_on_at cfg m _ w _ _ H Hrun)]
  end.

Lemma wait_poll_carries_on (cfg : Config) : carries_on cfg wait_poll.
Proof.
  unfold wait_poll. carry.
  match goal with
  | |- carries_on _ (lift (pick_best_stream ?s)) =>
      destruct (pick_best_stream_returns s) as [qs ->]; [done|]
  end.
  by apply lift_carries_on.
Qed.

Lemma wait_for_stream_carries_on (cfg : Config) (fuel : nat) :
  carries_on cfg (wait_for_stream fuel).
Proof.
  induction fuel as [|fuel IH]; cbn [wait_for_stream].
  - by apply lift_carries_on.
  - pose proof (wait_poll_carries_on cfg). carry.
Qed.

Lemma poll_exited_order (p : nat) : preserves order_frame (poll_exited p).
Proof. preserves_prim. Qed.

Lemma check_carries_on (cfg : Config) stream quality :
  carries_on cfg (check cfg stream quality).
Proof.
  intros n w Hw.
  destruct (check cfg stream quality w) as [o w'] eqn:Hrun. cbn [fst snd].
  revert Hrun. unfold check. unfold bind at 1, self_get at 1, get.
  destruct (current_ffmpeg (relay w)) as [p|] eqn:Hcur.
  - unfold bind at 1.
    pose proof (poll_exited_order p w) as Hf.
    pose proof (poll_exited_frame p w) as Hf'.
    destruct (poll_exited_returns p w) as [dead Hdead].
    destruct (poll_exited p w) as [o1 w1]; cbn [fst snd] in *; subst o1.
    injection Hf' as Hrel _ _ Hclock.
    assert (Hw1 : orderly cfg n w1) by (by apply (orderly_frame cfg n w)).
    destruct dead.
    + carries_on_here cfg. carry.
    + unfold bind at 1, time_time, get. unfold bind at 1, self_get at 1, get.
      destruct (start_time (relay w1)) as [t0|] eqn:Ht0.
      2:{ exfalso. destruct Hw as (Hwf & _). unfold relay_wf in Hwf.
          rewrite Hcur in Hwf. rewrite Hrel in Ht0.
          destruct Hwf as [? ?]; [by eexists|congruence]. }
      cbv zeta.
      destruct (clock w1 - t0 >? FFMPEG_MAX_RUNTIME); carries_on_here cfg; carry.
      match goal with
      | H : dict_mem "best" ?a && _ = true, H0 : dict_get "best" ?a = None |- _ =>
          apply andb_true_iff in H as [H _]; rewrite dict_mem_get, H0 in H;
          by apply bool_decide_eq_true in H as [v ?]
      end.
  - unfold bind at 1, ret. carries_on_here cfg. carry.
Qed.

Lemma relaying_carries_on (cfg : Config) fuel stream quality :
  carries_on cfg (relaying cfg fuel stream quality).
Proof.
  induction fuel as [|fuel IH]; cbn [relaying].
  - by apply lift_carries_on.
  - pose proof (check_carries_on cfg). carry.
Qed.

Lemma start_relay_loop_carries_on (cfg : Config) passes fuel :
  carries_on cfg (start_relay_loop cfg passes fuel).
Proof.
  induction passes as [|passes IH]; cbn [start_relay_loop].
  - by apply lift_carries_on.
  - pose proof (wait_for_stream_carries_on cfg).
    pose proof (relaying_carries_on cfg).
    unfold relay_pass. carry.
Qed.

(** The run of [__main__] up to the end of its [try] block: it does not
    return; it ends with Ctrl-C or with the error of a look-up, the two
    records of the subprocess in agreement, and no subprocess killed. *)
Lemma main_body_order (cfg : Config) (fuel : nat) (w : World) :
  recorded cfg w = None ->
  let run := (logger LogSupport ;; start_relay cfg fuel) (with_relay Relay_init w) in
  agree cfg run.2 /\
  logged is_kill run.2 = logged is_kill w /\
  (run.1 = OutOfFuel \/ run.1 = Raise KeyboardInterrupt \/ run.1 = Raise RuntimeError).
Proof.
  intros Hrec. cbv zeta.
  assert (Hs : carries_on cfg (logger LogSupport ;; start_relay cfg fuel)).
  { unfold start_relay. pose proof (start_relay_loop_carries_on cfg). carry. }
  destruct (Hs (logged is_kill w) (with_relay Relay_init w)) as ((_ & Hag & Hk) & Ho).
  { unfold orderly, relay_wf, agree. simpl. split_and!; try done. }
  split_and!; try done.
  assert (Hb : ((logger LogSupport ;; start_relay cfg fuel) (with_relay Relay_init w)).1
               = (start_relay_loop cfg fuel fuel
                    (emit (EvLog LogSupport) (with_relay Relay_init w))).1)
    by reflexivity.
  rewrite Hb in Ho |- *.
  pose proof (start_relay_loop_goes_on cfg fuel fuel
                (emit (EvLog LogSupport) (with_relay Relay_init w))) as Hgo.
  destruct (start_relay_loop cfg fuel fuel _).1 as [[]|e| |]; simpl in *.
  - by destruct (Hgo tt).
  - destruct Ho as [->| ->]; auto.
  - done.
  - auto.
Qed.

Lemma main_unfold (cfg : Config) (fuel : nat) (w : World) :
  main cfg fuel w
    = match (logger LogSupport ;; start_relay cfg fuel) (with_relay Relay_init w) with
      | (Ret _, w1) => shutdown w1
      | (Raise e, w1) =>
          if is_KeyboardInterrupt e then shutdown (emit (EvLog LogExiting) w1)
          else (Raise e, w1)
      | (Blocked, w1) => (Blocked, w1)
      | (OutOfFuel, w1) => (OutOfFuel, w1)
      end.
Proof.
  unfold main. unfold bind at 1, modify. unfold bind at 1, try_except.
  destruct ((logger LogSupport ;; start_relay cfg fuel) (with_relay Relay_init w))
    as [[[]|e| |] w1]; try done.
  by destruct (is_KeyboardInterrupt e).
Qed.

Lemma shutdown_cases (w : World) :
  logged is_kill (shutdown w).2 = logged is_kill w /\
  relay (shutdown w).2 = relay w /\
  active_processes (shutdown w).2 = active_processes w /\
  match (shutdown w).1 with
  | Ret _ => True
  | Blocked =>
      exists p, current_ffmpeg (relay w) = Some p /\
                head (trace (shutdown w).2) = Some (EvWait p None false)
  | _ => False
  end.
Proof.
  unfold shutdown. run_prims. simpl.
  destruct (current_ffmpeg (relay w)) as [p|]; simpl; [|done].
  repeat case_match; simplify_eq/=; split_and!; try done; by exists p.
Qed.

(** X12. A handoff that starts with the two records of the subprocess in
    agreement ends with them in agreement, and kills nothing: by the time
    it retires the previous subprocess, the start step has made it exit, so
    the wait returns at once and the [kill()] of the handler is not
    reached. *)
Theorem handoff_never_kills (cfg : Config) (stream : Variant) (quality : string)
    (w : World) :
  agree cfg w ->
  let w' := (start_new_ffmpeg cfg stream quality w).2 in
  agree cfg w' /\ logged is_kill w' = logged is_kill w.
Proof.
  intros Hag. by destruct (start_new_ffmpeg_order cfg stream quality w Hag) as (? & ? & _).
Qed.

Lemma handoff_never_kills_witness :
  let w' := (start_new_ffmpeg cfg0 vbest "best" world_stubborn).2 in
  agree cfg0 world_stubborn /\
  agree cfg0 w' /\ logged is_kill w' = logged is_kill world_stubborn.
Proof.
  assert (H : agree cfg0 world_stubborn) by (vm_compute; reflexivity).
  split; [exact H|].
  exact (handoff_never_kills cfg0 vbest "best" world_stubborn H).
Defined.

(** X13. In a run in which Ctrl-C, if it arrives, arrives while the script
    sleeps, the script never kills a subprocess.  Started with nothing
    recorded, it keeps the handle in [active_processes] and the one in the
    relay equal up to its clean-up, and no [kill()] is made, whatever the
    resolver, the launches, the waits and the binary do. *)
Theorem main_never_kills (cfg : Config) (fuel : nat) (w : World) :
  recorded cfg w = None ->
  logged is_kill (main cfg fuel w).2 = logged is_kill w /\
  agree cfg (main cfg fuel w).2.
Proof.
  intros Hrec.
  destruct (main_body_order cfg fuel w Hrec) as (Hag & Hk & Ho).
  rewrite main_unfold.
  destruct ((logger LogSupport ;; start_relay cfg fuel) (with_relay Relay_init w))
    as [o1 w1]; simpl in *.
  rewrite <- Hk.
  destruct Ho as [->|[->| ->]]; simpl; try done.
  destruct (shutdown_cases (emit (EvLog LogExiting) w1)) as (Hk2 & Hr2 & Ha2 & _).
  split; [by rewrite Hk2|].
  unfold agree, recorded in *. by rewrite Hr2, Ha2.
Qed.

Lemma main_never_kills_witness :
  let w := world0 (with_wait_script [false; false; false; false] env_upgrade) in
  recorded cfg0 w = None /\
  logged is_kill (main cfg0 3 w).2 = logged is_kill w /\
  agree cfg0 (main cfg0 3 w).2.
Proof.
  split; [reflexivity|].
  apply (main_never_kills cfg0 3). reflexivity.
Defined.

(** X14. How the script ends, in a run in which Ctrl-C, if it arrives,
    arrives during a sleep of the relay loop, and no signal arrives during
    the clean-up.  It ends normally only after Ctrl-C, having logged its
    exit line and run the clean-up.  The one exception that ends it is the
    [RuntimeError] of a binary look-up, and then the clean-up is not run:
    the world is as the relay loop left it, the subprocess neither asked to
    exit nor waited for.  The script is stuck only in the wait of the
    clean-up. *)
Theorem main_endings (cfg : Config) (fuel : nat) (w : World) :
  recorded cfg w = None ->
  let body := (logger LogSupport ;; start_relay cfg fuel) (with_relay Relay_init w) in
  match (main cfg fuel w).1 with
  | Ret _ => body.1 = Raise KeyboardInterrupt
  | Raise e => e = RuntimeError /\ main cfg fuel w = body
  | Blocked =>
      body.1 = Raise KeyboardInterrupt /\
      exists p, current_ffmpeg (relay body.2) = Some p /\
                head (trace (main cfg fuel w).2) = Some (EvWait p None false)
  | OutOfFuel => main cfg fuel w = body
  end.
Proof.
  intros Hrec. cbv zeta.
  destruct (main_body_order cfg fuel w Hrec) as (_ & _ & Ho).
  rewrite main_unfold.
  destruct ((logger LogSupport ;; start_relay cfg fuel) (with_relay Relay_init w))
    as [o1 w1]; simpl in *.
  destruct Ho as [->|[->| ->]]; simpl; try done.
  destruct (shutdown_cases (emit (EvLog LogExiting) w1)) as (_ & _ & _ & Ho).
  destruct (shutdown (emit (EvLog LogExiting) w1)) as [[[]|e| |] w2]; simpl in *;
    try done.
Qed.

Lemma main_endings_witness :
  let w := world0 env_binary_removed in
  let body := (logger LogSupport ;; start_relay cfg0 2) (with_relay Relay_init w) in
  recorded cfg0 w = None /\
  (main cfg0 2 w).1 = Raise RuntimeError /\
  match (main cfg0 2 w).1 with
  | Ret _ => body.1 = Raise KeyboardInterrupt
  | Raise e => e = RuntimeError /\ main cfg0 2 w = body
  | Blocked =>
      body.1 = Raise KeyboardInterrupt /\
      exists p, current_ffmpeg (relay body.2) = Some p /\
                head (trace (main cfg0 2 w).2) = Some (EvWait p None false)
  | OutOfFuel => main cfg0 2 w = body
  end.
Proof.
  split; [reflexivity|]. split; [vm_compute; reflexivity|].
  apply (main_endings cfg0 2). reflexivity.
Defined.

(** ** A variant without URL *)

(** X11. A handoff to a variant whose URL cannot be resolved gives up before
    anything else is tried: the binary is not looked up and nothing is
    launched or retired; the two failure lines are logged, the 10 s sleep
    follows, and the relay and the recorded handle are as before. *)
Theorem handoff_without_url (cfg : Config) (stream : Variant) (quality : string)
    (w : World) :
  to_url stream = None ->
  let o := (start_new_ffmpeg cfg stream quality w).1 in
  let w' := (start_new_ffmpeg cfg stream quality w).2 in
  relay w' = relay w /\
  active_processes w' = active_processes w /\
  live w' = live w /\
  lookups w' = lookups w /\
  popen_script (env w') = popen_script (env w) /\
  ((o = Ret tt /\
    trace w' = EvSleep 10 :: EvLog (LogFailedStart quality) :: EvLog LogUrlError
               :: trace w) \/
   (o = Raise KeyboardInterrupt /\
    trace w' = EvLog (LogFailedStart quality) :: EvLog LogUrlError :: trace w)).
Proof.
  intros Hurl. cbv zeta. unfold start_new_ffmpeg, start_ffmpeg. rewrite Hurl.
  run_prims. simpl.
  destruct (sigint_script (env w)) as [|[] r]; simpl; split_and!; auto.
Qed.

Lemma handoff_without_url_witness :
  let stream := mkVariant 3 None in
  let w := world0 (with_lookup_script [fs_missing] env_quiet) in
  let o := (start_new_ffmpeg cfg0 stream "720p" w).1 in
  let w' := (start_new_ffmpeg cfg0 stream "720p" w).2 in
  relay w' = relay w /\
  active_processes w' = active_processes w /\
  live w' = live w /\
  lookups w' = lookups w /\
  popen_script (env w') = popen_script (env w) /\
  ((o = Ret tt /\
    trace w' = EvSleep 10 :: EvLog (LogFailedStart "720p") :: EvLog LogUrlError
               :: trace w) \/
   (o = Raise KeyboardInterrupt /\
    trace w' = EvLog (LogFailedStart "720p") :: EvLog LogUrlError :: trace w)).
Proof.
  apply (handoff_without_url cfg0 (mkVariant 3 None) "720p"). reflexivity.
Defined.

(** ** The checks of the relaying loop *)

(** X15. The subprocess is gone, or there is none: the check logs it and leaves
    the loop at once.  It does not poll the resolver, starts nothing, and
    leaves the relay as it is, the handle of the dead subprocess
    included. *)
Theorem check_breaks_on_exit (cfg : Config) (stream : Variant) (quality : string)
    (w : World) :
  (current_ffmpeg (relay w) = None \/
   exists p, current_ffmpeg (relay w) = Some p /\ (poll_exited p w).1 = Ret true) ->
  let w1 := match current_ffmpeg (relay w) with
            | Some p => (poll_exited p w).2
            | None => w
            end in
  check cfg stream quality w = (Ret true, emit (EvLog LogEnded) w1) /\
  relay w1 = relay w /\
  active_processes w1 = active_processes w /\
  resolve_script (env w1) = resolve_script (env w) /\
  count_events is_launch (trace w1) = count_events is_launch (trace w).
Proof.
  intros Hdead. cbv zeta. unfold check. unfold bind at 1, self_get at 1, get.
  destruct Hdead as [Hcur|(p & Hcur & Hpoll)]; rewrite Hcur.
  - done.
  - unfold bind at 1.
    assert (Hf : preserves (fun w => (relay w, active_processes w,
                                      resolve_script (env w),
                                      count_events is_launch (trace w)))
                   (poll_exited p)) by preserves_prim.
    specialize (Hf w).
    destruct (poll_exited p w) as [o1 w1]; simpl in *. subst o1.
    injection Hf as -> -> -> ->. done.
Qed.

Lemma check_breaks_on_exit_witness :
  let w := with_live (fun _ => ∅) world_first_session in
  current_ffmpeg (relay w) = Some 0%nat /\
  check cfg0 v720 "720p" w
    = (Ret true, emit (EvLog LogEnded) (poll_exited 0 w).2).
Proof.
  split; [vm_compute; reflexivity|].
  apply (check_breaks_on_exit cfg0 v720 "720p"
           (with_live (fun _ => ∅) world_first_session)).
  right. exists 0%nat. split; vm_compute; reflexivity.
Defined.

Lemma poll_exited_alive (p : nat) (w w1 : World) :
  poll_exited p w = (Ret false, w1) ->
  p ∈ live w /\
  trace w1 = EvPoll p false :: trace w /\
  (live w1, relay w1, active_processes w1, next_pid w1, clock w1)
    = (live w, relay w, active_processes w, next_pid w, clock w).
Proof.
  unfold poll_exited. repeat case_match; intros [= <-]; by split_and!.
Qed.

(** A check that has got as far as the resolver, with the world the poll of
    the resolver leaves. *)
Lemma check_polls_run (cfg : Config) stream quality (w w1 : World) :
  check_polls w w1 ->
  check cfg stream quality w
    = (if dict_mem "best" (polled w1)
          && differs (current_quality (relay w)) "best" then
         logged <- self_get last_upgrade_logged ;;
         (if negb logged then
            logger LogUpgrade ;; self_set (set_last_upgrade_logged true)
          else ret tt) ;;
         best <- lift (match dict_get "best" (polled w1) with
                       | Some v => Ret v
                       | None => Raise KeyError
                       end) ;;
         start_new_ffmpeg cfg best "best" ;; ret true
       else
         self_set (set_last_upgrade_logged false) ;;
         status <- self_get last_stream_status ;;
         match polled w1 with
         | [] =>
             if differs status "offline" then
               logger LogOffline ;;
               self_set (set_last_stream_status (Some "offline")) ;; ret true
             else ret false
         | _ :: _ => ret false
         end) (get_available_streams w1).2.
Proof.
  intros (p & t0 & Hcur & Hpoll & Hstart & Hlate).
  pose proof (poll_exited_frame p w) as Hf1.
  rewrite Hpoll in Hf1. simpl in Hf1. injection Hf1 as Hrel1 _ _ Hclock1.
  destruct (get_available_streams_run w1) as (w2 & Hpolled & _ & Hrel2 & _).
  rewrite Hpolled. simpl.
  unfold check. unfold bind at 1, self_get at 1, get. rewrite Hcur.
  unfold bind at 1. rewrite Hpoll.
  unfold bind at 1, time_time, get. unfold bind at 1, self_get at 1, get.
  rewrite Hrel1, Hstart, Hclock1. cbv zeta. rewrite Hlate.
  unfold bind at 1. rewrite Hpolled.
  unfold bind at 1, self_get at 1, get. by rewrite Hrel2, Hrel1.
Qed.

(** X16. The source is gone while the subprocess runs.  When the recorded
    status is not offline yet, the check logs the offline line and leaves
    the loop; when it is, the loop goes on.  Either way the subprocess is
    left alone: it is not asked to exit, it is still recorded and still
    running. *)
Theorem check_offline_leaves_subprocess (cfg : Config) (stream : Variant)
    (quality : string) (w : World) :
  offline_check w ->
  let o := (check cfg stream quality w).1 in
  let w' := (check cfg stream quality w).2 in
  o = Ret (differs (last_stream_status (relay w)) "offline") /\
  (exists p, current_ffmpeg (relay w') = Some p /\ p ∈ live w') /\
  live w' = live w /\
  active_processes w' = active_processes w /\
  logged is_retire w' = logged is_retire w /\
  logged is_launch w' = logged is_launch w /\
  relay w' = set_last_stream_status (Some "offline")
               (set_last_upgrade_logged false (relay w)).
Proof.
  intros (w1 & Hpolls & Hnone). cbv zeta.
  rewrite (check_polls_run cfg stream quality w w1 Hpolls).
  destruct Hpolls as (p & t0 & Hcur & Hpoll & Hstart & Hlate).
  apply poll_exited_alive in Hpoll as (Halive & Htr1 & Hf1).
  destruct (get_available_streams_trace w1) as (found & Htr2 & Hf2).
  destruct (get_available_streams w1).2 as [L2 n2 c2 t2 e2 a2 r2] eqn:Hw2.
  simpl in Htr2, Hf2.
  injection Hf1 as HL1 Hr1 Ha1 _ _. injection Hf2 as HL2 Hr2 Ha2 _ _.
  rewrite Hnone. simpl. run_prims. simpl. subst.
  rewrite Hr1, HL1, Ha1. unfold logged. simpl. rewrite Htr1.
  destruct (last_stream_status (relay w)) as [y|] eqn:Hst; simpl;
    [destruct (String.eqb_spec y "offline") as [->|Hne]|]; simpl;
    rewrite ?count_events_cons; simpl; rewrite ?Hcur;
    split_and!; try done; eauto.
  destruct (relay w); simpl in *; by subst.
Qed.

Lemma check_offline_leaves_subprocess_witness :
  let w := world_first_session in
  let o := (check cfg0 v720 "720p" w).1 in
  let w' := (check cfg0 v720 "720p" w).2 in
  offline_check w /\
  o = Ret (differs (last_stream_status (relay w)) "offline") /\
  (exists p, current_ffmpeg (relay w') = Some p /\ p ∈ live w') /\
  live w' = live w /\
  active_processes w' = active_processes w /\
  logged is_retire w' = logged is_retire w /\
  logged is_launch w' = logged is_launch w /\
  relay w' = set_last_stream_status (Some "offline")
               (set_last_upgrade_logged false (relay w)).
Proof.
  assert (H : offline_check world_first_session).
  { exists (poll_exited 0 world_first_session).2. split; [|vm_compute; reflexivity].
    exists 0%nat, 0. split_and!; vm_compute; reflexivity. }
  split; [exact H|].
  exact (check_offline_leaves_subprocess cfg0 v720 "720p" world_first_session H).
Defined.

Lemma bind_ret_true_not_false {A} (m : M A) (w w' : World) :
  (m ;; ret true) w <> (Ret false, w').
Proof. unfold bind, ret. by destruct (m w) as [[a|e| |] w1]. Qed.

(** X17. The loop of checks goes on only when the subprocess is running and
    within its maximum runtime, no upgrade is to be made, and the resolver
    still offers something or the status is offline already.  Such a check
    polls the subprocess and the resolver and does nothing else: it logs
    nothing, sleeps nothing, starts and stops nothing, and only lowers the
    upgrade flag. *)
Theorem check_goes_on (cfg : Config) (stream : Variant) (quality : string)
    (w w' : World) :
  check cfg stream quality w = (Ret false, w') ->
  (exists w1,
     check_polls w w1 /\
     dict_mem "best" (polled w1) && differs (current_quality (relay w)) "best"
       = false /\
     (polled w1 <> [] \/ last_stream_status (relay w) = Some "offline")) /\
  (exists p found,
     current_ffmpeg (relay w) = Some p /\ p ∈ live w' /\
     trace w' = EvResolve found :: EvPoll p false :: trace w) /\
  relay w' = set_last_upgrade_logged false (relay w) /\
  live w' = live w /\
  active_processes w' = active_processes w.
Proof.
  intros Hrun.
  assert (Hpolls : exists w1, check_polls w w1).
  { revert Hrun. unfold check. unfold bind at 1, self_get at 1, get.
    destruct (current_ffmpeg (relay w)) as [p|] eqn:Hcur; [|done].
    unfold bind at 1. pose proof (poll_exited_frame p w) as Hf.
    destruct (poll_exited p w) as [[[]|e| |] w1] eqn:Hpoll; try done.
    simpl in Hf. injection Hf as Hrel _ _ Hclock.
    unfold bind at 1, time_time, get. unfold bind at 1, self_get at 1, get.
    rewrite Hrel.
    destruct (start_time (relay w)) as [t0|] eqn:Ht0; [|done]. cbv zeta.
    rewrite Hclock.
    destruct (clock w - t0 >? FFMPEG_MAX_RUNTIME) eqn:Hlate.
    { intros Hrun. exfalso. revert Hrun. unfold bind at 1, logger, modify.
      apply bind_ret_true_not_false. }
    intros _. exists w1, p, t0. by split_and!. }
  destruct Hpolls as (w1 & Hpolls).
  rewrite (check_polls_run cfg stream quality w w1 Hpolls) in Hrun.
  pose proof Hpolls as (p & t0 & Hcur & Hpoll & Hstart & Hlate).
  apply poll_exited_alive in Hpoll as (Halive & Htr1 & Hf1).
  destruct (get_available_streams_trace w1) as (found & Htr2 & Hf2).
  destruct (get_available_streams w1).2 as [L2 n2 c2 t2 e2 a2 r2] eqn:Hw2.
  simpl in Htr2, Hf2.
  injection Hf1 as HL1 Hr1 Ha1 _ Hc1. injection Hf2 as HL2 Hr2 Ha2 _ Hc2.
  destruct (dict_mem "best" (polled w1)
            && differs (current_quality (relay w)) "best") eqn:Hup.
  { exfalso. revert Hrun. unfold bind at 1, self_get, get. unfold bind at 1.
    destruct (negb _); run_prims; simpl;
      destruct (dict_get "best" (polled w1)); simpl; try done;
      apply (bind_ret_true_not_false (start_new_ffmpeg cfg _ "best")). }
  revert Hrun. run_prims. simpl. subst.
  destruct (polled w1) as [|item rest] eqn:Hpolled.
  - destruct (differs (last_stream_status (relay w1)) "offline") eqn:Hd; [done|].
    intros [= <-]. simpl. rewrite Hr1, HL1, Ha1, Htr1.
    split_and!; try done.
    + exists w1. rewrite Hpolled. split_and!; try done. right.
      rewrite Hr1 in Hd. destruct (last_stream_status (relay w)) as [y|]; [|done].
      simpl in Hd. apply negb_false_iff, String.eqb_eq in Hd. by subst.
    + exists p, found. by split_and!.
  - intros [= <-]. simpl. rewrite Hr1, HL1, Ha1, Htr1.
    split_and!; try done.
    + exists w1. rewrite Hpolled. split_and!; try done. by left.
    + exists p, found. by split_and!.
Qed.

Lemma check_goes_on_witness :
  let w := with_env (with_resolve_script [Some [("720p", v720)]] env_quiet)
             world_first_session in
  let w' := (check cfg0 v720 "720p" w).2 in
  (check cfg0 v720 "720p" w).1 = Ret false /\
  (exists p found,
     current_ffmpeg (relay w) = Some p /\ p ∈ live w' /\
     trace w' = EvResolve found :: EvPoll p false :: trace w) /\
  relay w' = set_last_upgrade_logged false (relay w) /\
  live w' = live w /\
  active_processes w' = active_processes w.
Proof.
  set (w := with_env (with_resolve_script [Some [("720p", v720)]] env_quiet)
              world_first_session).
  assert (H : check cfg0 v720 "720p" w = (Ret false, (check cfg0 v720 "720p" w).2))
    by (vm_compute; reflexivity).
  split; [by rewrite H|].
  by destruct (check_goes_on cfg0 v720 "720p" w _ H) as (_ & ? & ? & ? & ?).
Defined.

(** X18. The upgrade.  A check that finds [best] on offer while another quality
    is relayed raises the upgrade flag and hands over to the variant the
    resolver has under [best].  When the start step of that handoff returns
    a handle, the relay records it, running, with the quality [best] and
    that variant, so the next check finds no upgrade to make.  When the
    start step returns none, whether or not its attempts started
    subprocesses, the relay keeps its session and its recorded handle, and
    only the upgrade flag is up. *)
Theorem check_upgrade_handoff (cfg : Config) (stream : Variant) (quality : string)
    (w : World) :
  upgrade_check w ->
  let o := (check cfg stream quality w).1 in
  let w' := (check cfg stream quality w).2 in
  exists w1 best w3,
    check_polls w w1 /\
    dict_get "best" (polled w1) = Some best /\
    relay w3 = set_last_upgrade_logged true (relay w) /\
    check cfg stream quality w = (start_new_ffmpeg cfg best "best" ;; ret true) w3 /\
    match (start_ffmpeg cfg best "best" 3 w3).1 with
    | Ret (Some p) =>
        o = Ret true /\ p ∈ live w' /\ recorded cfg w' = Some p /\
        relay w' = mkRelay (Some p) (Some "best") (Some (clock w')) (Some best)
                     (last_stream_status (relay w)) true /\
        differs (current_quality (relay w')) "best" = false
    | _ =>
        (o = Ret true \/ exists e, o = Raise e) /\
        relay w' = set_last_upgrade_logged true (relay w) /\
        recorded cfg w' = recorded cfg w
    end.
Proof.
  intros (w1 & Hpolls & Hbest & Hdiff). cbv zeta.
  destruct (check cfg stream quality w) as [o w'] eqn:Hcheck. cbn [fst snd].
  rewrite (check_polls_run cfg stream quality w w1 Hpolls) in Hcheck.
  rewrite Hbest, Hdiff in Hcheck. cbn [andb] in Hcheck.
  rewrite dict_mem_get in Hbest. apply bool_decide_eq_true in Hbest as [best Hv].
  rewrite Hv in Hcheck.
  destruct (get_available_streams_run w1) as (w2 & Hpolled & _ & Hrel2 & _).
  destruct (get_available_streams_trace w1) as (found & _ & Hf2).
  rewrite Hpolled in Hcheck, Hf2. cbn [fst snd] in Hcheck, Hf2.
  injection Hf2 as _ _ Hact2 _ _.
  pose proof Hpolls as (p0 & t0 & Hcur & Hpoll & Hstart & Hlate).
  apply poll_exited_alive in Hpoll as (_ & _ & Hf1).
  injection Hf1 as _ Hrel1 Hact1 _ _.
  revert Hcheck. unfold bind at 1, self_get, get. unfold bind at 1.
  assert (Hflag : exists w3,
    (if negb (last_upgrade_logged (relay w2)) then
       logger LogUpgrade ;; self_set (set_last_upgrade_logged true)
     else ret tt) w2 = (Ret tt, w3) /\
    relay w3 = set_last_upgrade_logged true (relay w) /\
    active_processes w3 = active_processes w).
  { rewrite Hrel2, Hrel1.
    destruct (last_upgrade_logged (relay w)) eqn:Hl; run_prims; simpl;
      eexists; (split; [reflexivity|]); simpl; rewrite ?Hrel2, ?Hrel1;
      (split; [|congruence]); [|done].
    destruct (relay w); simpl in *; by subst. }
  destruct Hflag as (w3 & -> & Hrel3 & Hact3).
  unfold bind at 1, lift. intros Hcheck.
  exists w1, best, w3. split_and!; [done|done|done|done|].
  revert Hcheck. unfold bind at 1.
  destruct (start_new_ffmpeg cfg best "best" w3) as [o4 w4] eqn:Hrun.
  destruct (start_new_ffmpeg_cases _ _ _ _ _ _ Hrun) as (o1 & w5 & Hstart1 & Hcase).
  destruct (start_ffmpeg_spec _ _ _ _ _ _ _ Hstart1) as (Hrel5 & _ & new & _ & _ & Ho1).
  rewrite Hstart1. cbn [fst snd]. unfold recorded.
  destruct o1 as [[p|]|e| |]; try done.
  - destruct Hcase as (w6 & -> & Hrel & Ha6 & _ & _ & Hw6 & Hlive & _ & Hclock).
    destruct Ho1 as (_ & Ha5 & Hp & _). intros [= <- <-].
    rewrite Hrel, Hrel3, Hclock, Hlive, Ha6, Ha5. simpl. split_and!; try done.
    + destruct (current_ffmpeg (relay w3)) as [old|];
        [destruct (Nat.eqb_spec old p) as [Heq|Hne]|]; subst w6; try done.
      destruct (retire_on_handoff_spec old (emit (EvLog (LogStopping old)) w5))
        as (_ & -> & _). simpl. set_solver.
    + apply lookup_insert_eq.
  - intros Hcheck.
    pose proof (time_sleep_frame 10 (emit (EvLog (LogFailedStart "best")) w5)) as Hf.
    rewrite <- Hcase in Hf. simpl in Hf. injection Hf as _ Hrel Ha _ _.
    assert (Ho : o4 = Ret tt \/ o4 = Raise KeyboardInterrupt).
    { assert (H : forall w, (time_sleep 10 w).1 = Ret tt \/
                            (time_sleep 10 w).1 = Raise KeyboardInterrupt).
      { intros w0. unfold time_sleep. repeat case_match; simpl; auto. }
      specialize (H (emit (EvLog (LogFailedStart "best")) w5)).
      by rewrite <- Hcase in H. }
    simpl in Ho1.
    destruct Ho as [-> | ->]; injection Hcheck as <- <-; (split_and!; [eauto| |]);
      congruence.
  - intros Hcheck. destruct Hcase as [-> ->]. injection Hcheck as <- <-.
    destruct Ho1 as [_ Ha5]. split_and!; [eauto| |]; congruence.
Qed.

Lemma check_upgrade_handoff_witness :
  let w := with_env (with_resolve_script [Some [("720p", v720); ("best", vbest)]] env_quiet)
             world_first_session in
  let o := (check cfg0 v720 "720p" w).1 in
  let w' := (check cfg0 v720 "720p" w).2 in
  upgrade_check w /\
  exists w1 best w3,
    check_polls w w1 /\
    dict_get "best" (polled w1) = Some best /\
    relay w3 = set_last_upgrade_logged true (relay w) /\
    check cfg0 v720 "720p" w = (start_new_ffmpeg cfg0 best "best" ;; ret true) w3 /\
    match (start_ffmpeg cfg0 best "best" 3 w3).1 with
    | Ret (Some p) =>
        o = Ret true /\ p ∈ live w' /\ recorded cfg0 w' = Some p /\
        relay w' = mkRelay (Some p) (Some "best") (Some (clock w')) (Some best)
                     (last_stream_status (relay w)) true /\
        differs (current_quality (relay w')) "best" = false
    | _ =>
        (o = Ret true \/ exists e, o = Raise e) /\
        relay w' = set_last_upgrade_logged true (relay w) /\
        recorded cfg0 w' = recorded cfg0 w
    end.
Proof.
  set (w := with_env (with_resolve_script [Some [("720p", v720); ("best", vbest)]] env_quiet)
              world_first_session).
  assert (H : upgrade_check w).
  { exists (poll_exited 0 w).2. split; [|split; vm_compute; reflexivity].
    exists 0%nat, 0. split_and!; vm_compute; reflexivity. }
  split; [exact H|].
  exact (check_upgrade_handoff cfg0 v720 "720p" w H).
Defined.

(** ** The configuration loader *)

Lemma rstrip_idem (f : ascii -> bool) (s : string) :
  rstrip f (rstrip f s) = rstrip f s.
Proof.
  induction s as [|c r IH]; [done|]. cbn [rstrip].
  destruct (rstrip f r) as [|d r'] eqn:Hr.
  - destruct (f c) eqn:Hc; [done|]. cbn [rstrip]. by rewrite Hc.
  - change (rstrip f (String c (String d r')))
      with (match rstrip f (String d r') with
            | EmptyString => if f c then EmptyString else String c EmptyString
            | String d' r'' => String c (String d' r'')
            end).
    by rewrite IH.
Qed.

Lemma lstrip_head (f : ascii -> bool) (s : string) :
  match lstrip f s with
  | EmptyString => True
  | String c _ => f c = false
  end.
Proof.
  induction s as [|c r IH]; simpl; [done|].
  destruct (f c) eqn:Hc; [done|]. by rewrite Hc.
Qed.

Lemma lstrip_rstrip (f : ascii -> bool) (s : string) :
  match s with EmptyString => True | String c _ => f c = false end ->
  lstrip f (rstrip f s) = rstrip f s.
Proof.
  destruct s as [|c r]; simpl; [done|]. intros Hc.
  destruct (rstrip f r); rewrite ?Hc; simpl; by rewrite Hc.
Qed.

Lemma strip_idem (f : ascii -> bool) (s : string) :
  strip f (strip f s) = strip f s.
Proof.
  unfold strip. rewrite lstrip_rstrip by apply lstrip_head. apply rstrip_idem.
Qed.

Lemma concat_replicate_snoc {A} (n : nat) (l : list A) :
  (concat (replicate n l) ++ l = l ++ concat (replicate n l))%list.
Proof.
  induction n as [|n IH]; simpl; [by rewrite app_nil_r|].
  by rewrite <- app_assoc, IH.
Qed.

Section ConfigLoaderFacts.
Variable urlparse : string -> option (string * string).

Lemma username_of_stripped (line : string) (u : json) :
  username_of urlparse (strip isspace line) = Some u ->
  u = JNull \/
  exists s, u = JStr s /\ s <> "" /\ (strip isspace s = s \/ strip is_slash s = s).
Proof.
  assert (Hor : forall s, or_None s = JNull \/ (or_None s = JStr s /\ s <> "")).
  { intros [|c r]; [by left|by right]. }
  unfold username_of, username_of_url.
  destruct (String.prefix "http" (strip isspace line)).
  - destruct (urlparse _) as [[netloc path]|]; [|done].
    case_bool_decide; [|done]. intros [= <-].
    destruct (Hor (strip is_slash path)) as [->|[-> ?]]; [by left|right].
    eexists. split_and!; [done|done|]. right. apply strip_idem.
  - intros [= <-].
    destruct (Hor (strip isspace line)) as [->|[-> ?]]; [by left|right].
    eexists. split_and!; [done|done|]. left. apply strip_idem.
Qed.

(** One round of the loader on a machine without configuration. *)
Lemma load_config_round (fuel : nat) (c : Console) :
  config_json c = None ->
  load_config urlparse (S fuel) c
    = match typed c with
      | [] => (Fails EOFError,
               mkConsole [] ("Twitch username or URL: " :: shown c) None)
      | line :: rest =>
          match username_of urlparse (strip isspace line) with
          | None =>
              load_config urlparse fuel
                (mkConsole rest ("Invalid Twitch URL" :: "Twitch username or URL: "
                                 :: shown c) None)
          | Some username =>
              match rest with
              | [] => (Fails EOFError,
                       mkConsole [] ("YouTube stream key: "
                                     :: "Twitch username or URL: " :: shown c) None)
              | key :: rest' =>
                  let cfg := [("username", username);
                              ("youtube_key", JStr (strip isspace key))] in
                  (Done cfg,
                   mkConsole rest' ("Config saved to config.json"
                                    :: "YouTube stream key: "
                                    :: "Twitch username or URL: " :: shown c)
                             (Some (Some cfg)))
              end
          end
      end.
Proof.
  intros Hnone. cbn [load_config]. rewrite Hnone. unfold input, print, json_dump.
  destruct (typed c) as [|line rest]; simpl; rewrite ?Hnone; [done|].
  destruct (username_of urlparse (strip isspace line)); [|done].
  by destruct rest.
Qed.

(** The rounds of the loader on a machine without configuration. *)
Lemma load_config_rounds (fuel : nat) (c c' : Console) (cfg : dict json) :
  config_json c = None ->
  load_config urlparse fuel c = (Done cfg, c') ->
  exists (rejected : list string) (line key : string) (username : json),
    typed c = (rejected ++ line :: key :: typed c')%list /\
    Forall (fun l => String.prefix "http" (strip isspace l) = true /\
                     username_of urlparse (strip isspace l) = None) rejected /\
    username_of urlparse (strip isspace line) = Some username /\
    cfg = [("username", username); ("youtube_key", JStr (strip isspace key))] /\
    (length rejected < fuel)%nat /\
    shown c'
      = ("Config saved to config.json" :: "YouTube stream key: "
         :: "Twitch username or URL: "
         :: concat (replicate (length rejected)
                      ["Invalid Twitch URL"; "Twitch username or URL: "])
         ++ shown c)%list.
Proof.
  revert c. induction fuel as [|fuel IH]; intros c Hnone; [done|].
  rewrite load_config_round by done.
  destruct (typed c) as [|l rest] eqn:Htyped; [done|].
  destruct (username_of urlparse (strip isspace l)) as [u|] eqn:Hu.
  - destruct rest as [|key rest']; [done|]. intros [= <- <-]. simpl.
    exists [], l, key, u. simpl. split_and!; try done. lia.
  - intros Hrun. apply IH in Hrun as (rej & line & key & u & Ht & Hrej & Hl & Hcfg & Hlen & Hs);
      [|done].
    simpl in Ht, Hs. exists (l :: rej), line, key, u. simpl.
    split_and!; try done; try lia.
    + by rewrite Ht.
    + constructor; [|done]. split; [|done].
      unfold username_of in Hu. by destruct (String.prefix "http" (strip isspace l)).
    + rewrite Hs. do 3 f_equal.
      change ("Invalid Twitch URL" :: "Twitch username or URL: " :: shown c)
        with (["Invalid Twitch URL"; "Twitch username or URL: "] ++ shown c)%list.
      rewrite app_assoc, concat_replicate_snoc. by rewrite <- app_assoc.
Qed.

(** The loader with enough rounds, as a function of the machine it is run
    on. *)
Lemma load_config_run (fuel : nat) (c : Console) :
  (length (typed c) < fuel)%nat ->
  config_json c = None ->
  let r := load_config urlparse fuel c in
  match from_first_answer urlparse (typed c) with
  | line :: key :: rest =>
      exists username,
        username_of urlparse (strip isspace line) = Some username /\
        r.1 = Done [("username", username);
                    ("youtube_key", JStr (strip isspace key))] /\
        typed r.2 = rest /\
        config_json r.2
          = Some (Some [("username", username);
                        ("youtube_key", JStr (strip isspace key))])
  | _ => r.1 = Fails EOFError /\ typed r.2 = [] /\ config_json r.2 = None
  end.
Proof.
  revert c. induction fuel as [|fuel IH]; intros c Hlen Hnone; [lia|].
  cbv zeta. rewrite load_config_round by done.
  destruct (typed c) as [|line rest] eqn:Ht; [done|].
  cbn [from_first_answer].
  destruct (username_of urlparse (strip isspace line)) as [u|] eqn:Hu.
  - destruct rest as [|key rest']; [done|]. exists u. by split_and!.
  - simpl in Hlen.
    apply (IH (mkConsole rest ("Invalid Twitch URL" :: "Twitch username or URL: "
                               :: shown c) None)); simpl; [lia|done].
Qed.

End ConfigLoaderFacts.

(** X19. Once the loader has returned, [config.json] holds what it returned,
    and a later call returns the same configuration without asking or
    printing anything. *)
Theorem load_config_saved (urlparse : string -> option (string * string))
    (fuel fuel' : nat) (c c' : Console) (cfg : dict json) :
  load_config urlparse fuel c = (Done cfg, c') ->
  config_json c' = Some (Some cfg) /\
  load_config urlparse (S fuel') c' = (Done cfg, c').
Proof.
  intros Hrun.
  assert (Hfile : config_json c' = Some (Some cfg)).
  { revert c Hrun. induction fuel as [|fuel IH]; intros c; [done|].
    destruct (config_json c) as [[d|]|] eqn:Hc.
    - cbn [load_config]. rewrite Hc. by intros [= <- <-].
    - cbn [load_config]. by rewrite Hc.
    - rewrite load_config_round by done.
      destruct (typed c) as [|line rest]; [done|].
      destruct (username_of urlparse (strip isspace line)); [|apply IH].
      destruct rest; [done|]. by intros [= <- <-]. }
  split; [done|]. cbn [load_config]. by rewrite Hfile.
Qed.

(** X20. On a machine without configuration the loader reads its answers in
    order.  Every answer that starts with [http] and is not a URL of
    [twitch.tv] or [www.twitch.tv] is answered by "Invalid Twitch URL" and
    the first question again; the first other answer gives the username,
    the line after it the key, both without the white space around them,
    which is the white space of [str.strip], the no-break space included.
    The lines after the key are left unread. *)
Theorem load_config_asks (urlparse : string -> option (string * string))
    (fuel : nat) (c c' : Console) (cfg : dict json) :
  config_json c = None ->
  load_config urlparse fuel c = (Done cfg, c') ->
  exists (rejected : list string) (line key : string) (username : json),
    typed c = (rejected ++ line :: key :: typed c')%list /\
    Forall (fun l => String.prefix "http" (strip isspace l) = true /\
                     username_of urlparse (strip isspace l) = None) rejected /\
    username_of urlparse (strip isspace line) = Some username /\
    cfg = [("username", username); ("youtube_key", JStr (strip isspace key))] /\
    (length rejected < fuel)%nat /\
    shown c'
      = ("Config saved to config.json" :: "YouTube stream key: "
         :: "Twitch username or URL: "
         :: concat (replicate (length rejected)
                      ["Invalid Twitch URL"; "Twitch username or URL: "])
         ++ shown c)%list.
Proof. apply load_config_rounds. Qed.

(** X21. What the loader stores: the answer to the first question that it did
    not reject, and the line after it as key, both without the white space
    around them.  When the answer starts with [http], it is a URL of
    [twitch.tv] or [www.twitch.tv], and the username is its path without
    the slashes around it, or [None] when nothing is left of the path.
    Otherwise the username is the answer itself, or [None] when the answer
    is blank.  A username that is a string is not empty and has no slash,
    respectively no white space, around it. *)
Theorem load_config_values (urlparse : string -> option (string * string))
    (fuel : nat) (c c' : Console) (cfg : dict json) :
  config_json c = None ->
  load_config urlparse fuel c = (Done cfg, c') ->
  exists (rejected : list string) (line key : string) (username : json),
    typed c = (rejected ++ line :: key :: typed c')%list /\
    cfg = [("username", username); ("youtube_key", JStr (strip isspace key))] /\
    strip isspace (strip isspace key) = strip isspace key /\
    let answer := strip isspace line in
    (if String.prefix "http" answer then
       exists netloc path,
         urlparse answer = Some (netloc, path) /\
         netloc ∈ ["twitch.tv"; "www.twitch.tv"] /\
         match strip is_slash path with
         | EmptyString => username = JNull
         | s => username = JStr s /\ strip is_slash s = s
         end
     else
       match answer with
       | EmptyString => username = JNull
       | s => username = JStr s /\ strip isspace s = s
       end).
Proof.
  intros Hnone Hrun.
  destruct (load_config_rounds urlparse fuel c c' cfg Hnone Hrun)
    as (rej & line & key & u & Ht & _ & Hu & -> & _).
  exists rej, line, key, u. split_and!; [done|done|apply strip_idem|].
  cbv zeta. revert Hu. unfold username_of, username_of_url.
  destruct (String.prefix "http" (strip isspace line)).
  - destruct (urlparse _) as [[netloc path]|]; [|done].
    case_bool_decide; [|done]. intros [= <-]. exists netloc, path.
    split_and!; [done|done|].
    pose proof (strip_idem is_slash path) as Hidem.
    by destruct (strip is_slash path).
  - intros [= <-]. pose proof (strip_idem isspace line) as Hidem.
    by destruct (strip isspace line).
Qed.

(** X22. The loader with more rounds than typed lines, as a function of the
    machine.  With a [config.json] that holds an object it returns that
    object and touches nothing; with one it cannot parse it raises the
    error of [json.load] and touches nothing.  Without the file it
    returns, and writes the file, exactly when a line follows the first
    answer that it does not reject; otherwise it raises [EOFError] with all
    lines read and no file written. *)
Theorem load_config_ends (urlparse : string -> option (string * string))
    (fuel : nat) (c : Console) :
  (length (typed c) < fuel)%nat ->
  let r := load_config urlparse fuel c in
  match config_json c with
  | Some (Some cfg) => r = (Done cfg, c)
  | Some None => r = (Fails JSONDecodeError, c)
  | None =>
      match from_first_answer urlparse (typed c) with
      | line :: key :: rest =>
          exists username,
            username_of urlparse (strip isspace line) = Some username /\
            r.1 = Done [("username", username);
                        ("youtube_key", JStr (strip isspace key))] /\
            typed r.2 = rest /\
            config_json r.2
              = Some (Some [("username", username);
                            ("youtube_key", JStr (strip isspace key))])
      | _ => r.1 = Fails EOFError /\ typed r.2 = [] /\ config_json r.2 = None
      end
  end.
Proof.
  intros Hlen. cbv zeta.
  destruct (config_json c) as [[d|]|] eqn:Hc.
  - destruct fuel; [lia|]. cbn [load_config]. by rewrite Hc.
  - destruct fuel; [lia|]. cbn [load_config]. by rewrite Hc.
  - by apply load_config_run.
Qed.

Lemma load_config_saved_witness :
  let c := console_fresh ["channel"; "key"] in
  let cfg := [("username", JStr "channel"); ("youtube_key", JStr "key")] in
  let c' := (load_config urlparse_plain 1 c).2 in
  load_config urlparse_plain 1 c = (Done cfg, c') /\
  config_json c' = Some (Some cfg) /\
  load_config urlparse_plain 1 c' = (Done cfg, c').
Proof.
  assert (H : load_config urlparse_plain 1 (console_fresh ["channel"; "key"])
              = (Done [("username", JStr "channel"); ("youtube_key", JStr "key")],
                 (load_config urlparse_plain 1 (console_fresh ["channel"; "key"])).2))
    by reflexivity.
  split; [exact H|].
  exact (load_config_saved urlparse_plain 1 0 _ _ _ H).
Defined.

Lemma load_config_asks_witness :
  let c := console_fresh ["https://example.com/channel";
                          (nbsp +:+ " https://www.twitch.tv/channel/ ")%string;
                          (" key" +:+ nbsp)%string; "more"] in
  let cfg := [("username", JStr "channel"); ("youtube_key", JStr "key")] in
  let c' := (load_config urlparse_plain 2 c).2 in
  load_config urlparse_plain 2 c = (Done cfg, c') /\
  exists (rejected : list string) (line key : string) (username : json),
    typed c = (rejected ++ line :: key :: typed c')%list /\
    Forall (fun l => String.prefix "http" (strip isspace l) = true /\
                     username_of urlparse_plain (strip isspace l) = None) rejected /\
    username_of urlparse_plain (strip isspace line) = Some username /\
    cfg = [("username", username); ("youtube_key", JStr (strip isspace key))] /\
    (length rejected < 2)%nat /\
    shown c'
      = ("Config saved to config.json" :: "YouTube stream key: "
         :: "Twitch username or URL: "
         :: concat (replicate (length rejected)
                      ["Invalid Twitch URL"; "Twitch username or URL: "])
         ++ shown c)%list.
Proof.
  set (c := console_fresh ["https://example.com/channel";
                           (nbsp +:+ " https://www.twitch.tv/channel/ ")%string;
                           (" key" +:+ nbsp)%string; "more"]).
  assert (H : load_config urlparse_plain 2 c
              = (Done [("username", JStr "channel"); ("youtube_key", JStr "key")],
                 (load_config urlparse_plain 2 c).2))
    by (vm_compute; reflexivity).
  split; [exact H|].
  exact (load_config_asks urlparse_plain 2 c _ _ eq_refl H).
Defined.

Lemma load_config_values_witness :
  let c := console_fresh [(nbsp +:+ "https://twitch.tv//" +:+ nbsp)%string; " "] in
  let cfg := [("username", JNull); ("youtube_key", JStr "")] in
  load_config urlparse_plain 1 c = (Done cfg, (load_config urlparse_plain 1 c).2) /\
  exists (rejected : list string) (line key : string) (username : json),
    typed c = (rejected ++ line :: key :: typed (load_config urlparse_plain 1 c).2)%list /\
    cfg = [("username", username); ("youtube_key", JStr (strip isspace key))] /\
    strip isspace (strip isspace key) = strip isspace key /\
    let answer := strip isspace line in
    (if String.prefix "http" answer then
       exists netloc path,
         urlparse_plain answer = Some (netloc, path) /\
         netloc ∈ ["twitch.tv"; "www.twitch.tv"] /\
         match strip is_slash path with
         | EmptyString => username = JNull
         | s => username = JStr s /\ strip is_slash s = s
         end
     else
       match answer with
       | EmptyString => username = JNull
       | s => username = JStr s /\ strip isspace s = s
       end).
Proof.
  set (c := console_fresh [(nbsp +:+ "https://twitch.tv//" +:+ nbsp)%string; " "]).
  assert (H : load_config urlparse_plain 1 c
              = (Done [("username", JNull); ("youtube_key", JStr "")],
                 (load_config urlparse_plain 1 c).2))
    by (vm_compute; reflexivity).
  split; [exact H|].
  exact (load_config_values urlparse_plain 1 c _ _ eq_refl H).
Defined.

Lemma load_config_ends_witness :
  let c := console_fresh ["http://example.com"; "channel"] in
  (length (typed c) < 3)%nat /\
  from_first_answer urlparse_plain (typed c) = ["channel"] /\
  (load_config urlparse_plain 3 c).1 = Fails EOFError /\
  typed (load_config urlparse_plain 3 c).2 = [] /\
  config_json (load_config urlparse_plain 3 c).2 = None.
Proof.
  set (c := console_fresh ["http://example.com"; "channel"]).
  assert (Hlen : (length (typed c) < 3)%nat) by (simpl; lia).
  split; [exact Hlen|]. split; [vm_compute; reflexivity|].
  exact (load_config_ends urlparse_plain 3 c Hlen).
Defined.

(** X23. The globals read from the configuration.  A configuration the loader
    has just asked for has both keys, so reading them raises nothing; the
    ingest URL is the fixed prefix followed by the key as typed, without
    the white space around it.  With a blank answer for the channel the
    username is [None], and the channel polled for is the one named
    [None]. *)
Theorem fresh_config_globals (urlparse : string -> option (string * string))
    (fuel : nat) (c c' : Console) (cfg : dict json) :
  config_json c = None ->
  load_config urlparse fuel c = (Done cfg, c') ->
  exists (rejected : list string) (line key : string) (user : json),
    typed c = (rejected ++ line :: key :: typed c')%list /\
    config_globals cfg
      = Some (user, JStr (strip isspace key),
              "rtmps://a.rtmps.youtube.com/live2/" +:+ strip isspace key) /\
    (strip isspace line = "" ->
     user = JNull /\ channel_url user = "https://www.twitch.tv/None").
Proof.
  intros Hnone Hrun.
  destruct (load_config_rounds urlparse fuel c c' cfg Hnone Hrun)
    as (rej & line & key & u & Ht & _ & Hu & -> & _).
  exists rej, line, key, u. split_and!; [done|done|].
  intros Hblank. rewrite Hblank in Hu. injection Hu as <-. done.
Qed.

Lemma fresh_config_globals_witness :
  let c := console_fresh ["  "; (nbsp +:+ "abcd-efgh" +:+ nbsp)%string] in
  let cfg := [("username", JNull); ("youtube_key", JStr "abcd-efgh")] in
  load_config urlparse_plain 1 c = (Done cfg, (load_config urlparse_plain 1 c).2) /\
  exists (rejected : list string) (line key : string) (user : json),
    typed c = (rejected ++ line :: key :: typed (load_config urlparse_plain 1 c).2)%list /\
    config_globals cfg
      = Some (user, JStr (strip isspace key),
              "rtmps://a.rtmps.youtube.com/live2/" +:+ strip isspace key) /\
    (strip isspace line = "" ->
     user = JNull /\ channel_url user = "https://www.twitch.tv/None").
Proof.
  assert (H : load_config urlparse_plain 1 (console_fresh ["  "; (nbsp +:+ "abcd-efgh" +:+ nbsp)%string])
              = (Done [("username", JNull); ("youtube_key", JStr "abcd-efgh")],
                 (load_config urlparse_plain 1 (console_fresh ["  "; (nbsp +:+ "abcd-efgh" +:+ nbsp)%string])).2))
    by (vm_compute; reflexivity).
  split; [exact H|].
  exact (fresh_config_globals urlparse_plain 1
           (console_fresh ["  "; (nbsp +:+ "abcd-efgh" +:+ nbsp)%string]) _ _ eq_refl H).
Defined.
